(** * ALO system: reasoning loop, execution sandbox, experience memory

    A shallow embedding of the parts of the repository that its specification
    talks about, with the properties of the specification stated and settled
    against them.

    The model:
    - [Py]            : the Python string and integer primitives the code uses
    - [Chunking]      : [RAGSystem.chunk_text] (orchestrator.py) and
                        [RAGSystem._chunk_text] (rag_system.py)
    - [Memory]        : [LearningSystem] of learning_system.py
    - [Json], [Monad] : decoded JSON values, exceptions, and computations over
                        a state that return or raise
    - [ActionExec]    : [ActionExecutor._bash_execute] of action_executor.py
    - [Orchestrator]  : [SecureExecutor], [LearningSystem] and [ReActEngine]
                        of orchestrator.py
    - [Rag]           : [RAGSystem.search] and [RAGSystem.retrieve_context]
                        of rag_system.py
    - [MemoryIO]      : [LearningSystem.store_experience] of
                        learning_system.py with the writes it makes
    - [MemorySpec], [EngineSpec], [Demo] : the words of the properties, and
                        concrete inputs
    - [StoreSpec], [ClassifySpec], [SandboxSpec], [ChunkingSpec],
      [PlaybookSpec], [RagSpec], [DemoStore], [DemoMore] :
                        the words of the further properties, and their inputs

    The properties: [PyFacts], [ChunkingFacts], [MemoryFacts], [SandboxFacts],
    [EngineFacts], [ConfidenceFacts].

    Further properties of the code: [AuditFacts], [AuditRecordFacts],
    [AuditLogFacts], [RunFacts], [EngineMoreFacts], [FenceFacts],
    [ExecutorMoreFacts], [ActionExecFacts], [MemoryMoreFacts], [RagFacts],
    [WindowFacts].

    Python [int] is [Z]; [float] is idealised as [Q]; [str] is [string]
    (one [ascii] per character, [lower] and [strip] on ASCII); a [dict] used
    as a map is a [gmap] or, where it comes from JSON text, an association
    list. What the code asks of the outside (the clock, the environment, the
    completion provider, the vector store, processes and files) is a function
    of an abstract world, gathered in a class [Env]. *)

From Stdlib Require Import ZArith QArith Qminmax List Ascii String Lia Bool.
From Stdlib Require Import Sorting.Sorted Permutation.
From stdpp Require Import base gmap strings list fin_maps pretty.
Import ListNotations.

#[local] Open Scope string_scope.
#[local] Open Scope list_scope.
#[local] Open Scope Z_scope.

(* ===================================================================== *)
(** ** Python primitives *)
(* ===================================================================== *)

Module Py.

(** [len(s)] *)
Definition len (s : string) : Z := Z.of_nat (String.length s).

(** [c.lower()] on one ASCII character. *)
Definition lower_ascii (c : ascii) : ascii :=
  let n := nat_of_ascii c in
  if ((65 <=? n) && (n <=? 90))%nat then ascii_of_nat (n + 32) else c.

(** [s.lower()] *)
Fixpoint lower (s : string) : string :=
  match s with
  | EmptyString => EmptyString
  | String c r => String (lower_ascii c) (lower r)
  end.

(** [s.startswith(p)] *)
Fixpoint startswith (p s : string) : bool :=
  match p, s with
  | EmptyString, _ => true
  | String a p', String b s' => if Ascii.eqb a b then startswith p' s' else false
  | String _ _, EmptyString => false
  end.

(** [sub in s] *)
Fixpoint contains (sub s : string) : bool :=
  if startswith sub s then true
  else match s with
       | EmptyString => false
       | String _ r => contains sub r
       end.

(** [any(k in s for k in ks)] *)
Definition any_in (ks : list string) (s : string) : bool :=
  existsb (fun k => contains k s) ks.

Fixpoint take (n : nat) (s : string) : string :=
  match n, s with
  | O, _ => EmptyString
  | _, EmptyString => EmptyString
  | S n', String c r => String c (take n' r)
  end.

Fixpoint drop (n : nat) (s : string) : string :=
  match n, s with
  | O, _ => s
  | _, EmptyString => EmptyString
  | S n', String _ r => drop n' r
  end.

(** How a slice bound is brought into [0, len]: a negative bound counts from
    the end, and the result is clipped. *)
Definition clip (n i : Z) : Z :=
  let i' := if i <? 0 then i + n else i in
  Z.max 0 (Z.min n i').

(** [s[a:b]] *)
Definition slice (s : string) (a b : Z) : string :=
  let n := len s in
  let a' := clip n a in
  let b' := clip n b in
  take (Z.to_nat (b' - a')) (drop (Z.to_nat a') s).

(** [s[:b]] *)
Definition slice_to (s : string) (b : Z) : string := slice s 0 b.

(** The ASCII characters [str.strip()] removes. *)
Definition isspace (c : ascii) : bool :=
  let n := nat_of_ascii c in
  (((9 <=? n) && (n <=? 13)) || ((28 <=? n) && (n <=? 32)))%nat.

Fixpoint lstrip (s : string) : string :=
  match s with
  | EmptyString => EmptyString
  | String c r => if isspace c then lstrip r else s
  end.

Fixpoint rstrip (s : string) : string :=
  match s with
  | EmptyString => EmptyString
  | String c r =>
      match rstrip r with
      | EmptyString => if isspace c then EmptyString else String c EmptyString
      | r' => String c r'
      end
  end.

(** [s.strip()] *)
Definition strip (s : string) : string := rstrip (lstrip s).

(** Truth value of a string: non-empty. *)
Definition truthy (s : string) : bool :=
  match s with EmptyString => false | _ => true end.

(** The line feed. *)
Definition nl : string := String (ascii_of_nat 10) EmptyString.

(** [sep.join(l)] *)
Fixpoint join (sep : string) (l : list string) : string :=
  match l with
  | [] => EmptyString
  | [x] => x
  | x :: r => x +:+ sep +:+ join sep r
  end.

(** The text before and after the leftmost occurrence of [sep] (not empty). *)
Fixpoint split_once (sep s : string) : option (string * string) :=
  if startswith sep s then Some (EmptyString, drop (String.length sep) s)
  else match s with
       | EmptyString => None
       | String c r =>
           match split_once sep r with
           | Some (b, a) => Some (String c b, a)
           | None => None
           end
       end.

(** [s.split(sep)[0]] *)
Definition split0 (sep s : string) : string :=
  match split_once sep s with
  | Some (b, _) => b
  | None => s
  end.

(** [s.split(sep)[1]], for an [s] that has [sep] in it. *)
Definition split1 (sep s : string) : string :=
  match split_once sep s with
  | Some (_, a) => split0 sep a
  | None => EmptyString
  end.

(** [range(0, stop, step)]; [None] is the [ValueError] for a zero step. *)
Definition range0 (stop step : Z) : option (list Z) :=
  if step =? 0 then None
  else
    let count :=
      if 0 <? step then (if 0 <? stop then (stop + step - 1) / step else 0)
      else (if stop <? 0 then (- stop + - step - 1) / (- step) else 0) in
    Some (map (fun k => Z.of_nat k * step) (seq 0 (Z.to_nat count))).

End Py.

(* ===================================================================== *)
(** ** Fixed-window chunking *)
(* ===================================================================== *)

Module Chunking.

(** *** orchestrator.py, [RAGSystem.chunk_text]

    The [while] loop, one unit of fuel per iteration; [None] when the fuel is
    used up with the loop condition still true. *)
Fixpoint chunk_loop (fuel : nat) (text : string) (chunk_size chunk_overlap : Z)
    (start : Z) (chunks : list string) : option (list string) :=
  if start <? Py.len text then
    match fuel with
    | O => None
    | S fuel' =>
        let end_ := start + chunk_size in
        let chunk := Py.slice text start end_ in
        chunk_loop fuel' text chunk_size chunk_overlap
          (start + (chunk_size - chunk_overlap)) (chunks ++ [chunk])
    end
  else Some chunks.

Definition chunk_text (fuel : nat) (chunk_size chunk_overlap : Z) (text : string)
  : option (list string) :=
  chunk_loop fuel text chunk_size chunk_overlap 0 [].

(** *** rag_system.py, [RAGSystem._chunk_text] *)

Record chunk (M T : Type) := Chunk {
  chunk_id : string;
  chunk_text_ : string;
  chunk_meta : M;          (* the caller's metadata, [**metadata] *)
  chunk_index : Z;
  chunk_timestamp : T
}.
Arguments Chunk {M T}.
Arguments chunk_id {M T}.
Arguments chunk_text_ {M T}.
Arguments chunk_index {M T}.

Section RagChunk.
Context {M T : Type}.
(** [hashlib.md5(s.encode()).hexdigest()] and [datetime.now().isoformat()]. *)
Variable md5_hex : string -> string.
Variable now_iso : Z -> T.     (* the clock when the chunk at offset [i] is made *)

(** The body of the [for] loop for one offset [i]. *)
Definition chunk_at (text : string) (metadata : M) (chunk_size overlap i : Z)
  : list (chunk M T) :=
  let chunk := Py.slice text i (i + chunk_size) in
  if Py.truthy (Py.strip chunk) then
    [Chunk (md5_hex (chunk +:+ pretty i)) chunk metadata
           (i / (chunk_size - overlap)) (now_iso i)]
  else [].

(** [None] is the [ValueError] of [range] for a zero step. *)
Definition _chunk_text (chunk_size overlap : Z) (text : string) (metadata : M)
  : option (list (chunk M T)) :=
  match Py.range0 (Py.len text) (chunk_size - overlap) with
  | None => None
  | Some offsets =>
      Some (flat_map (chunk_at text metadata chunk_size overlap) offsets)
  end.
End RagChunk.

End Chunking.

(* ===================================================================== *)
(** ** Experience memory (learning_system.py) *)
(* ===================================================================== *)

Module Memory.

(** One element of a strategy: a dict; [a_type] is the value under
    ["action_type"], absent when the key is. *)
Record action := Action {
  a_type : option string;
  a_rest : list (string * string)
}.

Record experience := Experience {
  e_id : string;
  e_task_type : string;
  e_query : string;
  e_strategy : list action;
  e_success : bool;
  e_execution_time : Q;
  e_context : option string;
  e_failure_reason : option string;
  e_timestamp : string;
  e_confidence_score : Q
}.

(** An entry of [patterns["task_patterns"]]. *)
Record pattern := Pattern {
  p_count : Z;
  p_success_rate : Q;
  p_common_actions : list string;
  p_avg_execution_time : Q
}.

Record patterns := Patterns {
  task_patterns : gmap string pattern;
  failure_patterns : gmap string Z
}.

(** An entry of [playbook["strategies"][task_type]]. *)
Record entry := Entry {
  s_hash : string;
  s_strategy : list action;
  s_confidence : Q;
  s_execution_time : Q;
  s_query_example : string
}.

Record capability := Capability {
  c_name : string; c_description : string; c_registered_at : string
}.

Record playbook := Playbook {
  strategies : gmap string (list entry);
  capabilities : list capability
}.

(** [config.learning] *)
Record config := Config {
  auto_learn : bool;
  confidence_threshold : Q
}.

(** The [LearningSystem] object; [rag_added] collects the texts handed to
    [rag_system.add_text]. *)
Record state := State {
  experiences : list experience;
  pats : patterns;
  book : playbook;
  rag_added : list string
}.

(** What [__init__] loads when no file exists. *)
Definition init : state :=
  State [] (Patterns ∅ ∅) (Playbook ∅ []) [].

Inductive exn := ZeroDivisionError.

(** [_calculate_confidence], in exact arithmetic: the float result is the
    rounding of this one (0.8 - 0.2 is 0.6000000000000001). *)
Definition _calculate_confidence (strategy : list action) (success : bool) : Q :=
  let base_score := (if success then 8 # 10 else 2 # 10)%Q in
  let complexity_factor :=
    Qmin (inject_Z (Z.of_nat (length strategy)) / 10)%Q (2 # 10)%Q in
  Qmax 0%Q (Qmin 1%Q (base_score - complexity_factor)%Q).

(** [sum(1 for exp in self.experiences if exp["task_type"] == t and exp["success"])] *)
Definition total_successes (log : list experience) (t : string) : Z :=
  Z.of_nat (length (List.filter (fun e => bool_decide (e_task_type e = t) && e_success e) log)).

(** [sum(exp["execution_time"] for exp in self.experiences if exp["task_type"] == t)] *)
Definition total_time (log : list experience) (t : string) : Q :=
  fold_left Qplus
    (map e_execution_time (List.filter (fun e => bool_decide (e_task_type e = t)) log)) 0%Q.

(** The loop over [experience["strategy"]] that extends [common_actions]. *)
Definition add_common (common : list string) (strategy : list action) : list string :=
  fold_left
    (fun acc a =>
       let action_type := default "unknown" (a_type a) in
       if bool_decide (action_type ∈ acc) then acc else acc ++ [action_type])
    strategy common.

(** The failure counter at the end of [_update_patterns]. *)
Definition track_failure (fp : gmap string Z) (e : experience) : gmap string Z :=
  match e_failure_reason e with
  | Some reason =>
      if negb (e_success e) && Py.truthy reason then
        let failure_key := e_task_type e +:+ ":" +:+ reason in
        let fp' := match fp !! failure_key with
                   | None => <[failure_key := 0]> fp
                   | Some _ => fp
                   end in
        <[failure_key := default 0 (fp' !! failure_key) + 1]> fp'
      else fp
  | None => fp
  end.

(** [_update_patterns]. The pattern dict is updated in place, so a division
    by zero leaves the incremented count behind; the second component is the
    exception raised, if any. *)
Definition _update_patterns (st : state) (e : experience) : state * option exn :=
  let task_type := e_task_type e in
  let tp := task_patterns (pats st) in
  let tp := match tp !! task_type with
            | None => <[task_type := Pattern 0 0%Q [] 0%Q]> tp
            | Some _ => tp
            end in
  let pattern := default (Pattern 0 0%Q [] 0%Q) (tp !! task_type) in
  let count := p_count pattern + 1 in
  let with_pattern p fp :=
    State (experiences st) (Patterns (<[task_type := p]> tp) fp) (book st)
          (rag_added st) in
  if count =? 0 then
    (with_pattern (Pattern count (p_success_rate pattern) (p_common_actions pattern)
                           (p_avg_execution_time pattern))
                  (failure_patterns (pats st)),
     Some ZeroDivisionError)
  else
    let success_rate :=
      (inject_Z (total_successes (experiences st) task_type) / inject_Z count)%Q in
    let common := add_common (p_common_actions pattern) (e_strategy e) in
    let avg := (total_time (experiences st) task_type / inject_Z count)%Q in
    (with_pattern (Pattern count success_rate common avg)
                  (track_failure (failure_patterns (pats st)) e),
     None).

(** [x < y] on confidences. *)
Definition Qltb (x y : Q) : bool := negb (Qle_bool y x).

(** [sorted(l, key=lambda x: x["confidence"], reverse=True)]: the stable sort,
    entries of equal confidence keep their order. *)
Fixpoint insert_desc (x : entry) (l : list entry) : list entry :=
  match l with
  | [] => [x]
  | y :: l' =>
      if Qltb (s_confidence x) (s_confidence y) then y :: insert_desc x l'
      else x :: l
  end.

Definition sorted_desc (l : list entry) : list entry :=
  fold_right insert_desc [] l.

Section WithHash.
(** [hashlib.md5(json.dumps(strategy, sort_keys=True).encode()).hexdigest()],
    [hashlib.md5(s.encode()).hexdigest()] and [json.dumps(strategy)]. *)
Variable strategy_hash : list action -> string.
Variable md5_hex : string -> string.
Variable json_dumps : list action -> string.
Variable cfg : config.

(** [_update_playbook], on [playbook["strategies"]]. *)
Definition _update_playbook (pb : gmap string (list entry)) (e : experience)
  : gmap string (list entry) :=
  let task_type := e_task_type e in
  let confidence := e_confidence_score e in
  if Qle_bool (confidence_threshold cfg) confidence then
    let pb := match pb !! task_type with
              | None => <[task_type := []]> pb
              | Some _ => pb
              end in
    let current := default [] (pb !! task_type) in
    let h := strategy_hash (e_strategy e) in
    let existing := List.filter (fun s => bool_decide (s_hash s = h)) current in
    match existing with
    | [] =>
        let appended :=
          current ++ [Entry h (e_strategy e) confidence (e_execution_time e) (e_query e)] in
        <[task_type := take 5 (sorted_desc appended)]> pb
    | _ :: _ => pb
    end
  else pb.

(** [store_experience] as far as the object in memory goes, none of its
    writes raising (with the writes: [MemoryIO.store_experience]); [now_id]
    and [now_ts] are the two readings of [datetime.now().isoformat()].
    Returns the new state, the experience id and the exception raised on the
    way, if any. *)
Definition store_experience (st : state) (task_type query : string)
    (strategy : list action) (success : bool) (execution_time : Q)
    (context failure_reason : option string) (now_id now_ts : string)
  : state * string * option exn :=
  let experience_id := md5_hex (task_type +:+ now_id) in
  let experience :=
    Experience experience_id task_type query strategy success execution_time
               context failure_reason now_ts
               (_calculate_confidence strategy success) in
  (* _save_experience *)
  let st := State (experiences st ++ [experience]) (pats st) (book st) (rag_added st) in
  if auto_learn cfg then
    match _update_patterns st experience with
    | (st, Some err) => (st, experience_id, Some err)
    | (st, None) =>
        if success then
          let st := State (experiences st) (pats st)
                      (Playbook (_update_playbook (strategies (book st)) experience)
                                (capabilities (book st)))
                      (rag_added st) in
          let text := "Task: " +:+ query +:+ "
Strategy: " +:+ json_dumps strategy +:+ "
Outcome: Success" in
          (State (experiences st) (pats st) (book st) (rag_added st ++ [text]),
           experience_id, None)
        else (st, experience_id, None)
    end
  else (st, experience_id, None).

(** [get_best_strategy] *)
Definition get_best_strategy (st : state) (task_type : string) : option entry :=
  match strategies (book st) !! task_type with
  | Some (s :: _) => Some s
  | _ => None
  end.
End WithHash.

(** [get_pattern_insights]; [None] is the empty dict. *)
Definition get_pattern_insights (st : state) (task_type : string) : option pattern :=
  task_patterns (pats st) !! task_type.

(** [[a.get("action_type", "") for a in actions]] *)
Definition action_sequence (actions : list action) : list string :=
  map (fun a => default "" (a_type a)) actions.

(** [_is_novel_sequence] *)
Definition _is_novel_sequence (st : state) (sequence : list string) : bool :=
  let sequence_str := Py.join "->" sequence in
  negb (existsb
          (fun exp =>
             String.eqb (Py.join "->" (action_sequence (e_strategy exp))) sequence_str)
          (experiences st)).

(** The dict [reflect_on_task] returns. *)
Record reflection := Reflection {
  r_query : string;
  r_outcome : string;
  r_success : bool;
  r_lessons : list string;
  r_improvements : list string
}.

Section WithStr.
(** [str(action)] of a history entry. *)
Variable str_action : action -> string.

(** [reflect_on_task] *)
Definition reflect_on_task (st : state) (query : string) (history : list action)
    (outcome : string) (success : bool) : reflection :=
  if success then
    let lessons := ["Task completed successfully"] in
    let lessons :=
      if Z.of_nat (length history) <? 5
      then lessons ++ ["Efficient solution with minimal steps"]
      else lessons in
    let sequence := action_sequence history in
    let lessons :=
      if _is_novel_sequence st sequence
      then lessons ++ ["Novel action sequence discovered: " +:+ Py.join " -> " sequence]
      else lessons in
    Reflection query outcome success lessons []
  else
    let lessons := ["Task failed - analyzing failure mode"] in
    let improvements :=
      if existsb (fun a => Py.contains "timeout" (Py.lower (str_action a))) history
      then ["Consider breaking long operations into smaller chunks"]
      else [] in
    let improvements :=
      if existsb (fun a => Py.contains "error" (Py.lower (str_action a))) history
      then improvements ++ ["Add error handling and validation"]
      else improvements in
    Reflection query outcome success lessons improvements.
End WithStr.

(** [register_capability]; [now] is [datetime.now().isoformat()]. *)
Definition register_capability (st : state) (capability description now : string)
  : state :=
  let capability_entry := Capability capability description now in
  if bool_decide (capability ∈ map c_name (capabilities (book st))) then st
  else State (experiences st) (pats st)
             (Playbook (strategies (book st)) (capabilities (book st) ++ [capability_entry]))
             (rag_added st).

(** [get_capabilities] *)
Definition get_capabilities (st : state) : list capability :=
  capabilities (book st).

(** The dict [get_statistics] returns. *)
Record statistics := Statistics {
  total_experiences : Z;
  successful_experiences : Z;
  success_rate : Q;
  unique_task_types : Z;
  strategies_in_playbook : Z;
  registered_capabilities : Z
}.

(** [get_statistics] *)
Definition get_statistics (st : state) : statistics :=
  let total := Z.of_nat (length (experiences st)) in
  let successful := Z.of_nat (length (List.filter e_success (experiences st))) in
  Statistics total successful
    (if 0 <? total then (inject_Z successful / inject_Z total)%Q else 0%Q)
    (Z.of_nat (size (task_patterns (pats st))))
    (map_fold (fun _ v acc => acc + Z.of_nat (length v)) 0 (strategies (book st)))
    (Z.of_nat (length (capabilities (book st)))).

End Memory.

(* ===================================================================== *)
(** ** Python values, exceptions, and the state-and-exception monad *)
(* ===================================================================== *)

Module Json.

#[local] Set Warnings "-register-all".

(** A value as [json.loads] builds it; an object keeps its items in order,
    a key is looked up at its first occurrence. *)
Inductive json :=
| JNull
| JBool (b : bool)
| JInt (z : Z)
| JFloat (q : Q)
| JStr (s : string)
| JArr (l : list json)
| JObj (kv : list (string * json)).

Definition dict := list (string * json).

Fixpoint assoc (k : string) (d : dict) : option json :=
  match d with
  | [] => None
  | (k', v) :: d' => if String.eqb k k' then Some v else assoc k d'
  end.

(** [j == s] for a string literal [s]. *)
Definition is_str (j : json) (s : string) : bool :=
  match j with
  | JStr s' => String.eqb s' s
  | _ => false
  end.

Definition type_name (j : json) : string :=
  match j with
  | JNull => "NoneType"
  | JBool _ => "bool"
  | JInt _ => "int"
  | JFloat _ => "float"
  | JStr _ => "str"
  | JArr _ => "list"
  | JObj _ => "dict"
  end.

(** An exception: its class and [str(e)]. *)
Record exn := Exn { exn_class : string; exn_msg : string }.

Definition AttributeError (j : json) (attr : string) : exn :=
  Exn "AttributeError"
      ("'" +:+ type_name j +:+ "' object has no attribute '" +:+ attr +:+ "'").

Definition TypeError (msg : string) : exn := Exn "TypeError" msg.

Inductive res (A : Type) :=
| Ok (a : A)
| Raise (e : exn).
Arguments Ok {A}.
Arguments Raise {A}.

(** [d.get(k, dflt)]; only a dict has the method. *)
Definition get_ (d : json) (k : string) (dflt : json) : res json :=
  match d with
  | JObj kv => Ok (default dflt (assoc k kv))
  | _ => Raise (AttributeError d "get")
  end.

(** [j.lower()]; only a string has the method. *)
Definition lower_ (j : json) : res string :=
  match j with
  | JStr s => Ok (Py.lower s)
  | _ => Raise (AttributeError j "lower")
  end.

(** [len(j)] *)
Definition len_ (j : json) : res Z :=
  match j with
  | JStr s => Ok (Py.len s)
  | JArr l => Ok (Z.of_nat (length l))
  | JObj kv => Ok (Z.of_nat (length kv))
  | _ => Raise (TypeError ("object of type '" +:+ type_name j +:+ "' has no len()"))
  end.

(** ['needle' in j] *)
Definition contains_ (needle : string) (j : json) : res bool :=
  match j with
  | JStr s => Ok (Py.contains needle s)
  | JArr l => Ok (existsb (fun x => is_str x needle) l)
  | JObj kv => Ok (existsb (fun p => String.eqb (fst p) needle) kv)
  | _ => Raise (TypeError ("argument of type '" +:+ type_name j +:+ "' is not iterable"))
  end.

End Json.

Module Monad.
Import Json.

(** A computation over a state [S] that returns or raises; the state reached
    when an exception is raised is kept, as for a Python object mutated before
    the [raise]. *)
Definition M (S A : Type) : Type := S -> S * res A.

Definition ret {S A} (a : A) : M S A := fun s => (s, Ok a).
Definition raise {S A} (e : exn) : M S A := fun s => (s, Raise e).
Definition bind {S A B} (m : M S A) (k : A -> M S B) : M S B :=
  fun s => match m s with
           | (s', Ok a) => k a s'
           | (s', Raise e) => (s', Raise e)
           end.
Definition lift {S A} (r : res A) : M S A := fun s => (s, r).

(** [try: m  except Exception as e: h e] *)
Definition try_ {S A} (m : M S A) (h : exn -> M S A) : M S A :=
  fun s => match m s with
           | (s', Ok a) => (s', Ok a)
           | (s', Raise e) => h e s'
           end.

(** [try: m  finally: c] *)
Definition finally_ {S A} (m : M S A) (c : M S unit) : M S A :=
  fun s => match m s with
           | (s', r) => match c s' with
                        | (s'', Ok _) => (s'', r)
                        | (s'', Raise e) => (s'', Raise e)
                        end
           end.

Definition gets {S A} (f : S -> A) : M S A := fun s => (s, Ok (f s)).
Definition modify {S} (f : S -> S) : M S unit := fun s => (f s, Ok tt).

Declare Scope monad_scope.
Delimit Scope monad_scope with monad.
Notation "x <- m ;; k" := (bind m (fun x => k))
  (at level 100, m at next level, right associativity) : monad_scope.
Notation "m ;;; k" := (bind m (fun _ => k))
  (at level 100, right associativity) : monad_scope.

End Monad.

(* ===================================================================== *)
(** ** action_executor.py: [ActionExecutor._bash_execute] *)
(* ===================================================================== *)

Module ActionExec.
Import Json Monad.
#[local] Open Scope monad_scope.

(** The part of [config.execution] that [_bash_execute] reads. *)
Record config := Config {
  code_execution_enabled : bool;
  safe_mode : bool;
  timeout : Z
}.

(** What [subprocess.run(command, shell=True, capture_output=True, text=True,
    timeout=..., cwd=...)] does. *)
Inductive run_outcome :=
| Completed (returncode : Z) (stdout stderr : string)
| TimeoutExpired
| Failed (e : exn).

(** The returned dict: absent keys are [None]. *)
Record observation := Observation {
  success : bool;
  output : string;
  return_code : option Z;
  action_type : option string
}.

(** The operating system as the executor sees it. *)
Class Env (World : Type) := {
  subprocess_run : World -> json -> Z -> World * run_outcome
}.

(** The world, and the commands handed to [subprocess.run] so far. *)
Record state (World : Type) := State {
  world : World;
  spawned : list json
}.
Arguments State {World}.
Arguments world {World}.
Arguments spawned {World}.

Section WithEnv.
Context {World : Type} `{Env World}.
Variable cfg : config.

Definition dangerous : list string := ["rm -rf"; "dd if="; "mkfs"; "> /dev/"].

Definition run_shell (command : json) : M (state World) run_outcome :=
  fun st =>
    let (w, r) := subprocess_run (world st) command (timeout cfg) in
    (State w (spawned st ++ [command]), Ok r).

(** [_bash_execute]; [self.safe_mode] is [config.execution.safe_mode]. An
    exception leaves through [Raise] (the [command.lower()] of a command
    that is not a string). *)
Definition _bash_execute (params : dict) : M (state World) observation :=
  let command := default (JStr "") (assoc "command" params) in
  if negb (code_execution_enabled cfg) then
    ret (Observation false "Code execution is disabled" None None)
  else
    blocked <- (if safe_mode cfg
                then lc <- lift (lower_ command) ;; ret (Py.any_in dangerous lc)
                else ret false) ;;
    if (blocked : bool) then
      ret (Observation false "Command blocked in safe mode" None None)
    else
      r <- run_shell command ;;
      match r with
      | Completed rc out err =>
          ret (Observation (rc =? 0) (if Py.truthy out then out else err)
                           (Some rc) (Some "bash_execute"))
      | TimeoutExpired =>
          ret (Observation false "Command timed out" None (Some "bash_execute"))
      | Failed e =>
          ret (Observation false (exn_msg e) None (Some "bash_execute"))
      end.
End WithEnv.

End ActionExec.

(* ===================================================================== *)
(** ** rag_system.py: [RAGSystem.search] and [RAGSystem.retrieve_context] *)
(* ===================================================================== *)

Module Rag.
Import Json Monad.
#[local] Open Scope monad_scope.

(** The part of [config.rag] that a search reads. *)
Record config := Config {
  similarity_threshold : Q;
  max_results : Z
}.

(** What [collection.query] returns: one inner list per query embedding. *)
Record query_result := QueryResult {
  documents : list (list string);
  distances : list (list Q);
  metadatas : list (list dict);
  ids : list (list string)
}.

(** An element of the list [search] returns. *)
Record result := Result {
  text : string;
  metadata : dict;
  similarity : Q;
  id : string
}.

Definition IndexError : exn := Exn "IndexError" "list index out of range".

(** [l[i]] *)
Definition index {A : Type} (l : list A) (i : nat) : res A :=
  match nth_error l i with
  | Some x => Ok x
  | None => Raise IndexError
  end.

(** [rows[0][i]] *)
Definition cell {A : Type} (rows : list (list A)) (i : nat) : res A :=
  match index rows 0 with
  | Ok row => index row i
  | Raise e => Raise e
  end.

(** The [for i, doc in enumerate(results['documents'][0])] loop of [search],
    from index [i] on. *)
Fixpoint format_from (cfg : config) (results : query_result) (i : nat)
    (docs : list string) (formatted_results : list result) : res (list result) :=
  match docs with
  | [] => Ok formatted_results
  | doc :: rest =>
      match cell (distances results) i with
      | Raise e => Raise e
      | Ok distance =>
          let sim := (1 - distance)%Q in
          if Qle_bool (similarity_threshold cfg) sim then
            match cell (metadatas results) i with
            | Raise e => Raise e
            | Ok meta =>
                match cell (ids results) i with
                | Raise e => Raise e
                | Ok ident =>
                    format_from cfg results (S i) rest
                      (formatted_results ++ [Result doc meta sim ident])
                end
            end
          else format_from cfg results (S i) rest formatted_results
      end
  end.

(** The formatting of the results in [search]. *)
Definition format_results (cfg : config) (results : query_result) : res (list result) :=
  match documents results with
  | (_ :: _) as docs :: _ => format_from cfg results 0 docs []
  | _ => Ok []
  end.

(** The embedding model and the collection. *)
Class Env (World Vector : Type) := {
  encode : World -> string -> World * res Vector;
  collection_query : World -> Vector -> Z -> option dict -> World * res query_result;
  (* str() of a metadata value *)
  str_value : json -> string
}.

Section WithEnv.
Context {World Vector : Type} `{Env World Vector}.
Variable cfg : config.

(** [search]; [n_results or config.rag.max_results] takes the default for
    [None] and for 0. *)
Definition search (query : string) (n_results : option Z) (filter_metadata : option dict)
  : M World (list result) :=
  let n_results :=
    match n_results with
    | Some n => if n =? 0 then max_results cfg else n
    | None => max_results cfg
    end in
  query_embedding <- (fun w => encode w query) ;;
  results <- (fun w => collection_query w query_embedding n_results filter_metadata) ;;
  lift (format_results cfg results).

(** The [for result in results] loop of [retrieve_context]: it stops at the
    first result that does not fit. *)
Fixpoint collect_context (max_chars : Z) (results : list result)
    (context_parts : list string) (total_chars : Z) : list string :=
  match results with
  | [] => context_parts
  | r :: rest =>
      if max_chars <? total_chars + Py.len (text r) then context_parts
      else
        let source :=
          match assoc "source" (metadata r) with
          | Some (JStr s) => s
          | Some v => str_value v
          | None => "unknown"
          end in
        collect_context max_chars rest
          (context_parts ++ ["[Source: " +:+ source +:+ "]" +:+ Py.nl +:+ text r])
          (total_chars + Py.len (text r))
  end.

(** [retrieve_context] *)
Definition retrieve_context (query : string) (max_tokens : Z) : M World string :=
  results <- search query None None ;;
  let max_chars := max_tokens * 4 in
  let context_parts := collect_context max_chars results [] 0 in
  ret (Py.join (Py.nl +:+ Py.nl +:+ "---" +:+ Py.nl +:+ Py.nl) context_parts).

End WithEnv.

End Rag.

(* ===================================================================== *)
(** ** Experience memory with its files (learning_system.py) *)
(* ===================================================================== *)

(** [LearningSystem.store_experience] with the writes it makes on the way:
    the append to experiences.jsonl, the rewrite of patterns.json and of
    playbook.json, and the call of the retrieval store. None of them is in a
    [try], so an exception of any of them leaves [store_experience]. What is
    done in memory is [Memory._update_patterns] and
    [Memory._update_playbook]. *)
Module MemoryIO.
Import Json Monad Memory.
#[local] Open Scope monad_scope.

Class Env (World : Type) := {
  (* with open(self.experiences_file, 'a') as f:
       f.write(json.dumps(experience) + '\n') *)
  fs_append_experience : World -> experience -> World * res unit;
  (* with open(self.patterns_file, 'w') as f: json.dump(self.patterns, f, indent=2) *)
  fs_save_patterns : World -> patterns -> World * res unit;
  (* with open(self.playbook_file, 'w') as f: json.dump(self.playbook, f, indent=2) *)
  fs_save_playbook : World -> playbook -> World * res unit;
  (* rag_system.add_text(text, metadata={"type": "experience",
       "task_type": task_type, "experience_id": experience_id}) *)
  rag_add_text : World -> string -> string -> string -> World * res unit
}.

(** The [LearningSystem] object and the world its files live in. *)
Record state (World : Type) := WithWorld {
  world : World;
  mem : Memory.state
}.
Arguments WithWorld {World}.
Arguments world {World}.
Arguments mem {World}.

(** The exception of [Memory] as Python raises it. *)
Definition exn_of (e : Memory.exn) : Json.exn :=
  match e with
  | Memory.ZeroDivisionError => Exn "ZeroDivisionError" "division by zero"
  end.

Section WithEnv.
Context {World : Type} `{Env World}.
Variable strategy_hash : list action -> string.
Variable md5_hex : string -> string.
Variable json_dumps : list action -> string.
Variable cfg : config.

Abbreviation M := (Monad.M (state World)).

Definition io_res {A} (f : World -> World * res A) : M A :=
  fun st => let (w, r) := f (world st) in (WithWorld w (mem st), r).

Definition set_mem (m : Memory.state) : M unit :=
  fun st => (WithWorld (world st) m, Ok tt).

(** [_save_experience]: the line is written, then the list is extended. *)
Definition _save_experience (e : experience) : M unit :=
  io_res (fun w => fs_append_experience w e) ;;;
  m <- gets mem ;;
  set_mem (Memory.State (experiences m ++ [e]) (pats m) (book m) (rag_added m)).

(** [_save_patterns] *)
Definition _save_patterns : M unit :=
  m <- gets mem ;;
  io_res (fun w => fs_save_patterns w (pats m)).

(** [_save_playbook] *)
Definition _save_playbook : M unit :=
  m <- gets mem ;;
  io_res (fun w => fs_save_playbook w (book m)).

(** [_update_patterns]: the update of the dict, then [_save_patterns]. *)
Definition _update_patterns (e : experience) : M unit :=
  m <- gets mem ;;
  set_mem (fst (Memory._update_patterns m e)) ;;;
  match snd (Memory._update_patterns m e) with
  | Some err => raise (exn_of err)
  | None => _save_patterns
  end.

(** [_update_playbook]: the update of the dict, then [_save_playbook], which
    is called whatever the confidence. *)
Definition _update_playbook (e : experience) : M unit :=
  m <- gets mem ;;
  set_mem (Memory.State (experiences m) (pats m)
             (Playbook (Memory._update_playbook strategy_hash cfg (strategies (book m)) e)
                       (capabilities (book m)))
             (rag_added m)) ;;;
  _save_playbook.

(** [store_experience]; [now_id] and [now_ts] are the two readings of
    [datetime.now().isoformat()]. It returns the experience id. *)
Definition store_experience (task_type query : string)
    (strategy : list action) (success : bool) (execution_time : Q)
    (context failure_reason : option string) (now_id now_ts : string) : M string :=
  let experience_id := md5_hex (task_type +:+ now_id) in
  let experience :=
    Experience experience_id task_type query strategy success execution_time
               context failure_reason now_ts
               (_calculate_confidence strategy success) in
  _save_experience experience ;;;
  (if auto_learn cfg then
     _update_patterns experience ;;;
     if success then
       _update_playbook experience ;;;
       let text := "Task: " +:+ query +:+ "
Strategy: " +:+ json_dumps strategy +:+ "
Outcome: Success" in
       m <- gets mem ;;
       set_mem (Memory.State (experiences m) (pats m) (book m) (rag_added m ++ [text])) ;;;
       io_res (fun w => rag_add_text w text task_type experience_id)
     else ret tt
   else ret tt) ;;;
  ret experience_id.

End WithEnv.

End MemoryIO.

(* ===================================================================== *)
(** ** orchestrator.py *)
(* ===================================================================== *)

Module Orchestrator.
Import Json Monad.
#[local] Open Scope monad_scope.

(** *** Data *)

(** [Action]; [action_type] and [parameters] hold whatever the decoded
    response held. Times are seconds on the clock. *)
Record action := Action {
  action_type : json;
  parameters : json;
  timestamp : Q
}.

(** An entry of [SecureExecutor.audit_log]. *)
Record audit_entry := AuditEntry {
  au_timestamp : Q;
  au_action : string;
  au_parameters : dict;
  au_result : string;
  au_success : bool
}.

(** [SecureExecutor]; [proc_calls] lists the arguments of the calls to
    [asyncio.create_subprocess_shell] and [asyncio.create_subprocess_exec]
    made so far. *)
Record executor := Executor {
  workspace_path : string;
  safe_mode : bool;
  audit_log : list audit_entry;
  proc_calls : list json
}.

(** An element of [history]. *)
Record step := Step {
  thought : json;
  s_action : action;
  observation : string;
  s_success : bool;
  confidence : json
}.

Record learning := Learning {
  task_type : string;
  context : string;
  successful_strategy : list action;
  failure_modes : list string;
  execution_time : Q;
  confidence_score : Q;
  l_timestamp : Q;
  prerequisites : list string
}.

(** An element of [patterns['success_patterns'][task_type]]. *)
Record success_pattern := SuccessPattern {
  sp_strategy : list action;
  sp_confidence : Q;
  sp_timestamp : Q
}.

Record patterns := Patterns {
  success_patterns : gmap string (list success_pattern);
  failure_patterns : gmap string Z
}.

(** An element of the list [RAGSystem.query] returns. *)
Record doc := Doc {
  d_content : string;
  d_metadata : json;
  d_distance : option Q
}.

(** The arguments of [llm.messages.create]. *)
Record llm_request := LlmRequest {
  rq_model : string;
  rq_max_tokens : Z;
  rq_system : string;
  rq_user : string
}.

(** The dict [run] returns. *)
Record task_result := TaskResult {
  r_success : bool;
  r_result : json;
  r_iterations : Z;
  r_execution_time : Q;
  r_history : list step
}.

(** *** The external collaborators

    Each one is a function of the world; the calls that can raise return a
    [res]. [rag_query] and [rag_add_learning] stand for [RAGSystem.query] and
    [RAGSystem.add_learning], whose bodies catch every exception. *)
Class Env (World : Type) := {
  clock : World -> Q;
  getenv : World -> string -> option string;
  (* str() of a value that is no string, repr() of a datetime, list(set(l)) *)
  py_repr : json -> string;
  datetime_repr : Q -> string;
  list_of_set : list string -> list string;
  json_loads : string -> option json;         (* [None]: JSONDecodeError *)
  json_dumps_docs : list doc -> string;
  (* the texts of the content blocks of the response *)
  llm_create : World -> llm_request -> World * res (list string);
  (* create_subprocess_shell, communicate, decode: returncode, stdout, stderr *)
  proc_shell : World -> json -> World * res (Z * string * string);
  (* hashlib.sha256(s.encode()).hexdigest(): [Raise] is the UnicodeEncodeError
     of s.encode() for a str that has no UTF-8 encoding (a lone surrogate,
     which one [ascii] per character does not show); workspace_path / name *)
  sha256_hex : string -> res string;
  path_join : string -> string -> string;
  (* code_file.write_text(code) *)
  fs_write_temp : World -> string -> string -> World * res unit;
  (* create_subprocess_exec('python3', code_file), communicate, decode *)
  proc_python : World -> string -> World * res (Z * string * string);
  (* code_file.exists() and code_file.unlink() *)
  fs_cleanup : World -> string -> World * res unit;
  (* Path(p).resolve().is_relative_to(workspace), False on any exception *)
  fs_validate_path : World -> string -> json -> bool;
  fs_exists : World -> json -> res bool;
  fs_read_text : World -> json -> World * res string;
  (* path.parent.mkdir and path.write_text *)
  fs_write_text : World -> json -> json -> World * res unit;
  rag_query : World -> json -> json -> json -> World * list doc;
  rag_add_learning : World -> learning -> World * bool;
  (* the append to learnings.jsonl, the rewrite of patterns.json *)
  fs_append_learning : World -> learning -> World * res unit;
  fs_save_patterns : World -> patterns -> World * res unit
}.

(** The objects an [AutonomousOrchestrator] holds, with the world they live
    in; [dispatched] lists the actions [run] passed to [execute_action]. *)
Record state (World : Type) := State {
  world : World;
  exec : executor;
  pats : patterns;
  dispatched : list action
}.
Arguments State {World}.
Arguments world {World}.
Arguments exec {World}.
Arguments pats {World}.
Arguments dispatched {World}.

Section WithEnv.
Context {World : Type} `{Env World}.

Abbreviation M := (Monad.M (state World)).

Definition set_world (w : World) (st : state World) : state World :=
  State w (exec st) (pats st) (dispatched st).
Definition set_exec (ex : executor) (st : state World) : state World :=
  State (world st) ex (pats st) (dispatched st).
Definition set_pats (p : patterns) (st : state World) : state World :=
  State (world st) (exec st) p (dispatched st).

(** A call that changes the world. *)
Definition io {A} (f : World -> World * A) : M A :=
  fun st => let (w, a) := f (world st) in (set_world w st, Ok a).
Definition io_res {A} (f : World -> World * res A) : M A :=
  fun st => let (w, r) := f (world st) in (set_world w st, r).

(** [datetime.now()] *)
Definition now : M Q := gets (fun st => clock (world st)).

(** [str(j)] *)
Definition py_str (j : json) : string :=
  match j with
  | JStr s => s
  | _ => py_repr j
  end.

(** *** SecureExecutor *)

(** [audit] *)
Definition audit (action : string) (params : dict) (result : string)
    (success : bool) : M unit :=
  t <- now ;;
  modify (fun st =>
    let ex := exec st in
    set_exec (Executor (workspace_path ex) (safe_mode ex)
                (audit_log ex ++ [AuditEntry t action params (Py.slice_to result 500) success])
                (proc_calls ex)) st).

(** [validate_path] *)
Definition validate_path (path : json) : M bool :=
  gets (fun st => fs_validate_path (world st) (workspace_path (exec st)) path).

Definition record_proc_call (arg : json) : M unit :=
  modify (fun st =>
    let ex := exec st in
    set_exec (Executor (workspace_path ex) (safe_mode ex) (audit_log ex)
                (proc_calls ex ++ [arg])) st).

Definition dangerous : list string :=
  ["rm -rf /"; "dd if="; "mkfs"; ":(){:|:&};:"; "fork bomb"].

(** [execute_bash] *)
Definition execute_bash (command : json) : M (bool * string) :=
  safe <- gets (fun st => safe_mode (exec st)) ;;
  blocked <- (if (safe : bool)
              then lc <- lift (lower_ command) ;; ret (Py.any_in dangerous lc)
              else ret false) ;;
  if (blocked : bool) then ret (false, "Command blocked by safe mode")
  else
    try_
      (record_proc_call command ;;;
       r <- io_res (fun w => proc_shell w command) ;;
       let '(returncode, stdout, stderr) := r in
       let output := stdout +:+ stderr in
       let success := returncode =? 0 in
       audit "bash_execute" [("command", command)] output success ;;;
       ret (success, output))
      (fun e =>
         let error := exn_msg e in
         audit "bash_execute" [("command", command)] error false ;;;
         ret (false, error)).

(** [execute_python]; a [code] that is no string has no [encode]. The hash
    is taken before the [try]: an exception of [code.encode()] leaves the
    method with nothing written, run or audited. *)
Definition execute_python (code : json) : M (bool * string) :=
  match code with
  | JStr c =>
      digest <- lift (sha256_hex c) ;;
      let code_hash := Py.slice_to digest 8 in
      workspace <- gets (fun st => workspace_path (exec st)) ;;
      let code_file := path_join workspace ("temp_" +:+ code_hash +:+ ".py") in
      finally_
        (try_
           (io_res (fun w => fs_write_temp w code_file c) ;;;
            record_proc_call (JArr [JStr "python3"; JStr code_file]) ;;;
            r <- io_res (fun w => proc_python w code_file) ;;
            let '(returncode, stdout, stderr) := r in
            let output := stdout +:+ stderr in
            let success := returncode =? 0 in
            audit "python_execute" [("code", JStr (Py.slice_to c 200))] output success ;;;
            ret (success, output))
           (fun e =>
              let error := exn_msg e in
              audit "python_execute" [("code", JStr (Py.slice_to c 200))] error false ;;;
              ret (false, error)))
        (io_res (fun w => fs_cleanup w code_file))
  | _ => raise (AttributeError code "encode")
  end.

(** [read_file] *)
Definition read_file (filepath : json) : M (bool * string) :=
  valid <- validate_path filepath ;;
  if negb valid then ret (false, "Path outside workspace")
  else
    try_
      (present <- (fun st => (st, fs_exists (world st) filepath)) ;;
       if negb present then ret (false, "File not found")
       else
         content <- io_res (fun w => fs_read_text w filepath) ;;
         audit "file_read" [("filepath", filepath)]
               ("Read " +:+ pretty (Py.len content) +:+ " chars") true ;;;
         ret (true, content))
      (fun e =>
         let error := exn_msg e in
         audit "file_read" [("filepath", filepath)] error false ;;;
         ret (false, error)).

(** [write_file] *)
Definition write_file (filepath content : json) : M (bool * string) :=
  valid <- validate_path filepath ;;
  if negb valid then ret (false, "Path outside workspace")
  else
    try_
      (io_res (fun w => fs_write_text w filepath content) ;;;
       n <- lift (len_ content) ;;
       audit "file_write" [("filepath", filepath)]
             ("Wrote " +:+ pretty n +:+ " chars") true ;;;
       ret (true, "Wrote " +:+ pretty n +:+ " characters to " +:+ py_str filepath))
      (fun e =>
         let error := exn_msg e in
         audit "file_write" [("filepath", filepath)] error false ;;;
         ret (false, error)).
(** *** LearningSystem *)

(** [_classify_task] *)
Definition _classify_task (query : string) : string :=
  let query_lower := Py.lower query in
  if Py.any_in ["file"; "read"; "write"; "create"] query_lower then "file_operation"
  else if Py.any_in ["search"; "find"; "look"] query_lower then "information_retrieval"
  else if Py.any_in ["code"; "script"; "program"; "function"] query_lower then "code_generation"
  else if Py.any_in ["install"; "setup"; "configure"] query_lower then "system_setup"
  else if Py.any_in ["analyze"; "check"; "test"] query_lower then "analysis"
  else "general_task".

(** The body of the loop of [_extract_prerequisites] for one entry; the
    entry's action is an [Action], so [action] is its [to_dict()]. *)
Definition prerequisite_of (entry : step) : res (list string) :=
  let a := s_action entry in
  match contains_ "install" (action_type a) with
  | Raise e => Raise e
  | Ok has_install =>
      if has_install || Py.contains "pip" (py_str (parameters a)) then
        Ok ["dependency: " +:+ py_str (parameters a)]
      else if is_str (action_type a) "file_read" then
        match get_ (parameters a) "filepath" JNull with
        | Raise e => Raise e
        | Ok fp => Ok ["requires file: " +:+ py_str fp]
        end
      else Ok []
  end.

Fixpoint collect_prerequisites (history : list step) (prereqs : list string)
  : res (list string) :=
  match history with
  | [] => Ok prereqs
  | entry :: rest =>
      match prerequisite_of entry with
      | Raise e => Raise e
      | Ok new => collect_prerequisites rest (prereqs ++ new)
      end
  end.

(** [_extract_prerequisites] *)
Definition _extract_prerequisites (history : list step) : res (list string) :=
  match collect_prerequisites history [] with
  | Raise e => Raise e
  | Ok prereqs => Ok (list_of_set prereqs)
  end.

(** The loop over [learning.failure_modes] in [_update_patterns]. *)
Definition count_failures (fp : gmap string Z) (failures : list string) : gmap string Z :=
  fold_left
    (fun fp failure =>
       let fp := match fp !! failure with
                 | None => <[failure := 0]> fp
                 | Some _ => fp
                 end in
       <[failure := default 0 (fp !! failure) + 1]> fp)
    failures fp.

(** [_update_patterns], with the [_save_patterns] that ends it. *)
Definition _update_patterns (l : learning) : M unit :=
  modify (fun st =>
    let p := pats st in
    let sp := success_patterns p in
    let sp := match sp !! task_type l with
              | None => <[task_type l := []]> sp
              | Some _ => sp
              end in
    let sp :=
      <[task_type l := default [] (sp !! task_type l)
                       ++ [SuccessPattern (successful_strategy l) (confidence_score l)
                                          (l_timestamp l)]]> sp in
    set_pats (Patterns sp (count_failures (failure_patterns p) (failure_modes l))) st) ;;;
  p <- gets pats ;;
  io_res (fun w => fs_save_patterns w p).

(** [store_learning] *)
Definition store_learning (l : learning) : M unit :=
  io_res (fun w => fs_append_learning w l) ;;;
  io (fun w => rag_add_learning w l) ;;;
  _update_patterns l.

(** The confidence [reflect_on_task] computes: the share of successful steps. *)
Definition success_ratio (history : list step) : Q :=
  let successful_actions := List.filter s_success history in
  let total_actions := Z.of_nat (length history) in
  let successful_count := Z.of_nat (length successful_actions) in
  if 0 <? total_actions then (inject_Z successful_count / inject_Z total_actions)%Q
  else 0%Q.

(** [reflect_on_task] *)
Definition reflect_on_task (query : string) (history : list step) (final_result : json)
    (execution_time : Q) : M learning :=
  let task_type := _classify_task query in
  let successful_actions := List.filter s_success history in
  let failures :=
    map observation (List.filter (fun h => negb (s_success h)) history) in
  let confidence := success_ratio history in
  prerequisites <- lift (_extract_prerequisites history) ;;
  t <- now ;;
  let l := Learning task_type query (map s_action successful_actions) failures
                    execution_time confidence t prerequisites in
  store_learning l ;;;
  ret l.

(** *** ReActEngine *)

Record engine := Engine {
  max_iterations : Z;
  system_prompt : string
}.

(** [execute_action]. The branch for ['complete'] returns the value under
    ['result'] as it is; it is shown through [str], which changes nothing for
    a string, so that every branch yields text. [run] never takes it. *)
Definition execute_action (a : action) : M (bool * string) :=
  let action_type := action_type a in
  let params := parameters a in
  try_
    (if is_str action_type "bash_execute" then
       command <- lift (get_ params "command" (JStr "")) ;;
       execute_bash command
     else if is_str action_type "python_execute" then
       code <- lift (get_ params "code" (JStr "")) ;;
       execute_python code
     else if is_str action_type "file_read" then
       filepath <- lift (get_ params "filepath" (JStr "")) ;;
       read_file filepath
     else if is_str action_type "file_write" then
       filepath <- lift (get_ params "filepath" (JStr "")) ;;
       content <- lift (get_ params "content" (JStr "")) ;;
       write_file filepath content
     else if is_str action_type "rag_query" then
       query <- lift (get_ params "query" (JStr "")) ;;
       collection <- lift (get_ params "collection" (JStr "docs")) ;;
       n_results <- lift (get_ params "n_results" (JInt 5)) ;;
       results <- io (fun w => rag_query w query collection n_results) ;;
       ret (true, json_dumps_docs results)
     else if is_str action_type "install_dependency" then
       package <- lift (get_ params "package" (JStr "")) ;;
       execute_bash (JStr ("pip install " +:+ py_str package))
     else if is_str action_type "complete" then
       result <- lift (get_ params "result" (JStr "Task completed")) ;;
       ret (true, py_str result)
     else ret (false, "Unknown action type: " +:+ py_str action_type))
    (fun e => ret (false, exn_msg e)).

(** [repr] of an [Action]. *)
Definition repr_action (a : action) : string :=
  "Action(action_type=" +:+ py_repr (action_type a) +:+ ", parameters="
  +:+ py_repr (parameters a) +:+ ", timestamp=" +:+ datetime_repr (timestamp a) +:+ ")".

Definition format_step (i : nat) (h : step) : string :=
  "Step " +:+ pretty (Z.of_nat i + 1) +:+ ":" +:+ Py.nl
  +:+ "Thought: " +:+ py_str (thought h) +:+ Py.nl
  +:+ "Action: " +:+ repr_action (s_action h) +:+ Py.nl
  +:+ "Observation: " +:+ Py.slice_to (observation h) 200.

(** [history[-5:]] *)
Definition last5 (history : list step) : list step :=
  drop (length history - 5)%nat history.

Definition user_message (query context : string) (history : list step) : string :=
  let history_text := Py.join Py.nl (imap format_step (last5 history)) in
  "Task: " +:+ query +:+ Py.nl +:+ Py.nl
  +:+ "Relevant Knowledge:" +:+ Py.nl +:+ context +:+ Py.nl +:+ Py.nl
  +:+ "Execution History:" +:+ Py.nl +:+ history_text +:+ Py.nl +:+ Py.nl
  +:+ "What should you do next?".

(** The removal of a Markdown fence around the response. *)
Definition unfence (content : string) : string :=
  if Py.contains "```json" content then
    Py.strip (Py.split0 "```" (Py.split1 "```json" content))
  else if Py.contains "```" content then
    Py.strip (Py.split0 "```" (Py.split1 "```" content))
  else content.

Definition complete_action (result : string) : json :=
  JObj [("action_type", JStr "complete"); ("parameters", JObj [("result", JStr result)])].

(** The decision [think_and_act] returns when [json.loads] fails. *)
Definition parse_error_decision : json :=
  JObj [("thought", JStr "Error parsing response");
        ("action", complete_action "Error in reasoning");
        ("confidence", JFloat 0)].

(** The decision [think_and_act] returns on any other exception. *)
Definition llm_error_decision (e : exn) : json :=
  JObj [("thought", JStr ("LLM error: " +:+ exn_msg e));
        ("action", complete_action "Error");
        ("confidence", JFloat 0)].

Definition IndexError : exn := Exn "IndexError" "list index out of range".
Definition UnboundLocalError : exn :=
  Exn "UnboundLocalError"
      "cannot access local variable 'content' where it is not associated with a value".

(** The arguments [think_and_act] passes to [llm.messages.create]. *)
Definition request_of (eng : engine) (query context : string) (history : list step)
    (w : World) : llm_request :=
  LlmRequest (default "claude-sonnet-4-20250514" (getenv w "LLM_MODEL")) 2000
             (system_prompt eng) (user_message query context history).

(** [think_and_act]. The first handler is for [json.JSONDecodeError]; it logs
    [content], which is not bound when the exception came from the call to
    the provider and not from [json.loads]. *)
Definition think_and_act (eng : engine) (query context : string) (history : list step)
  : M json :=
  fun st =>
    let request := request_of eng query context history (world st) in
    match io_res (fun w => llm_create w request) st with
    | (st', Raise e) =>
        if String.eqb (exn_class e) "JSONDecodeError" then (st', Raise UnboundLocalError)
        else (st', Ok (llm_error_decision e))
    | (st', Ok []) => (st', Ok (llm_error_decision IndexError))
    | (st', Ok (content :: _)) =>
        match json_loads (unfence content) with
        | Some decision => (st', Ok decision)
        | None => (st', Ok parse_error_decision)
        end
    end.

(** [os.getenv('REFLECTION_ENABLED', 'true').lower() == 'true'] *)
Definition reflection_enabled (w : World) : bool :=
  String.eqb (Py.lower (default "true" (getenv w "REFLECTION_ENABLED"))) "true".

(** The context string [run] starts from. *)
Definition initial_context (context_docs context_learnings : list doc) : string :=
  let add := fun (c : string) (d : doc) =>
    c +:+ "- " +:+ Py.slice_to (d_content d) 200 +:+ "..." +:+ Py.nl in
  let context := "Relevant Documents:" +:+ Py.nl in
  let context := fold_left add context_docs context in
  let context := context +:+ Py.nl +:+ "Previous Learnings:" +:+ Py.nl in
  fold_left add context_learnings context.

(** The branch of the loop for a ['complete'] action. *)
Definition complete_ (query : string) (history : list step) (result : json)
    (start_time : Q) (iteration : Z) : M task_result :=
  t <- now ;;
  let execution_time := (t - start_time)%Q in
  enabled <- gets (fun st => reflection_enabled (world st)) ;;
  (if (enabled : bool)
   then reflect_on_task query history result execution_time ;;; ret tt
   else ret tt) ;;;
  ret (TaskResult true result (iteration + 1) execution_time history).

(** The [while] loop of [run], one unit of fuel per iteration; [None] when the
    fuel is used up with the loop condition still true. *)
Fixpoint run_loop (fuel : nat) (eng : engine) (query : string) (start_time : Q)
    (context : string) (history : list step) (iteration : Z) : M (option task_result) :=
  if iteration <? max_iterations eng then
    match fuel with
    | O => ret None
    | S fuel' =>
        decision <- think_and_act eng query context history ;;
        thought <- lift (get_ decision "thought" (JStr "")) ;;
        action_dict <- lift (get_ decision "action" (JObj [])) ;;
        confidence <- lift (get_ decision "confidence" (JFloat (1 # 2))) ;;
        a_type <- lift (get_ action_dict "action_type" (JStr "complete")) ;;
        a_params <- lift (get_ action_dict "parameters" (JObj [])) ;;
        t <- now ;;
        let action := Action a_type a_params t in
        if is_str (action_type action) "complete" then
          result <- lift (get_ (parameters action) "result" (JStr "Task completed")) ;;
          r <- complete_ query history result start_time iteration ;;
          ret (Some r)
        else
          modify (fun st => State (world st) (exec st) (pats st) (dispatched st ++ [action])) ;;;
          r <- execute_action action ;;
          let '(success, observation) := r in
          let history := history ++ [Step thought action observation success confidence] in
          let context :=
            if success && (Py.len observation <? 1000)
            then context +:+ Py.nl +:+ "Latest observation: " +:+ observation +:+ Py.nl
            else context in
          run_loop fuel' eng query start_time context history (iteration + 1)
    end
  else
    t <- now ;;
    ret (Some (TaskResult false (JStr "Max iterations reached without completing task")
                          iteration (t - start_time)%Q history)).

(** [run]: the loop runs at most [max_iterations] times, which is the fuel. *)
Definition run (eng : engine) (query : string) : M (option task_result) :=
  start_time <- now ;;
  context_docs <- io (fun w => rag_query w (JStr query) (JStr "docs") (JInt 3)) ;;
  context_learnings <- io (fun w => rag_query w (JStr query) (JStr "learnings") (JInt 2)) ;;
  run_loop (Z.to_nat (max_iterations eng)) eng query start_time
           (initial_context context_docs context_learnings) [] 0.

(** [AutonomousOrchestrator.execute_task] *)
Definition execute_task (eng : engine) (query : string) : M (option task_result) :=
  run eng query.

End WithEnv.

End Orchestrator.

(* ===================================================================== *)
(** ** The properties' vocabulary *)
(* ===================================================================== *)

(** What the specification says of the experience memory, in its words. *)
Module MemorySpec.
Import Memory.

Definition clamp01 (x : Q) : Q := Qmax 0%Q (Qmin 1%Q x).

(** The score as the specification words it: a base of 0.8 or 0.2, less the
    smaller of a tenth per step and 0.2, brought into the unit interval. *)
Definition spec_confidence (steps : nat) (success : bool) : Q :=
  clamp01 ((if success then 8 # 10 else 2 # 10)
           - Qmin (inject_Z (Z.of_nat steps) / 10) (2 # 10))%Q.

(** [a] may stand before [b] in a list sorted by confidence, descending. *)
Definition desc (a b : entry) : Prop := (s_confidence b <= s_confidence a)%Q.

(** At most five entries, sorted by confidence descending, no hash twice. *)
Definition entries_ok (l : list entry) : Prop :=
  (length l <= 5)%nat /\ StronglySorted desc l /\ NoDup (map s_hash l).

Definition playbook_ok (pb : gmap string (list entry)) : Prop :=
  forall (t : string) (l : list entry), pb !! t = Some l -> entries_ok l.

(** The experiences of one task type, in the order of the log. *)
Definition of_type (t : string) (log : list experience) : list experience :=
  List.filter (fun e => bool_decide (e_task_type e = t)) log.

(** The statistics of a task type recomputed from the whole log. *)
Definition recomputed_count (t : string) (log : list experience) : Z :=
  Z.of_nat (length (of_type t log)).

Definition recomputed_success_rate (t : string) (log : list experience) : Q :=
  (inject_Z (Z.of_nat (length (List.filter e_success (of_type t log))))
   / inject_Z (recomputed_count t log))%Q.

Definition recomputed_avg_time (t : string) (log : list experience) : Q :=
  (fold_right Qplus 0%Q (map e_execution_time (of_type t log))
   / inject_Z (recomputed_count t log))%Q.

Definition used_action_type (t : string) (log : list experience) (a : string) : Prop :=
  exists e act, e ∈ of_type t log /\ act ∈ e_strategy e /\ default "unknown" (a_type act) = a.

(** The pattern [p] is what a recompute from [log] gives for task type [t]. *)
Definition consistent (log : list experience) (t : string) (p : pattern) : Prop :=
  p_count p = recomputed_count t log
  /\ (p_success_rate p == recomputed_success_rate t log)%Q
  /\ (forall a, a ∈ p_common_actions p <-> used_action_type t log a)
  /\ (p_avg_execution_time p == recomputed_avg_time t log)%Q.

(** The cached pattern of [t] has counted every logged experience of [t], and
    collected their action types; no pattern means no such experience. *)
Definition cache_in_sync (st : state) (t : string) : Prop :=
  match task_patterns (pats st) !! t with
  | None => of_type t (experiences st) = []
  | Some p =>
      p_count p = recomputed_count t (experiences st)
      /\ (forall a, a ∈ p_common_actions p <-> used_action_type t (experiences st) a)
  end.

End MemorySpec.

Module EngineSpec.
Import Json Monad Orchestrator.

Section WithEnv.
Context {World : Type} `{Env World}.

(** [m] leaves the component [f] of the state as it is, whether it returns
    or raises. *)
Definition keeps {A B : Type} (f : state World -> B) (m : M (state World) A) : Prop :=
  forall st, f (fst (m st)) = f st.

(** The executor and the list of dispatched actions. *)
Definition sandbox (st : state World) : executor * list action :=
  (exec st, dispatched st).


Definition max_iterations_message : json :=
  JStr "Max iterations reached without completing task".

(** A step that records a terminal action: a ['complete'] of confidence 0.0. *)
Definition terminal_step (s : step) : Prop :=
  action_type (s_action s) = JStr "complete" /\ confidence s = JFloat 0.

End WithEnv.
End EngineSpec.

(** Concrete inputs. *)
Module Demo.
Import Json Monad.

(** *** Memory *)

Definition cfg : Memory.config := Memory.Config true (6 # 10).

Definition hash (s : list Memory.action) : string :=
  Py.join "," (map (fun a => default "unknown" (Memory.a_type a)) s).

Definition experience (q : string) : Memory.experience :=
  Memory.Experience "id" "t" q [] true 1 None None "now" (8 # 10).


(** *** Orchestrator *)

Import Orchestrator.

(** A small world: nothing changes, the provider's answer decodes to
    [decode], and the append to the learning log ends as [append]. *)
Definition env (decode : option json) (append : res unit) : Env unit := {|
  clock := fun _ => 0%Q;
  getenv := fun _ _ => None;
  py_repr := fun _ => "<value>";
  datetime_repr := fun _ => "<datetime>";
  list_of_set := remove_dups;
  json_loads := fun _ => decode;
  json_dumps_docs := fun _ => "[]";
  llm_create := fun w _ => (w, Ok ["response"]);
  proc_shell := fun w _ => (w, Ok (0, "", ""));
  sha256_hex := fun s => Ok s;
  path_join := fun d f => d +:+ "/" +:+ f;
  fs_write_temp := fun w _ _ => (w, Ok tt);
  proc_python := fun w _ => (w, Ok (0, "", ""));
  fs_cleanup := fun w _ => (w, Ok tt);
  fs_validate_path := fun _ _ _ => true;
  fs_exists := fun _ _ => Ok true;
  fs_read_text := fun w _ => (w, Ok "");
  fs_write_text := fun w _ _ => (w, Ok tt);
  rag_query := fun w _ _ _ => (w, []);
  rag_add_learning := fun w _ => (w, true);
  fs_append_learning := fun w _ => (w, append);
  fs_save_patterns := fun w _ => (w, Ok tt)
|}.

Definition decision (a_type : string) (params : dict) : json :=
  JObj [("thought", JStr "next");
        ("action", JObj [("action_type", JStr a_type); ("parameters", JObj params)]);
        ("confidence", JFloat 1)].

Definition completes : option json := Some (decision "complete" [("result", JStr "done")]).
Definition frobnicates : option json := Some (decision "frobnicate" []).
Definition disk_full : res unit := Raise (Exn "OSError" "No space left on device").

Definition eng3 : engine := Engine 3 "prompt".

Definition st0 : state unit :=
  State tt (Executor "/workspace" false [] []) (Patterns ∅ ∅) [].

(** A step that succeeded. *)
Definition ok_step : step :=
  Step (JStr "list the files") (Action (JStr "bash_execute") (JObj [("command", JStr "ls")]) 0)
       "notes.txt" true (JFloat 1).

End Demo.

(* ===================================================================== *)
(** ** More vocabulary, and more concrete inputs *)
(* ===================================================================== *)

Module StoreSpec.
Import Json Monad Memory.

Section WithEnv.
Context {World : Type} `{MemoryIO.Env World}.

(** [err] is what one of the writes that follow the append raises: the
    rewrite of patterns.json or of playbook.json, or the retrieval store. *)
Definition raised_by_a_later_write (err : Json.exn) : Prop :=
  (exists w p, snd (MemoryIO.fs_save_patterns w p) = Raise err)
  \/ (exists w b, snd (MemoryIO.fs_save_playbook w b) = Raise err)
  \/ (exists w text t i, snd (MemoryIO.rag_add_text w text t i) = Raise err).

(** None of the writes of [store_experience] ever raises. *)
Definition no_write_fails : Prop :=
  (forall w e, snd (MemoryIO.fs_append_experience w e) = Ok tt)
  /\ (forall w p, snd (MemoryIO.fs_save_patterns w p) = Ok tt)
  /\ (forall w b, snd (MemoryIO.fs_save_playbook w b) = Ok tt)
  /\ (forall w text t i, snd (MemoryIO.rag_add_text w text t i) = Ok tt).

End WithEnv.

(** The experience [store_experience] builds. *)
Definition experience_of (md5_hex : string -> string) (task_type query : string)
    (strategy : list action) (success : bool) (execution_time : Q)
    (context failure_reason : option string) (now_id now_ts : string) : experience :=
  Experience (md5_hex (task_type +:+ now_id)) task_type query strategy success
             execution_time context failure_reason now_ts
             (_calculate_confidence strategy success).

End StoreSpec.

Module DemoStore.
Import Json Monad.


(** No line can be appended to experiences.jsonl. *)
Definition full_disk : MemoryIO.Env unit := {|
  MemoryIO.fs_append_experience :=
    fun w _ => (w, Raise (Exn "OSError" "No space left on device"));
  MemoryIO.fs_save_patterns := fun w _ => (w, Ok tt);
  MemoryIO.fs_save_playbook := fun w _ => (w, Ok tt);
  MemoryIO.rag_add_text := fun w _ _ _ => (w, Ok tt)
|}.

(** patterns.json cannot be rewritten. *)
Definition readonly_patterns : MemoryIO.Env unit := {|
  MemoryIO.fs_append_experience := fun w _ => (w, Ok tt);
  MemoryIO.fs_save_patterns :=
    fun w _ => (w, Raise (Exn "PermissionError" "Permission denied: patterns.json"));
  MemoryIO.fs_save_playbook := fun w _ => (w, Ok tt);
  MemoryIO.rag_add_text := fun w _ _ _ => (w, Ok tt)
|}.

End DemoStore.

Module ClassifySpec.

(** The categories of [_classify_task] with their keywords, in the order of
    its tests. *)
Definition task_categories : list (string * list string) :=
  [("file_operation", ["file"; "read"; "write"; "create"]);
   ("information_retrieval", ["search"; "find"; "look"]);
   ("code_generation", ["code"; "script"; "program"; "function"]);
   ("system_setup", ["install"; "setup"; "configure"]);
   ("analysis", ["analyze"; "check"; "test"])].

(** One of the keywords occurs in the lower-cased query. *)
Definition mentions (keywords : list string) (query : string) : Prop :=
  exists k pre post, In k keywords /\ Py.lower query = pre +:+ k +:+ post.

(** The first category of a list with a keyword in the query. *)
Fixpoint classify_by (categories : list (string * list string)) (query : string)
  : string :=
  match categories with
  | [] => "general_task"
  | (name, keywords) :: rest =>
      if Py.any_in keywords (Py.lower query) then name else classify_by rest query
  end.

End ClassifySpec.

Module SandboxSpec.
Import Json Monad Orchestrator.

Section WithEnv.
Context {World : Type} `{Env World}.

(** [m] takes every state to one that [R] relates to it, whether it returns
    or raises. *)
Definition moves {A : Type} (R : state World -> state World -> Prop)
    (m : M (state World) A) : Prop :=
  forall st, R st (fst (m st)).

(** From [st] to [st'] the executor kept its workspace and its mode, and its
    audit log and its list of process calls only grew, the log by records
    whose result has at most 500 characters. *)
Definition audit_extended (st st' : state World) : Prop :=
  workspace_path (exec st') = workspace_path (exec st)
  /\ safe_mode (exec st') = safe_mode (exec st)
  /\ (exists calls, proc_calls (exec st') = proc_calls (exec st) ++ calls)
  /\ exists new,
       audit_log (exec st') = audit_log (exec st) ++ new
       /\ Forall (fun e => Py.len (au_result e) <= 500) new.

(** The log of [st'] is the log of [st] with at most one record more. *)
Definition at_most_one_record (st st' : state World) : Prop :=
  exists new, audit_log (exec st') = audit_log (exec st) ++ new /\ (length new <= 1)%nat.

(** The action types [execute_action] has a branch for. *)
Definition known_action_types : list string :=
  ["bash_execute"; "python_execute"; "file_read"; "file_write"; "rag_query";
   "install_dependency"; "complete"].

End WithEnv.
End SandboxSpec.

Module ChunkingSpec.

(** The number of windows: [ceil(n / step)]. *)
Definition windows (n step : Z) : nat := Z.to_nat ((n + step - 1) / step).

(** The window with index [k]. *)
Definition window (text : string) (chunk_size step : Z) (k : nat) : string :=
  Py.slice text (Z.of_nat k * step) (Z.of_nat k * step + chunk_size).

(** [chunk.strip()] is not empty. *)
Definition not_blank (chunk : string) : bool := Py.truthy (Py.strip chunk).

End ChunkingSpec.

Module PlaybookSpec.
Import Memory.

(** Every entry of the playbook is at or above the confidence threshold. *)
Definition confident (cfg : config) (pb : gmap string (list entry)) : Prop :=
  forall t l s, pb !! t = Some l -> s ∈ l ->
    (confidence_threshold cfg <= s_confidence s)%Q.

(** The entry [_update_playbook] builds from an experience. *)
Definition entry_of (strategy_hash : list action -> string) (e : experience) : entry :=
  Entry (strategy_hash (e_strategy e)) (e_strategy e) (e_confidence_score e)
        (e_execution_time e) (e_query e).

(** [playbook["strategies"].get(t, [])] *)
Definition entries_of (pb : gmap string (list entry)) (t : string) : list entry :=
  default [] (pb !! t).

End PlaybookSpec.

Module RagSpec.
Import Json Monad Rag.

(** The result built from position [i] of a query result. *)
Definition at_position (results : query_result) (i : nat) (r : result) : Prop :=
  exists distance,
    cell (documents results) i = Ok (text r)
    /\ cell (distances results) i = Ok distance
    /\ similarity r = (1 - distance)%Q
    /\ cell (metadatas results) i = Ok (metadata r)
    /\ cell (ids results) i = Ok (id r).

(** The results come from increasing positions, all at or after [i]. *)
Fixpoint from_positions (results : query_result) (i : nat) (rs : list result) : Prop :=
  match rs with
  | [] => True
  | r :: rest =>
      exists j, (i <= j)%nat /\ at_position results j r
                /\ from_positions results (S j) rest
  end.

(** [sum(len(r["text"]) for r in rs)] *)
Definition total_chars (rs : list result) : Z :=
  fold_right (fun r acc => Py.len (text r) + acc) 0 rs.

Section WithEnv.
Context {World Vector : Type} `{Env World Vector}.

(** The entry of [context_parts] made from one result. *)
Definition context_part (r : result) : string :=
  "[Source: "
  +:+ match assoc "source" (metadata r) with
      | Some (JStr s) => s
      | Some v => str_value v
      | None => "unknown"
      end
  +:+ "]" +:+ Py.nl +:+ text r.

End WithEnv.
End RagSpec.

Module DemoMore.
Import Json Monad.

(** *** Memory *)

(** The memory after one successful experience. *)
Definition learned : Memory.state :=
  fst (fst (Memory.store_experience Demo.hash (fun s => s) Demo.hash Demo.cfg Memory.init
              "t" "q" [Memory.Action (Some "file_read") []] true 1 None None "now" "now")).

(** *** Retrieval *)

(** A collection of two chunks, at distances 0.1 and 0.9 from every query. *)
Definition two_chunks : Rag.Env unit unit := {|
  Rag.encode := fun w _ => (w, Ok tt);
  Rag.collection_query := fun w _ _ _ =>
    (w, Ok (Rag.QueryResult [["near"; "far"]] [[1 # 10; 9 # 10]]
              [[[("source", JStr "a.txt")]; [("source", JStr "b.txt")]]]
              [["id1"; "id2"]]));
  Rag.str_value := fun _ => "<value>"
|}.

Definition cfg07 : Rag.config := Rag.Config (7 # 10) 5.

(** *** Action executor *)

(** A shell in which every command exits with 0. *)
Definition shell_ok : ActionExec.Env unit :=
  {| ActionExec.subprocess_run := fun w _ _ => (w, ActionExec.Completed 0 "out" "") |}.

(** *** Orchestrator *)

Import Orchestrator.

(** The world of [Demo.env] with a provider that cannot be reached, a
    workspace that no path lies in, and code that cannot be encoded. *)
Definition provider_down : Env unit := {|
  clock := fun _ => 0%Q;
  getenv := fun _ _ => None;
  py_repr := fun _ => "<value>";
  datetime_repr := fun _ => "<datetime>";
  list_of_set := remove_dups;
  json_loads := fun _ => None;
  json_dumps_docs := fun _ => "[]";
  llm_create := fun w _ => (w, Raise (Exn "APIConnectionError" "Connection error."));
  proc_shell := fun w _ => (w, Ok (0, "", ""));
  sha256_hex := fun _ => Raise (Exn "UnicodeEncodeError" "surrogates not allowed");
  path_join := fun d f => d +:+ "/" +:+ f;
  fs_write_temp := fun w _ _ => (w, Ok tt);
  proc_python := fun w _ => (w, Ok (0, "", ""));
  fs_cleanup := fun w _ => (w, Ok tt);
  fs_validate_path := fun _ _ _ => false;
  fs_exists := fun _ _ => Ok true;
  fs_read_text := fun w _ => (w, Ok "");
  fs_write_text := fun w _ _ => (w, Ok tt);
  rag_query := fun w _ _ _ => (w, []);
  rag_add_learning := fun w _ => (w, true);
  fs_append_learning := fun w _ => (w, Ok tt);
  fs_save_patterns := fun w _ => (w, Ok tt)
|}.

(** [Demo.st0] in safe mode. *)
Definition safe_st0 : state unit :=
  State tt (Executor "/workspace" true [] []) (Patterns ∅ ∅) [].

(** A step that failed. *)
Definition failed_step : step :=
  Step (JStr "read the notes")
       (Action (JStr "file_read") (JObj [("filepath", JStr "notes.txt")]) 0)
       "File not found" false (JFloat 1).

End DemoMore.

(* ===================================================================== *)
(** * Properties *)
(* ===================================================================== *)

(** ** Strings *)

Module PyFacts.

Lemma startswith_spec (p s : string) :
  Py.startswith p s = true <-> exists post, s = p +:+ post.
Proof.
  revert s; induction p as [|a p IH]; intros s; simpl.
  - split; [intros _; exists s; reflexivity|reflexivity].
  - destruct s as [|b s].
    + split; [discriminate|intros [post Hpost]; discriminate].
    + destruct (Ascii.eqb_spec a b) as [->|Hneq].
      * rewrite IH. split; intros [post Hpost]; exists post.
        -- cbn. rewrite Hpost. reflexivity.
        -- cbn in Hpost. injection Hpost as Hpost. exact Hpost.
      * split; [discriminate|]. intros [post Hpost]. cbn in Hpost.
        injection Hpost as Hab _. congruence.
Qed.

(** [sub in s] holds exactly when [s] is some text, [sub], and some more text. *)
Lemma contains_spec (sub s : string) :
  Py.contains sub s = true <-> exists pre post, s = pre +:+ sub +:+ post.
Proof.
  induction s as [|c s IH]; simpl.
  - destruct (Py.startswith sub "") eqn:Hsw.
    + apply startswith_spec in Hsw as [post Hpost].
      split; [intros _; exists "", post; exact Hpost|reflexivity].
    + split; [discriminate|]. intros (pre & post & Heq).
      destruct pre; cbn in Heq; [|discriminate].
      assert (Hsw' : Py.startswith sub "" = true)
        by (apply startswith_spec; exists post; exact Heq).
      congruence.
  - destruct (Py.startswith sub (String c s)) eqn:Hsw.
    + apply startswith_spec in Hsw as [post Hpost].
      split; [intros _; exists "", post; exact Hpost|reflexivity].
    + rewrite IH. split.
      * intros (pre & post & Heq). exists (String c pre), post. cbn. rewrite Heq. reflexivity.
      * intros (pre & post & Heq). destruct pre as [|c' pre]; cbn in Heq.
        -- assert (Hsw' : Py.startswith sub (String c s) = true)
             by (apply startswith_spec; exists post; exact Heq).
           congruence.
        -- injection Heq as _ Heq. exists pre, post. exact Heq.
Qed.

End PyFacts.

(** ** Chunking *)

Module ChunkingFacts.
Import Chunking.

Lemma chunk_loop_enough_fuel (text : string) (size overlap : Z) :
  overlap < size ->
  forall (fuel : nat) (start : Z) (chunks : list string),
    Py.len text - start <= Z.of_nat fuel ->
    exists r, forall extra : nat,
      chunk_loop (fuel + extra) text size overlap start chunks = Some r.
Proof.
  intros Hstep fuel; induction fuel as [|fuel IH]; intros start chunks Hfuel.
  - exists chunks; intros extra.
    assert (Hguard : (start <? Py.len text) = false) by (apply Z.ltb_ge; lia).
    destruct extra; simpl; rewrite Hguard; reflexivity.
  - destruct (start <? Py.len text) eqn:Hguard.
    + destruct (IH (start + (size - overlap))
                   (chunks ++ [Py.slice text start (start + size)])) as [r Hr];
        [lia|].
      exists r; intros extra. simpl. rewrite Hguard. apply Hr.
    + exists chunks; intros extra. simpl. rewrite Hguard. reflexivity.
Qed.

Lemma chunk_loop_no_progress (text : string) (size overlap : Z) :
  size <= overlap ->
  forall (fuel : nat) (start : Z) (chunks : list string),
    start < Py.len text ->
    chunk_loop fuel text size overlap start chunks = None.
Proof.
  intros Hstep fuel; induction fuel as [|fuel IH]; intros start chunks Hstart;
    assert (Hguard : (start <? Py.len text) = true) by (apply Z.ltb_lt; lia);
    simpl; rewrite Hguard; [reflexivity|].
  apply IH; lia.
Qed.

Lemma len_pos (text : string) : text <> EmptyString -> 0 < Py.len text.
Proof. destruct text; [congruence|]; intros _; unfold Py.len; simpl; lia. Qed.

Lemma range0_positive_step (stop step : Z) :
  0 < step -> exists offsets, Py.range0 stop step = Some offsets.
Proof.
  intros Hstep. unfold Py.range0.
  assert (Hz : (step =? 0) = false) by (apply Z.eqb_neq; lia).
  rewrite Hz. eexists; reflexivity.
Qed.

(** C10. For a non-empty text: when [chunk_overlap < chunk_size] the loop of
    [chunk_text] ends after at most [len(text)] iterations and returns a list
    of chunks (more fuel changes nothing), and [_chunk_text] returns a list of
    chunks; when [chunk_size <= chunk_overlap] the loop of [chunk_text] never
    ends, whatever the number of iterations allowed. *)
Theorem chunking_terminates_iff_window_advances
    {M T : Type} (md5_hex : string -> string) (now_iso : Z -> T) (metadata : M)
    (text : string) (chunk_size chunk_overlap : Z) :
  text <> EmptyString ->
  (chunk_overlap < chunk_size ->
     (exists chunks, forall fuel : nat,
         (String.length text <= fuel)%nat ->
         chunk_text fuel chunk_size chunk_overlap text = Some chunks)
     /\ (exists chunks,
         _chunk_text md5_hex now_iso chunk_size chunk_overlap text metadata = Some chunks))
  /\ (chunk_size <= chunk_overlap ->
      forall fuel : nat, chunk_text fuel chunk_size chunk_overlap text = None).
Proof.
  intros Hne; split.
  - intros Hstep; split.
    + destruct (chunk_loop_enough_fuel text chunk_size chunk_overlap Hstep
                  (String.length text) 0 []) as [r Hr];
        [unfold Py.len; lia|].
      exists r; intros fuel Hfuel. unfold chunk_text.
      replace fuel with (String.length text + (fuel - String.length text))%nat by lia.
      apply Hr.
    + unfold _chunk_text.
      destruct (range0_positive_step (Py.len text) (chunk_size - chunk_overlap))
        as [offsets ->]; [lia|].
      eexists; reflexivity.
  - intros Hstep fuel. unfold chunk_text.
    apply chunk_loop_no_progress; [assumption|]. apply len_pos; assumption.
Qed.

(** With windows of 2 characters: overlap 1 gives three chunks, overlap 2
    never ends. *)
Lemma chunking_terminates_iff_window_advances_witness :
  (exists chunks, forall fuel : nat,
      (3 <= fuel)%nat -> chunk_text fuel 2 1 "abc" = Some chunks)
  /\ (forall fuel : nat, chunk_text fuel 2 2 "abc" = None).
Proof.
  split.
  - refine (proj1 (proj1 (chunking_terminates_iff_window_advances
                            (fun s => s) (fun _ => tt) tt "abc" 2 1 _) _)).
    + discriminate.
    + lia.
  - refine (proj2 (chunking_terminates_iff_window_advances
                     (fun s => s) (fun _ => tt) tt "abc" 2 2 _) _).
    + discriminate.
    + lia.
Defined.

(** Without progress [_chunk_text] still ends: a zero step is the
    [ValueError] of [range], a negative one gives no offset at all. *)
Lemma _chunk_text_without_progress
    {M T : Type} (md5_hex : string -> string) (now_iso : Z -> T) (metadata : M)
    (text : string) (chunk_size chunk_overlap : Z) :
  (chunk_size = chunk_overlap ->
   _chunk_text md5_hex now_iso chunk_size chunk_overlap text metadata = None)
  /\ (chunk_size < chunk_overlap ->
      _chunk_text md5_hex now_iso chunk_size chunk_overlap text metadata = Some []).
Proof.
  unfold _chunk_text, Py.range0. split; intros Hstep.
  - replace (chunk_size - chunk_overlap) with 0 by lia. reflexivity.
  - assert (Hz : (chunk_size - chunk_overlap =? 0) = false) by (apply Z.eqb_neq; lia).
    assert (Hneg : (0 <? chunk_size - chunk_overlap) = false) by (apply Z.ltb_ge; lia).
    assert (Hlen : (Py.len text <? 0) = false) by (apply Z.ltb_ge; unfold Py.len; lia).
    rewrite Hz, Hneg, Hlen. reflexivity.
Qed.

Example chunk_text_overlap_example :
  chunk_text 12 5 2 "abcdefghijkl" = Some ["abcde"; "defgh"; "ghijk"; "jkl"].
Proof. reflexivity. Qed.

End ChunkingFacts.

(** ** Experience memory *)

Module MemoryFacts.
Import Json Monad Memory MemorySpec StoreSpec.


(** *** Confidence of an experience *)

Lemma clamp01_bounds (x : Q) : (0 <= clamp01 x /\ clamp01 x <= 1)%Q.
Proof.
  unfold clamp01. split.
  - apply Q.le_max_l.
  - apply Q.max_lub; [discriminate|apply Q.le_min_l].
Qed.

Lemma calculate_confidence_formula (strategy : list action) (success : bool) :
  _calculate_confidence strategy success = spec_confidence (length strategy) success.
Proof. reflexivity. Qed.

Lemma calculate_confidence_bounds (strategy : list action) (success : bool) :
  (0 <= _calculate_confidence strategy success
   /\ _calculate_confidence strategy success <= 1)%Q.
Proof. rewrite calculate_confidence_formula. apply clamp01_bounds. Qed.

(** From two steps on the penalty is 0.2: a success scores 0.6, a failure 0. *)
Lemma spec_confidence_long (steps : nat) (success : bool) :
  (2 <= steps)%nat ->
  (spec_confidence steps success == if success then 6 # 10 else 0)%Q.
Proof.
  intros Hn. unfold spec_confidence, clamp01.
  assert (Hmin : (Qmin (inject_Z (Z.of_nat steps) / 10) (2 # 10) == 2 # 10)%Q).
  { apply Q.min_r. unfold Qle, Qdiv, Qmult, Qinv, inject_Z; simpl. lia. }
  rewrite Hmin. destruct success.
  - rewrite Q.min_r by (unfold Qle; simpl; lia).
    rewrite Q.max_r by (unfold Qle; simpl; lia). reflexivity.
  - rewrite Q.min_r by (unfold Qle; simpl; lia).
    rewrite Q.max_l by (unfold Qle; simpl; lia). reflexivity.
Qed.

Lemma update_patterns_log (st : state) (e : experience) :
  experiences (fst (_update_patterns st e)) = experiences st.
Proof.
  unfold _update_patterns. destruct (_ =? 0); reflexivity.
Qed.

(** Every path through [store_experience] appends one experience, scored by
    [_calculate_confidence]. *)
Lemma store_experience_appends
    (strategy_hash : list action -> string) (md5_hex : string -> string)
    (json_dumps : list action -> string) (cfg : config)
    (st : state) (task_type query : string) (strategy : list action) (success : bool)
    (execution_time : Q) (context failure_reason : option string)
    (now_id now_ts : string) :
  exists e,
    experiences (fst (fst (store_experience strategy_hash md5_hex json_dumps cfg st
       task_type query strategy success execution_time context failure_reason
       now_id now_ts))) = experiences st ++ [e]
    /\ e_strategy e = strategy /\ e_success e = success
    /\ e_confidence_score e = _calculate_confidence strategy success.
Proof.
  exists (Experience (md5_hex (task_type +:+ now_id)) task_type query strategy success
            execution_time context failure_reason now_ts
            (_calculate_confidence strategy success)).
  unfold store_experience. split; [|repeat split; reflexivity].
  destruct (auto_learn cfg); [|reflexivity].
  match goal with |- context [_update_patterns ?s ?e] =>
    pose proof (update_patterns_log s e) as Hlog;
    destruct (_update_patterns s e) as [st1 [err|]] end;
    simpl in Hlog; [exact Hlog|].
  destruct success; simpl; exact Hlog.
Qed.

(** *** The playbook *)

Lemma Qltb_false x y : Qltb x y = false -> (y <= x)%Q.
Proof. unfold Qltb. intros Hb. apply negb_false_iff in Hb. apply Qle_bool_iff; assumption. Qed.

Lemma Qltb_true x y : Qltb x y = true -> (x <= y)%Q.
Proof.
  unfold Qltb. intros Hb. apply negb_true_iff in Hb.
  destruct (Qlt_le_dec x y) as [Hlt|Hle].
  - apply Qlt_le_weak; assumption.
  - apply Qle_bool_iff in Hle. congruence.
Qed.

Lemma insert_desc_perm x l : Permutation (insert_desc x l) (x :: l).
Proof.
  induction l as [|y l IH]; simpl; [reflexivity|].
  destruct (Qltb (s_confidence x) (s_confidence y)); [|reflexivity].
  rewrite IH. apply perm_swap.
Qed.

Lemma insert_desc_sorted x l :
  StronglySorted desc l -> StronglySorted desc (insert_desc x l).
Proof.
  induction l as [|y l IH]; simpl; intros Hs.
  - constructor; [constructor|constructor].
  - apply StronglySorted_inv in Hs as [Hs Hall].
    destruct (Qltb (s_confidence x) (s_confidence y)) eqn:Hc.
    + constructor; [apply IH; assumption|].
      apply Forall_forall. intros z Hz.
      rewrite (insert_desc_perm x l) in Hz.
      apply elem_of_cons in Hz as [->|Hz].
      * apply Qltb_true; assumption.
      * rewrite Forall_forall in Hall. apply Hall; assumption.
    + constructor; [constructor; assumption|].
      constructor.
      * apply Qltb_false; assumption.
      * apply Forall_forall. intros z Hz. rewrite Forall_forall in Hall.
        unfold desc. apply Qle_trans with (s_confidence y).
        -- apply Hall; assumption.
        -- apply Qltb_false; assumption.
Qed.

Lemma sorted_desc_perm l : Permutation (sorted_desc l) l.
Proof.
  induction l as [|x l IH]; simpl; [reflexivity|].
  rewrite insert_desc_perm. rewrite IH. reflexivity.
Qed.

Lemma sorted_desc_sorted l : StronglySorted desc (sorted_desc l).
Proof.
  induction l as [|x l IH]; simpl; [constructor|].
  apply insert_desc_sorted; assumption.
Qed.

Lemma take_sorted n l : StronglySorted desc l -> StronglySorted desc (take n l).
Proof.
  revert n; induction l as [|x l IH]; intros [|n] Hs; simpl; try constructor.
  - apply IH. apply StronglySorted_inv in Hs as [Hs _]; assumption.
  - apply StronglySorted_inv in Hs as [_ Hall].
    rewrite Forall_forall in Hall |- *. intros z Hz. apply Hall.
    eapply subseteq_take; eassumption.
Qed.

Lemma top5_ok l : NoDup (map s_hash l) -> entries_ok (take 5 (sorted_desc l)).
Proof.
  intros Hnd. repeat split.
  - rewrite length_take. lia.
  - apply take_sorted, sorted_desc_sorted.
  - rewrite <- firstn_map. eapply sublist_NoDup; [|apply sublist_take].
    rewrite (Permutation_map s_hash (sorted_desc_perm l)). exact Hnd.
Qed.

Lemma filter_nil_not_in {A} (f : A -> bool) l :
  List.filter f l = [] -> forall x, x ∈ l -> f x = false.
Proof.
  induction l as [|y l IH]; simpl; intros Hf x Hx.
  - apply elem_of_nil in Hx; contradiction.
  - destruct (f y) eqn:Hy; [discriminate|].
    apply elem_of_cons in Hx as [->|Hx]; [assumption|]. apply IH; assumption.
Qed.

Section Playbook.
Variable strategy_hash : list action -> string.
Variable md5_hex : string -> string.
Variable json_dumps : list action -> string.
Variable cfg : config.

Lemma entries_ok_nil : entries_ok [].
Proof. repeat split; simpl; [lia|constructor|constructor]. Qed.

Lemma update_playbook_preserves pb e :
  playbook_ok pb -> playbook_ok (_update_playbook strategy_hash cfg pb e).
Proof.
  intros Hok. unfold _update_playbook.
  destruct (Qle_bool _ _); [|assumption].
  set (pb1 := match pb !! e_task_type e with None => _ | Some _ => pb end).
  assert (Hok1 : playbook_ok pb1).
  { subst pb1. destruct (pb !! e_task_type e) eqn:Hl; [assumption|].
    intros t l. rewrite lookup_insert. case_decide.
    - intros [= <-]. apply entries_ok_nil.
    - apply Hok. }
  assert (Hcur : entries_ok (default [] (pb1 !! e_task_type e))).
  { destruct (pb1 !! e_task_type e) eqn:Hl; simpl;
      [eapply Hok1; eassumption|apply entries_ok_nil]. }
  destruct (List.filter _ _) eqn:Hex; [|assumption].
  intros t l. rewrite lookup_insert. case_decide; [|apply Hok1].
  intros [= <-]. apply top5_ok.
  rewrite map_app. simpl. apply NoDup_app. repeat split.
  - apply Hcur.
  - intros h Hh Hin. apply list_elem_of_singleton in Hin. subst h.
    apply list_elem_of_In, in_map_iff in Hh as (s & Hs & Hin).
    apply list_elem_of_In in Hin.
    pose proof (filter_nil_not_in _ _ Hex s Hin) as Hf. simpl in Hf.
    apply bool_decide_eq_false in Hf. contradiction.
  - apply NoDup_singleton.
Qed.

(** The playbook after [store_experience] is the one before, or that one
    after [_update_playbook]. *)
Lemma store_experience_playbook
    (st : state) (task_type query : string) (strategy : list action) (success : bool)
    (execution_time : Q) (context failure_reason : option string)
    (now_id now_ts : string) :
  let st' := fst (fst (store_experience strategy_hash md5_hex json_dumps cfg st task_type
                 query strategy success execution_time context failure_reason
                 now_id now_ts)) in
  strategies (book st') = strategies (book st)
  \/ exists e, strategies (book st')
               = _update_playbook strategy_hash cfg (strategies (book st)) e.
Proof.
  unfold store_experience. destruct (auto_learn cfg); [|left; reflexivity].
  match goal with |- context [_update_patterns ?s ?e] =>
    assert (Hbook : book (fst (_update_patterns s e)) = book st)
      by (unfold _update_patterns; destruct (_ =? 0); reflexivity);
    destruct (_update_patterns s e) as [st1 [err|]] end;
    simpl in Hbook |- *; [left; congruence|].
  destruct success; simpl; [|left; congruence].
  right. eexists. rewrite Hbook. reflexivity.
Qed.

(** C7. The playbook that [__init__] starts from is in order; every
    [_update_playbook] keeps it in order, and so does every
    [store_experience]: for every task type at most 5 entries, sorted by
    confidence descending, no two with the same strategy hash. Hence the
    playbook is in order after any sequence of updates. *)
Theorem playbook_stays_top5_sorted_distinct :
  playbook_ok (strategies (book init))
  /\ (forall pb e, playbook_ok pb -> playbook_ok (_update_playbook strategy_hash cfg pb e))
  /\ (forall st task_type query strategy success execution_time context failure_reason
             now_id now_ts,
        playbook_ok (strategies (book st)) ->
        playbook_ok (strategies (book (fst (fst
          (store_experience strategy_hash md5_hex json_dumps cfg st task_type query
             strategy success execution_time context failure_reason now_id now_ts))))))
  /\ (forall es,
        playbook_ok (fold_left (_update_playbook strategy_hash cfg) es
                               (strategies (book init)))).
Proof.
  assert (Hinit : playbook_ok (strategies (book init))).
  { intros t l. simpl. rewrite lookup_empty. discriminate. }
  split; [exact Hinit|]. split; [apply update_playbook_preserves|]. split.
  - intros st task_type query strategy success execution_time context failure_reason
           now_id now_ts Hok.
    destruct (store_experience_playbook st task_type query strategy success execution_time
                context failure_reason now_id now_ts) as [Heq|[e Heq]];
      rewrite Heq; [exact Hok|apply update_playbook_preserves; exact Hok].
  - intros es. generalize (strategies (book init)) Hinit.
    induction es as [|e es IH]; intros pb Hok; simpl; [exact Hok|].
    apply IH, update_playbook_preserves, Hok.
Qed.

End Playbook.

(** *** Pattern statistics *)

Lemma add_common_spec strategy : forall common a,
  a ∈ add_common common strategy <->
  a ∈ common \/ exists act, act ∈ strategy /\ default "unknown" (a_type act) = a.
Proof.
  unfold add_common.
  induction strategy as [|x s IH]; intros common a; simpl.
  - split; [intros Hin; left; exact Hin|].
    intros [Hin|(act & Hact & _)]; [exact Hin|]. apply elem_of_nil in Hact; contradiction.
  - rewrite IH. case_bool_decide as Hmem.
    + split.
      * intros [Hin|(act & Hact & Heq)]; [left; exact Hin|].
        right; exists act; split; [apply elem_of_cons; right; exact Hact|exact Heq].
      * intros [Hin|(act & Hact & Heq)]; [left; exact Hin|].
        apply elem_of_cons in Hact as [->|Hact].
        -- left. rewrite <- Heq. exact Hmem.
        -- right; exists act; split; assumption.
    + split.
      * intros [Hin|(act & Hact & Heq)].
        -- apply elem_of_app in Hin as [Hin|Hin]; [left; exact Hin|].
           apply list_elem_of_singleton in Hin.
           right; exists x; split; [apply elem_of_cons; left; reflexivity|congruence].
        -- right; exists act; split; [apply elem_of_cons; right; exact Hact|exact Heq].
      * intros [Hin|(act & Hact & Heq)].
        -- left. apply elem_of_app; left; exact Hin.
        -- apply elem_of_cons in Hact as [->|Hact].
           ++ left. apply elem_of_app; right. apply list_elem_of_singleton. congruence.
           ++ right; exists act; split; assumption.
Qed.

Lemma of_type_snoc_same t log e :
  e_task_type e = t -> of_type t (log ++ [e]) = of_type t log ++ [e].
Proof.
  intros Ht. unfold of_type. rewrite List.filter_app. simpl.
  rewrite bool_decide_eq_true_2 by exact Ht. reflexivity.
Qed.


Lemma total_successes_spec log t :
  total_successes log t = Z.of_nat (length (List.filter e_success (of_type t log))).
Proof.
  unfold total_successes, of_type. f_equal. f_equal.
  induction log as [|e log IH]; simpl; [reflexivity|].
  destruct (bool_decide (e_task_type e = t)); simpl; [|exact IH].
  destruct (e_success e); simpl; [f_equal|]; exact IH.
Qed.

Lemma fold_left_Qplus l : forall a,
  (fold_left Qplus l a == a + fold_right Qplus 0 l)%Q.
Proof.
  induction l as [|x l IH]; intros a; simpl.
  - ring.
  - rewrite IH. ring.
Qed.

Lemma total_time_spec log t :
  (total_time log t == fold_right Qplus 0 (map e_execution_time (of_type t log)))%Q.
Proof. unfold total_time. fold (of_type t log). rewrite fold_left_Qplus. ring. Qed.

Lemma used_snoc_same t log e a :
  e_task_type e = t ->
  used_action_type t (log ++ [e]) a <->
  used_action_type t log a
  \/ exists act, act ∈ e_strategy e /\ default "unknown" (a_type act) = a.
Proof.
  intros Ht. unfold used_action_type. rewrite of_type_snoc_same by exact Ht. split.
  - intros (e' & act & He & Hact & Heq).
    apply elem_of_app in He as [He|He].
    + left; exists e', act; auto.
    + apply list_elem_of_singleton in He; subst e'. right; exists act; auto.
  - intros [(e' & act & He & Hact & Heq)|(act & Hact & Heq)].
    + exists e', act; repeat split; auto. apply elem_of_app; left; exact He.
    + exists e, act; repeat split; auto. apply elem_of_app; right.
      apply list_elem_of_singleton; reflexivity.
Qed.

(** [_update_patterns] right after the experience was appended to the log. *)
Lemma update_patterns_after_append log ps bk rg e :
  cache_in_sync (State log ps bk rg) (e_task_type e) ->
  exists st' p,
    _update_patterns (State (log ++ [e]) ps bk rg) e = (st', None)
    /\ experiences st' = log ++ [e]
    /\ book st' = bk /\ rag_added st' = rg
    /\ task_patterns (pats st') !! e_task_type e = Some p
    /\ consistent (log ++ [e]) (e_task_type e) p
    /\ (forall t, t <> e_task_type e ->
          task_patterns (pats st') !! t = task_patterns ps !! t).
Proof.
  unfold cache_in_sync; simpl. intros Hsync.
  unfold _update_patterns; simpl.
  set (t := e_task_type e) in *.
  set (tp := match task_patterns ps !! t with
             | None => <[t := Pattern 0 0%Q [] 0%Q]> (task_patterns ps)
             | Some _ => task_patterns ps
             end).
  set (pattern := default (Pattern 0 0%Q [] 0%Q) (tp !! t)).
  assert (Hp : p_count pattern = recomputed_count t log
               /\ forall a, a ∈ p_common_actions pattern <-> used_action_type t log a).
  { subst pattern tp. destruct (task_patterns ps !! t) as [p|] eqn:Hl.
    - rewrite Hl. simpl. exact Hsync.
    - rewrite lookup_insert_eq. simpl. unfold recomputed_count. rewrite Hsync. simpl.
      split; [reflexivity|]. intros a. split.
      + intros Hin. apply elem_of_nil in Hin; contradiction.
      + intros (e' & act & He & _). unfold used_action_type in *. rewrite Hsync in He.
        apply elem_of_nil in He; contradiction. }
  destruct Hp as [Hcount Hcommon].
  assert (Hn : recomputed_count t (log ++ [e]) = p_count pattern + 1).
  { unfold recomputed_count in *. rewrite of_type_snoc_same by reflexivity.
    rewrite length_app. simpl. lia. }
  assert (Hnz : (p_count pattern + 1 =? 0) = false).
  { apply Z.eqb_neq. unfold recomputed_count in Hcount. lia. }
  rewrite Hnz.
  eexists; eexists. split; [reflexivity|]. simpl.
  split; [reflexivity|]. split; [reflexivity|]. split; [reflexivity|].
  split; [apply lookup_insert_eq|]. split.
  - unfold consistent; simpl. split; [symmetry; exact Hn|]. split; [|split].
    + unfold recomputed_success_rate. rewrite Hn, total_successes_spec. reflexivity.
    + intros a. rewrite add_common_spec, used_snoc_same by reflexivity.
      rewrite Hcommon. reflexivity.
    + unfold recomputed_avg_time. rewrite Hn, total_time_spec. reflexivity.
  - intros t' Hneq. rewrite lookup_insert_ne by congruence.
    subst tp. destruct (task_patterns ps !! t); [reflexivity|].
    rewrite lookup_insert_ne by congruence. reflexivity.
Qed.

Section StoreWrites.
Context {World : Type} `{MemoryIO.Env World}.
Variable strategy_hash : list action -> string.
Variable md5_hex : string -> string.
Variable json_dumps : list action -> string.
Variable cfg : config.

(** The append to experiences.jsonl fails: the exception leaves
    [store_experience] with the memory as it was. *)
Lemma store_experience_append_fails
    (st : MemoryIO.state World) (task_type query : string) (strategy : list action)
    (success : bool) (execution_time : Q) (context failure_reason : option string)
    (now_id now_ts : string) (w1 : World) (err : Json.exn) :
  MemoryIO.fs_append_experience (MemoryIO.world st)
    (experience_of md5_hex task_type query strategy success execution_time context
                   failure_reason now_id now_ts) = (w1, Raise err) ->
  MemoryIO.store_experience strategy_hash md5_hex json_dumps cfg task_type query strategy
    success execution_time context failure_reason now_id now_ts st
  = (MemoryIO.WithWorld w1 (MemoryIO.mem st), Raise err).
Proof.
  intros Happend.
  unfold MemoryIO.store_experience, MemoryIO._save_experience, MemoryIO.io_res, bind.
  unfold experience_of in Happend. rewrite Happend. reflexivity.
Qed.

(** The append succeeds: the log has the experience, the patterns are those of
    [Memory._update_patterns], and what is raised, if anything, comes from the
    division in [_update_patterns] or from a later write. *)
Lemma store_experience_appended
    (st : MemoryIO.state World) (task_type query : string) (strategy : list action)
    (success : bool) (execution_time : Q) (context failure_reason : option string)
    (now_id now_ts : string) (w1 : World) (u : unit) :
  let e := experience_of md5_hex task_type query strategy success execution_time context
                         failure_reason now_id now_ts in
  let m := MemoryIO.mem st in
  let m1 := Memory.State (experiences m ++ [e]) (pats m) (book m) (rag_added m) in
  let out := MemoryIO.store_experience strategy_hash md5_hex json_dumps cfg task_type query
               strategy success execution_time context failure_reason now_id now_ts st in
  MemoryIO.fs_append_experience (MemoryIO.world st) e = (w1, Ok u) ->
  experiences (MemoryIO.mem (fst out)) = experiences m ++ [e]
  /\ pats (MemoryIO.mem (fst out))
     = (if auto_learn cfg then pats (fst (Memory._update_patterns m1 e)) else pats m)
  /\ match snd out with
     | Ok id => id = e_id e
     | Raise err =>
         (auto_learn cfg = true
          /\ snd (Memory._update_patterns m1 e) = Some ZeroDivisionError
          /\ err = MemoryIO.exn_of ZeroDivisionError)
         \/ raised_by_a_later_write err
     end.
Proof.
  intros e m m1 out Happend.
  assert (Hsave : MemoryIO._save_experience e st = (MemoryIO.WithWorld w1 m1, Ok tt)).
  { unfold MemoryIO._save_experience, MemoryIO.io_res, bind, gets, MemoryIO.set_mem.
    rewrite Happend. destruct u. reflexivity. }
  assert (Hout : out = MemoryIO.store_experience strategy_hash md5_hex json_dumps cfg
                         task_type query strategy success execution_time context
                         failure_reason now_id now_ts st) by reflexivity.
  clearbody out. unfold MemoryIO.store_experience in Hout.
  change (Experience (md5_hex (task_type +:+ now_id)) task_type query strategy success
            execution_time context failure_reason now_ts
            (_calculate_confidence strategy success)) with e in Hout.
  unfold bind at 1 in Hout. rewrite Hsave in Hout.
  destruct (auto_learn cfg).
  2:{ unfold bind, ret in Hout. subst out. cbn [fst snd MemoryIO.mem experiences pats].
      split; [reflexivity|split; reflexivity]. }
  pose proof (update_patterns_log m1 e) as Hlog.
  assert (Hlog1 : experiences m1 = experiences m ++ [e]) by reflexivity.
  rewrite Hlog1 in Hlog. clear Hlog1.
  unfold bind at 1 in Hout. unfold bind at 1 in Hout.
  unfold MemoryIO._update_patterns in Hout.
  unfold bind at 1, gets at 1 in Hout. cbn [MemoryIO.mem] in Hout.
  unfold bind at 1, MemoryIO.set_mem at 1 in Hout. cbn [MemoryIO.world] in Hout.
  destruct (Memory._update_patterns m1 e) as [m2 [[]|]] eqn:Hupd; cbn [fst snd] in *.
  - unfold raise in Hout. subst out. cbn [fst snd MemoryIO.mem].
    split; [exact Hlog|]. split; [reflexivity|]. left. auto.
  - unfold MemoryIO._save_patterns, bind at 1, gets at 1, MemoryIO.io_res at 1 in Hout.
    cbn [MemoryIO.mem MemoryIO.world] in Hout.
    destruct (MemoryIO.fs_save_patterns w1 (pats m2)) as [w2 [u2|e2]] eqn:Hsp.
    2:{ subst out. cbn [fst snd MemoryIO.mem]. split; [exact Hlog|]. split; [reflexivity|].
        right. left. exists w1, (pats m2). rewrite Hsp. reflexivity. }
    destruct success.
    2:{ unfold ret in Hout. subst out. cbn [fst snd MemoryIO.mem].
        split; [exact Hlog|]. split; reflexivity. }
    unfold bind at 1 in Hout.
    unfold MemoryIO._update_playbook, MemoryIO._save_playbook in Hout.
    unfold bind at 1, gets at 1 in Hout. cbn [MemoryIO.mem] in Hout.
    unfold bind at 1, MemoryIO.set_mem at 1 in Hout. cbn [MemoryIO.world] in Hout.
    unfold bind at 1, gets at 1, MemoryIO.io_res at 1 in Hout.
    cbn [MemoryIO.mem MemoryIO.world] in Hout.
    match type of Hout with context [MemoryIO.fs_save_playbook w2 ?b] =>
      destruct (MemoryIO.fs_save_playbook w2 b) as [w3 [u3|e3]] eqn:Hpb end.
    2:{ subst out. cbn [fst snd MemoryIO.mem experiences pats]. split; [exact Hlog|].
        split; [reflexivity|]. right. right. left. eexists w2, _. rewrite Hpb. reflexivity. }
    unfold bind at 1, gets at 1 in Hout. cbn [MemoryIO.mem] in Hout.
    unfold bind at 1, MemoryIO.set_mem at 1 in Hout. cbn [MemoryIO.world] in Hout.
    unfold MemoryIO.io_res in Hout. cbn [MemoryIO.mem MemoryIO.world] in Hout.
    match type of Hout with context [MemoryIO.rag_add_text w3 ?x ?y ?z] =>
      destruct (MemoryIO.rag_add_text w3 x y z) as [w4 [u4|e4]] eqn:Hrag end;
      unfold ret in Hout; subst out; cbn [fst snd MemoryIO.mem experiences pats].
    + split; [exact Hlog|]. split; reflexivity.
    + split; [exact Hlog|]. split; [reflexivity|]. right. right. right.
      eexists w3, _, _, _. rewrite Hrag. reflexivity.
Qed.

(** When no write fails, [MemoryIO.store_experience] does to the memory what
    [Memory.store_experience] does, and raises what it raises. *)
Lemma store_experience_in_memory
    (st : MemoryIO.state World) (task_type query : string) (strategy : list action)
    (success : bool) (execution_time : Q) (context failure_reason : option string)
    (now_id now_ts : string) :
  no_write_fails ->
  let old := Memory.store_experience strategy_hash md5_hex json_dumps cfg (MemoryIO.mem st)
               task_type query strategy success execution_time context failure_reason
               now_id now_ts in
  let out := MemoryIO.store_experience strategy_hash md5_hex json_dumps cfg task_type query
               strategy success execution_time context failure_reason now_id now_ts st in
  MemoryIO.mem (fst out) = fst (fst old)
  /\ snd out = match snd old with
               | None => Ok (snd (fst old))
               | Some err => Raise (MemoryIO.exn_of err)
               end.
Proof.
  intros (Happend & Hpatterns & Hplaybook & Hrag) old out.
  assert (Hout : out = MemoryIO.store_experience strategy_hash md5_hex json_dumps cfg
                         task_type query strategy success execution_time context
                         failure_reason now_id now_ts st) by reflexivity.
  assert (Hold : old = Memory.store_experience strategy_hash md5_hex json_dumps cfg
                         (MemoryIO.mem st) task_type query strategy success execution_time
                         context failure_reason now_id now_ts) by reflexivity.
  clearbody out old.
  unfold MemoryIO.store_experience, MemoryIO._save_experience in Hout.
  unfold Memory.store_experience in Hold.
  set (e := Experience _ _ _ _ _ _ _ _ _ _) in *.
  unfold bind at 1 in Hout. unfold bind at 1 in Hout. unfold MemoryIO.io_res at 1 in Hout.
  specialize (Happend (MemoryIO.world st) e).
  destruct (MemoryIO.fs_append_experience (MemoryIO.world st) e) as [w1 r1].
  cbn [snd] in Happend. subst r1.
  unfold bind at 1, gets at 1, MemoryIO.set_mem at 1 in Hout.
  cbn [MemoryIO.mem MemoryIO.world] in Hout.
  destruct (auto_learn cfg).
  2:{ unfold bind, ret in Hout. subst out old. split; reflexivity. }
  unfold bind at 1 in Hout. unfold bind at 1 in Hout.
  unfold MemoryIO._update_patterns in Hout.
  unfold bind at 1, gets at 1 in Hout. cbn [MemoryIO.mem] in Hout.
  unfold bind at 1, MemoryIO.set_mem at 1 in Hout. cbn [MemoryIO.world] in Hout.
  destruct (Memory._update_patterns _ e) as [m2 [err|]]; cbn [fst snd] in *.
  { unfold raise in Hout. subst out old. split; reflexivity. }
  unfold MemoryIO._save_patterns, bind at 1, gets at 1, MemoryIO.io_res at 1 in Hout.
  cbn [MemoryIO.mem MemoryIO.world] in Hout.
  specialize (Hpatterns w1 (pats m2)).
  destruct (MemoryIO.fs_save_patterns w1 (pats m2)) as [w2 r2].
  cbn [snd] in Hpatterns. subst r2.
  destruct success.
  2:{ unfold ret in Hout. subst out old. split; reflexivity. }
  unfold bind at 1 in Hout.
  unfold MemoryIO._update_playbook, MemoryIO._save_playbook in Hout.
  unfold bind at 1, gets at 1 in Hout. cbn [MemoryIO.mem] in Hout.
  unfold bind at 1, MemoryIO.set_mem at 1 in Hout. cbn [MemoryIO.world] in Hout.
  unfold bind at 1, gets at 1, MemoryIO.io_res at 1 in Hout.
  cbn [MemoryIO.mem MemoryIO.world] in Hout.
  match type of Hout with context [MemoryIO.fs_save_playbook w2 ?b] =>
    specialize (Hplaybook w2 b);
    destruct (MemoryIO.fs_save_playbook w2 b) as [w3 r3] end.
  cbn [snd] in Hplaybook. subst r3.
  unfold bind at 1, gets at 1 in Hout. cbn [MemoryIO.mem] in Hout.
  unfold bind at 1, MemoryIO.set_mem at 1 in Hout. cbn [MemoryIO.world] in Hout.
  unfold MemoryIO.io_res in Hout. cbn [MemoryIO.mem MemoryIO.world] in Hout.
  match type of Hout with context [MemoryIO.rag_add_text w3 ?x ?y ?z] =>
    specialize (Hrag w3 x y z);
    destruct (MemoryIO.rag_add_text w3 x y z) as [w4 r4] end.
  cbn [snd] in Hrag. subst r4.
  unfold ret in Hout. subst out old. split; reflexivity.
Qed.

End StoreWrites.

Section Store.
Context {World : Type} `{MemoryIO.Env World}.
Variable strategy_hash : list action -> string.
Variable md5_hex : string -> string.
Variable json_dumps : list action -> string.
Variable cfg : config.


End Store.

Lemma init_in_sync t : cache_in_sync init t.
Proof. unfold cache_in_sync, init. simpl. rewrite lookup_empty. reflexivity. Qed.



End MemoryFacts.

(** ** Execution sandbox *)

Module SandboxFacts.
Import Json Monad.

Section Executor.
Import Orchestrator.
Context {World : Type} `{Env World}.

(** A command of the denylist is turned away with the state untouched. *)
Lemma execute_bash_blocked (c : string) (st : state World) :
  safe_mode (exec st) = true ->
  Py.any_in dangerous (Py.lower c) = true ->
  execute_bash (JStr c) st = (st, Ok (false, "Command blocked by safe mode")).
Proof.
  intros Hsafe Hdanger. unfold execute_bash, bind, gets, lift, lower_, ret.
  rewrite Hsafe, Hdanger. reflexivity.
Qed.

(** A command that passes the check leaves exactly one audit record, whether
    the subprocess runs or the attempt raises. *)
Lemma execute_bash_unblocked_audits_once (c : string) (st : state World) :
  safe_mode (exec st) = false \/ Py.any_in dangerous (Py.lower c) = false ->
  exists st' r,
    execute_bash (JStr c) st = (st', Ok r)
    /\ length (audit_log (exec st')) = S (length (audit_log (exec st)))
    /\ proc_calls (exec st') = proc_calls (exec st) ++ [JStr c].
Proof.
  intros Hpass. unfold execute_bash.
  assert (Hcheck :
    (blocked <- (if safe_mode (exec st)
                 then lc <- lift (lower_ (JStr c)) ;; ret (Py.any_in dangerous lc)
                 else ret false) ;; ret blocked)%monad st = (st, Ok false)).
  { unfold bind, lift, lower_, ret.
    destruct Hpass as [-> | Hd]; [reflexivity|].
    rewrite Hd. destruct (safe_mode (exec st)); reflexivity. }
  unfold bind at 1; unfold gets at 1.
  unfold bind at 1.
  unfold bind, lift, lower_, ret in Hcheck.
  destruct (safe_mode (exec st)).
  - unfold bind, lift, lower_, ret in *.
    destruct (Py.any_in dangerous (Py.lower c)); [discriminate|].
    unfold try_, record_proc_call, modify, io_res, audit, now, gets, set_exec, set_world.
    simpl. destruct (proc_shell (world st) (JStr c)) as [w [[[rc out] err]|e]]; simpl;
      eexists; eexists; (split; [reflexivity|]); simpl; rewrite length_app; simpl;
      (split; [lia|reflexivity]).
  - unfold ret at 1.
    unfold try_, bind, record_proc_call, modify, io_res, audit, now, gets, ret,
      set_exec, set_world.
    simpl. destruct (proc_shell (world st) (JStr c)) as [w [[[rc out] err]|e]]; simpl;
      eexists; eexists; (split; [reflexivity|]); simpl; rewrite length_app; simpl;
      (split; [lia|reflexivity]).
Qed.

(** A path that fails validation is turned away with the state untouched. *)
Lemma read_file_refused (filepath : json) (st : state World) :
  fs_validate_path (world st) (workspace_path (exec st)) filepath = false ->
  read_file filepath st = (st, Ok (false, "Path outside workspace")).
Proof.
  intros Hinvalid. unfold read_file, validate_path, bind, gets. rewrite Hinvalid.
  reflexivity.
Qed.

(** C4 fails on the code. In safe mode [execute_bash] turns ["rm -rf /"] away
    before its [try] block, and [read_file] turns a path outside the workspace
    away before its own: both return with the audit log as it was, where the
    claim asks for one new record. *)
Theorem rejected_invocations_leave_no_audit_record
    (w : World) (workspace : string) (log : list audit_entry) (calls : list json)
    (ps : patterns) (ds : list action) (safe : bool) (filepath : json) :
  (let st := State w (Executor workspace true log calls) ps ds in
   execute_bash (JStr "rm -rf /") st = (st, Ok (false, "Command blocked by safe mode"))
   /\ audit_log (exec (fst (execute_bash (JStr "rm -rf /") st))) = log)
  /\ (let st := State w (Executor workspace safe log calls) ps ds in
      fs_validate_path w workspace filepath = false ->
      read_file filepath st = (st, Ok (false, "Path outside workspace"))
      /\ audit_log (exec (fst (read_file filepath st))) = log).
Proof.
  split.
  - assert (Hrun : execute_bash (JStr "rm -rf /")
                     (State w (Executor workspace true log calls) ps ds)
                   = (State w (Executor workspace true log calls) ps ds,
                      Ok (false, "Command blocked by safe mode")))
      by (apply execute_bash_blocked; reflexivity).
    cbv zeta. rewrite Hrun. split; reflexivity.
  - cbv zeta. intros Hinvalid.
    rewrite read_file_refused by exact Hinvalid. split; reflexivity.
Qed.

End Executor.

Section BothExecutors.
Context {World : Type} (orchestrator_env : Orchestrator.Env World)
        (action_env : ActionExec.Env World).

(** C5. In safe mode ["rm -rf /"] is answered with [success = false] and a
    message that says why, and no subprocess is created: by
    [SecureExecutor.execute_bash], which leaves the executor and the world
    untouched, and by [ActionExecutor._bash_execute], which hands nothing to
    [subprocess.run] (with code execution disabled it refuses even before the
    denylist is looked at). *)
Theorem rm_rf_root_is_rejected_before_any_subprocess
    (w : World) (workspace : string) (log : list Orchestrator.audit_entry)
    (calls : list json) (ps : Orchestrator.patterns) (ds : list Orchestrator.action)
    (code_execution_enabled : bool) (timeout : Z) (st : ActionExec.state World) :
  (let st0 := Orchestrator.State w (Orchestrator.Executor workspace true log calls) ps ds in
   exists st',
     Orchestrator.execute_bash (JStr "rm -rf /") st0
     = (st', Ok (false, "Command blocked by safe mode"))
     /\ Orchestrator.proc_calls (Orchestrator.exec st') = calls
     /\ Orchestrator.world st' = w)
  /\ (exists st' message,
        ActionExec._bash_execute (ActionExec.Config code_execution_enabled true timeout)
          [("command", JStr "rm -rf /")] st
        = (st', Ok (ActionExec.Observation false message None None))
        /\ message = (if code_execution_enabled then "Command blocked in safe mode"
                      else "Code execution is disabled")
        /\ ActionExec.spawned st' = ActionExec.spawned st
        /\ ActionExec.world st' = ActionExec.world st).
Proof.
  split.
  - cbv zeta. eexists. split; [|split]; [reflexivity|reflexivity|reflexivity].
  - destruct code_execution_enabled; eexists; eexists;
      (split; [reflexivity|]); repeat split; reflexivity.
Qed.

End BothExecutors.

Example safe_mode_passes_other_commands :
  exists st', @Orchestrator.execute_bash unit (Demo.env None (Ok tt)) (JStr "ls")
                (Orchestrator.State tt (Orchestrator.Executor "/workspace" true [] [])
                                    (Orchestrator.Patterns ∅ ∅) [])
              = (st', Ok (true, ""))
              /\ length (Orchestrator.audit_log (Orchestrator.exec st')) = 1%nat.
Proof. eexists. split; [vm_compute; reflexivity|reflexivity]. Qed.

End SandboxFacts.

(** ** Reasoning loop *)

Module EngineFacts.
Import Json Monad Orchestrator EngineSpec.

(** *** What a computation leaves untouched *)

Section Keeps.
Context {World : Type} `{Env World}.

Lemma keeps_ret {A B} (f : state World -> B) (a : A) : keeps f (ret a).
Proof. intros st; reflexivity. Qed.

Lemma keeps_raise {A B} (f : state World -> B) (e : exn) : keeps f (@raise _ A e).
Proof. intros st; reflexivity. Qed.

Lemma keeps_lift {A B} (f : state World -> B) (r : res A) : keeps f (lift r).
Proof. intros st; reflexivity. Qed.

Lemma keeps_gets {A B} (f : state World -> B) (g : state World -> A) : keeps f (gets g).
Proof. intros st; reflexivity. Qed.

Lemma keeps_bind {A A' B} (f : state World -> B) (m : M (state World) A)
    (k : A -> M (state World) A') :
  keeps f m -> (forall a, keeps f (k a)) -> keeps f (bind m k).
Proof.
  intros Hm Hk st. unfold bind. specialize (Hm st).
  destruct (m st) as [st' [a|e]]; simpl in *; [|exact Hm].
  rewrite Hk. exact Hm.
Qed.

Lemma keeps_try {A B} (f : state World -> B) (m : M (state World) A)
    (h : exn -> M (state World) A) :
  keeps f m -> (forall e, keeps f (h e)) -> keeps f (try_ m h).
Proof.
  intros Hm Hh st. unfold try_. specialize (Hm st).
  destruct (m st) as [st' [a|e]]; simpl in *; [exact Hm|].
  rewrite Hh. exact Hm.
Qed.

Lemma keeps_finally {A B} (f : state World -> B) (m : M (state World) A)
    (c : M (state World) unit) :
  keeps f m -> keeps f c -> keeps f (finally_ m c).
Proof.
  intros Hm Hc st. unfold finally_. specialize (Hm st).
  destruct (m st) as [st' r]; simpl in *. specialize (Hc st').
  destruct (c st') as [st'' [u|e]]; simpl in *; congruence.
Qed.

Lemma keeps_modify {B} (f : state World -> B) (g : state World -> state World) :
  (forall st, f (g st) = f st) -> keeps f (modify g).
Proof. intros Hg st; simpl. apply Hg. Qed.

Lemma keeps_io {A B} (f : state World -> B) (g : World -> World * A) :
  (forall w st, f (set_world w st) = f st) -> keeps f (io g).
Proof. intros Hw st. unfold io. destruct (g (world st)); simpl. apply Hw. Qed.

Lemma keeps_io_res {A B} (f : state World -> B) (g : World -> World * res A) :
  (forall w st, f (set_world w st) = f st) -> keeps f (io_res g).
Proof. intros Hw st. unfold io_res. destruct (g (world st)); simpl. apply Hw. Qed.

End Keeps.

(** Split a computation along its structure until the primitives are left. *)
Ltac keeps_step :=
  match goal with
  | |- keeps _ (bind _ _) => apply keeps_bind; [|intros ?]
  | |- keeps _ (try_ _ _) => apply keeps_try; [|intros ?]
  | |- keeps _ (finally_ _ _) => apply keeps_finally
  | |- keeps _ (ret _) => apply keeps_ret
  | |- keeps _ (raise _) => apply keeps_raise
  | |- keeps _ (lift _) => apply keeps_lift
  | |- keeps _ (gets _) => apply keeps_gets
  | |- keeps _ (modify _) => apply keeps_modify; intros; reflexivity
  | |- keeps _ (io _) => apply keeps_io; intros; reflexivity
  | |- keeps _ (io_res _) => apply keeps_io_res; intros; reflexivity
  | |- keeps _ (if ?b then _ else _) => destruct b
  | |- keeps _ (match ?x with _ => _ end) => destruct x
  end.

Section Loop.
Context {World : Type} `{Env World}.

Lemma audit_keeps_dispatched a p r s : keeps dispatched (audit a p r s).
Proof. unfold audit, now. repeat keeps_step. Qed.

Lemma execute_bash_keeps_dispatched c : keeps dispatched (execute_bash c).
Proof.
  unfold execute_bash, record_proc_call.
  repeat (first [apply audit_keeps_dispatched | keeps_step]).
Qed.

Lemma execute_python_keeps_dispatched c : keeps dispatched (execute_python c).
Proof.
  unfold execute_python, record_proc_call.
  repeat (first [apply audit_keeps_dispatched | keeps_step]).
Qed.

Lemma read_file_keeps_dispatched p : keeps dispatched (read_file p).
Proof.
  unfold read_file, validate_path.
  repeat (first [apply audit_keeps_dispatched | keeps_step | (intros st; reflexivity)]).
Qed.

Lemma write_file_keeps_dispatched p c : keeps dispatched (write_file p c).
Proof.
  unfold write_file, validate_path.
  repeat (first [apply audit_keeps_dispatched | keeps_step]).
Qed.

Lemma execute_action_keeps_dispatched a : keeps dispatched (execute_action a).
Proof.
  unfold execute_action.
  repeat (first [apply execute_bash_keeps_dispatched | apply execute_python_keeps_dispatched
                | apply read_file_keeps_dispatched | apply write_file_keeps_dispatched
                | keeps_step]).
Qed.

(** [execute_action] catches every exception. *)
Lemma execute_action_returns a st :
  exists st' success observation, execute_action a st = (st', Ok (success, observation)).
Proof.
  unfold execute_action, try_.
  match goal with |- context [match ?m st with _ => _ end] =>
    destruct (m st) as [st' [[b o]|e]] end.
  - exists st', b, o; reflexivity.
  - exists st', false, (exn_msg e); reflexivity.
Qed.

Lemma think_and_act_keeps_sandbox eng query context history :
  keeps sandbox (think_and_act eng query context history).
Proof.
  intros st. unfold think_and_act, io_res.
  destruct (llm_create _ _) as [w [[|content blocks]|e]]; simpl.
  - reflexivity.
  - destruct (json_loads _); reflexivity.
  - destruct (String.eqb _ _); reflexivity.
Qed.

Lemma reflect_on_task_keeps_sandbox query history result execution_time :
  keeps sandbox (reflect_on_task query history result execution_time).
Proof.
  unfold reflect_on_task, store_learning, _update_patterns, now.
  repeat keeps_step.
Qed.

Lemma complete_keeps_sandbox query history result start iteration :
  keeps sandbox (complete_ query history result start iteration).
Proof.
  unfold complete_, now.
  repeat (first [apply reflect_on_task_keeps_sandbox | keeps_step]).
Qed.

(** What the branch for ['complete'] returns, when it returns. *)
Lemma complete_returns query history result start iteration st st' r :
  complete_ query history result start iteration st = (st', Ok r) ->
  r = TaskResult true result (iteration + 1) (clock (world st) - start)%Q history.
Proof.
  unfold complete_, bind, now, gets, ret.
  destruct (reflection_enabled (world st)).
  - destruct (reflect_on_task _ _ _ _ st) as [st1 [l|e]]; intros [= _ <-]; reflexivity.
  - intros [= _ <-]; reflexivity.
Qed.

(** One iteration of the loop, from the decision on. *)
Lemma run_loop_unfold fuel eng query start context history iteration st :
  iteration < max_iterations eng ->
  run_loop (S fuel) eng query start context history iteration st =
  (decision <- think_and_act eng query context history ;;
   thought <- lift (get_ decision "thought" (JStr "")) ;;
   action_dict <- lift (get_ decision "action" (JObj [])) ;;
   confidence <- lift (get_ decision "confidence" (JFloat (1 # 2))) ;;
   a_type <- lift (get_ action_dict "action_type" (JStr "complete")) ;;
   a_params <- lift (get_ action_dict "parameters" (JObj [])) ;;
   t <- now ;;
   let action := Action a_type a_params t in
   if is_str (action_type action) "complete" then
     result <- lift (get_ (parameters action) "result" (JStr "Task completed")) ;;
     r <- complete_ query history result start iteration ;;
     ret (Some r)
   else
     modify (fun st => State (world st) (exec st) (pats st) (dispatched st ++ [action])) ;;;
     r <- execute_action action ;;
     let '(success, observation) := r in
     let history := history ++ [Step thought action observation success confidence] in
     let context :=
       if success && (Py.len observation <? 1000)
       then context +:+ Py.nl +:+ "Latest observation: " +:+ observation +:+ Py.nl
       else context in
     run_loop fuel eng query start context history (iteration + 1))%monad st.
Proof.
  intros Hlt. apply Z.ltb_lt in Hlt. cbn [run_loop]. rewrite Hlt. reflexivity.
Qed.

(** The loop condition is false: the result for exhausted iterations, with
    nothing else done. *)
Lemma run_loop_exhausted fuel eng query start context history iteration st :
  max_iterations eng <= iteration ->
  run_loop fuel eng query start context history iteration st =
  (st, Ok (Some (TaskResult false max_iterations_message
                            iteration (clock (world st) - start)%Q history))).
Proof.
  intros Hge. apply Z.ltb_ge in Hge. destruct fuel; cbn [run_loop]; rewrite Hge; reflexivity.
Qed.

(** The fuel [run] gives its loop is never used up. *)
Lemma run_loop_fuel_suffices eng query start fuel : forall context history iteration st,
  max_iterations eng - iteration <= Z.of_nat fuel ->
  snd (run_loop fuel eng query start context history iteration st) <> Ok None.
Proof.
  induction fuel as [|fuel IH]; intros context history iteration st Hfuel.
  - rewrite run_loop_exhausted by lia. discriminate.
  - destruct (Z.lt_ge_cases iteration (max_iterations eng)) as [Hlt|Hge];
      [|rewrite run_loop_exhausted by lia; discriminate].
    rewrite run_loop_unfold by exact Hlt.
    unfold bind at 1. destruct (think_and_act _ _ _ _ st) as [st1 [decision|e]];
      [|discriminate].
    unfold bind at 1. destruct (lift (get_ decision "thought" _) st1) as [st2 [thought|e]];
      [|discriminate].
    unfold bind at 1. destruct (lift (get_ decision "action" _) st2) as [st3 [ad|e]];
      [|discriminate].
    unfold bind at 1. destruct (lift (get_ decision "confidence" _) st3) as [st4 [cf|e]];
      [|discriminate].
    unfold bind at 1. destruct (lift (get_ ad "action_type" _) st4) as [st5 [ty|e]];
      [|discriminate].
    unfold bind at 1. destruct (lift (get_ ad "parameters" _) st5) as [st6 [pa|e]];
      [|discriminate].
    unfold bind at 1; unfold now at 1; unfold gets at 1. cbn [action_type parameters].
    destruct (is_str ty "complete").
    + unfold bind at 1. destruct (lift _ st6) as [st7 [result|e]]; [|discriminate].
      unfold bind at 1. destruct (complete_ _ _ _ _ _ st7) as [st8 [r|e]]; discriminate.
    + unfold bind at 1; unfold modify at 1.
      unfold bind at 1.
      match goal with |- context [execute_action ?a ?s] =>
        destruct (execute_action a s) as [st8 [[success observation]|e]] end;
        [|discriminate].
      apply IH. lia.
Qed.

Lemma run_never_out_of_fuel eng query st : snd (run eng query st) <> Ok None.
Proof.
  unfold run.
  unfold bind at 1; unfold now at 1; unfold gets at 1.
  unfold bind at 1; unfold io at 1. destruct (rag_query (world st) _ _ _) as [w1 docs].
  unfold bind at 1; unfold io at 1. cbn [world set_world].
  destruct (rag_query w1 _ _ _) as [w2 learnings].
  apply run_loop_fuel_suffices. lia.
Qed.

(** *** A ['complete'] action *)

(** What the branch for ['complete'] does, case by case. *)
Lemma complete_cases query history result start iteration (st : state World) :
  let elapsed := (clock (world st) - start)%Q in
  let r := TaskResult true result (iteration + 1) elapsed history in
  complete_ query history result start iteration st
  = if reflection_enabled (world st)
    then match reflect_on_task query history result elapsed st with
         | (st', Ok _) => (st', Ok r)
         | (st', Raise e) => (st', Raise e)
         end
    else (st, Ok r).
Proof.
  cbv zeta. unfold complete_, bind, now, gets, ret.
  destruct (reflection_enabled (world st)); [|reflexivity].
  destruct (reflect_on_task _ _ _ _ st) as [st' [l|e]]; reflexivity.
Qed.

(** An iteration whose decision is a ['complete'] action, up to the branch
    for it. *)
Lemma run_loop_complete_branch
    (eng : engine) (query : string) (start : Q) (context : string) (history : list step)
    (iteration : Z) (fuel : nat) (st st1 : state World) (kv akv pkv : dict) :
  iteration < max_iterations eng ->
  think_and_act eng query context history st = (st1, Ok (JObj kv)) ->
  default (JObj []) (assoc "action" kv) = JObj akv ->
  default (JStr "complete") (assoc "action_type" akv) = JStr "complete" ->
  default (JObj []) (assoc "parameters" akv) = JObj pkv ->
  run_loop (S fuel) eng query start context history iteration st
  = match complete_ query history (default (JStr "Task completed") (assoc "result" pkv))
                    start iteration st1 with
    | (st2, Ok r) => (st2, Ok (Some r))
    | (st2, Raise e) => (st2, Raise e)
    end.
Proof.
  intros Hlt Hthink Haction Htype Hparams.
  rewrite run_loop_unfold by exact Hlt.
  unfold bind at 1. rewrite Hthink.
  unfold bind, lift, get_, now, gets. rewrite Haction, Htype, Hparams. simpl.
  destruct (complete_ _ _ _ _ _ st1) as [st2 [r|e]]; reflexivity.
Qed.


(** *** A provider that never completes *)



(** *** A response that is not JSON *)

(** C3, amended. When [json.loads] rejects the provider's text,
    [think_and_act] returns in that same iteration the synthetic decision: a
    ['complete'] action with result ['Error in reasoning'] and confidence 0.0.
    [run] then ends in that iteration (the reflection raising nothing) with
    [success = true], that result, and the history as it was before the
    iteration: no step is recorded for the synthetic action, and nothing is
    dispatched. *)
Theorem parse_failure_ends_run_without_a_step
    (eng : engine) (query : string) (start : Q) (context : string) (history : list step)
    (iteration : Z) (fuel : nat) (st st2 : state World) (w' : World)
    (content : string) (blocks : list string) (r : task_result) :
  iteration < max_iterations eng ->
  llm_create (world st) (request_of eng query context history (world st))
    = (w', Ok (content :: blocks)) ->
  json_loads (unfence content) = None ->
  complete_ query history (JStr "Error in reasoning") start iteration (set_world w' st)
    = (st2, Ok r) ->
  think_and_act eng query context history st = (set_world w' st, Ok parse_error_decision)
  /\ get_ parse_error_decision "action" (JObj []) = Ok (complete_action "Error in reasoning")
  /\ get_ parse_error_decision "confidence" (JFloat (1 # 2)) = Ok (JFloat 0)
  /\ run_loop (S fuel) eng query start context history iteration st = (st2, Ok (Some r))
  /\ r = TaskResult true (JStr "Error in reasoning") (iteration + 1)
                    (clock w' - start)%Q history
  /\ dispatched st2 = dispatched st.
Proof.
  intros Hlt Hllm Hloads Hcomplete.
  assert (Hthink : think_and_act eng query context history st
                   = (set_world w' st, Ok parse_error_decision)).
  { unfold think_and_act, io_res. rewrite Hllm, Hloads. reflexivity. }
  pose proof (complete_returns _ _ _ _ _ _ _ _ Hcomplete) as Hr.
  pose proof (complete_keeps_sandbox query history (JStr "Error in reasoning") start
                iteration (set_world w' st)) as Hkeep.
  rewrite Hcomplete in Hkeep. unfold sandbox in Hkeep. simpl in Hkeep.
  split; [exact Hthink|]. split; [reflexivity|]. split; [reflexivity|].
  split; [|split; [exact Hr|congruence]].
  rewrite run_loop_unfold by exact Hlt.
  unfold bind at 1. rewrite Hthink.
  unfold bind, lift, get_, now, gets. simpl. rewrite Hcomplete. reflexivity.
Qed.

(** *** Reflection *)

(** A successful result of the loop is returned after the reflection on it
    returned, or with reflection disabled. *)
Lemma run_loop_success_reflected eng query start fuel :
  forall context history iteration (st st' : state World) r,
  run_loop fuel eng query start context history iteration st = (st', Ok (Some r)) ->
  r_success r = true ->
  exists st_t,
    (reflection_enabled (world st_t) = false /\ st' = st_t)
    \/ (reflection_enabled (world st_t) = true
        /\ exists l, reflect_on_task query (r_history r) (r_result r)
                       (r_execution_time r) st_t = (st', Ok l)).
Proof.
  induction fuel as [|fuel IH]; intros context history iteration st st' r Hrun Hsucc.
  - destruct (Z.lt_ge_cases iteration (max_iterations eng)) as [Hlt|Hge].
    + cbn [run_loop] in Hrun. apply Z.ltb_lt in Hlt. rewrite Hlt in Hrun. discriminate.
    + rewrite run_loop_exhausted in Hrun by exact Hge. injection Hrun as <- <-.
      discriminate.
  - destruct (Z.lt_ge_cases iteration (max_iterations eng)) as [Hlt|Hge].
    2:{ rewrite run_loop_exhausted in Hrun by exact Hge. injection Hrun as <- <-.
        discriminate. }
    rewrite run_loop_unfold in Hrun by exact Hlt.
    unfold bind at 1 in Hrun.
    destruct (think_and_act _ _ _ _ st) as [st1 [decision|e]]; [|discriminate].
    unfold bind at 1 in Hrun. unfold lift at 1 in Hrun.
    destruct (get_ decision "thought" _) as [thought|e]; [|discriminate].
    unfold bind at 1 in Hrun. unfold lift at 1 in Hrun.
    destruct (get_ decision "action" _) as [ad|e]; [|discriminate].
    unfold bind at 1 in Hrun. unfold lift at 1 in Hrun.
    destruct (get_ decision "confidence" _) as [cf|e]; [|discriminate].
    unfold bind at 1 in Hrun. unfold lift at 1 in Hrun.
    destruct (get_ ad "action_type" _) as [ty|e]; [|discriminate].
    unfold bind at 1 in Hrun. unfold lift at 1 in Hrun.
    destruct (get_ ad "parameters" _) as [pa|e]; [|discriminate].
    unfold bind at 1 in Hrun; unfold now at 1 in Hrun; unfold gets at 1 in Hrun.
    cbn [action_type parameters] in Hrun.
    destruct (is_str ty "complete").
    + unfold bind at 1 in Hrun. unfold lift at 1 in Hrun.
      destruct (get_ pa "result" _) as [result|e]; [|discriminate].
      unfold bind at 1 in Hrun. rewrite complete_cases in Hrun.
      exists st1.
      destruct (reflection_enabled (world st1)) eqn:Hon.
      * destruct (reflect_on_task _ _ _ _ st1) as [st2 [l|e]] eqn:Hreflect;
          [|discriminate].
        unfold ret in Hrun. injection Hrun as <- <-. cbn [r_history r_result r_execution_time].
        right. split; [reflexivity|]. exists l. exact Hreflect.
      * unfold ret in Hrun. injection Hrun as <- <-. left. split; reflexivity.
    + unfold bind at 1 in Hrun; unfold modify at 1 in Hrun.
      unfold bind at 1 in Hrun.
      match type of Hrun with context [execute_action ?a ?s] =>
        destruct (execute_action a s) as [st3 [[success observation]|e]] end;
        [|discriminate].
      eapply IH; eassumption.
Qed.

(** C6, amended. Whenever [run] returns a successful result, reflection
    was disabled at that point or [reflect_on_task], called with the query
    and the history, result and execution time of that result, had
    returned. In an iteration whose decision is a ['complete'] action, with
    reflection enabled: when [reflect_on_task] returns, the loop returns the
    result it returns with reflection disabled (success, the result, this
    iteration counted, the elapsed time, the history); when
    [reflect_on_task] raises, the loop catches nothing: the exception leaves
    it, and [run], and no result is returned. When the iterations are
    exhausted [reflect_on_task] is not called: the state is untouched. *)
Theorem reflection_returns_same_result_or_raises
    (eng : engine) (query : string) (context : string) (history : list step)
    (start : Q) (iteration : Z) (fuel : nat) (st : state World) :
  (forall st' r,
      run eng query st = (st', Ok (Some r)) -> r_success r = true ->
      exists st_t,
        (reflection_enabled (world st_t) = false /\ st' = st_t)
        \/ (reflection_enabled (world st_t) = true
            /\ exists l, reflect_on_task query (r_history r) (r_result r)
                           (r_execution_time r) st_t = (st', Ok l)))
  /\ (forall st1 kv akv pkv,
        iteration < max_iterations eng ->
        think_and_act eng query context history st = (st1, Ok (JObj kv)) ->
        default (JObj []) (assoc "action" kv) = JObj akv ->
        default (JStr "complete") (assoc "action_type" akv) = JStr "complete" ->
        default (JObj []) (assoc "parameters" akv) = JObj pkv ->
        reflection_enabled (world st1) = true ->
        let result := default (JStr "Task completed") (assoc "result" pkv) in
        let elapsed := (clock (world st1) - start)%Q in
        match reflect_on_task query history result elapsed st1 with
        | (st2, Ok _) =>
            run_loop (S fuel) eng query start context history iteration st
            = (st2, Ok (Some (TaskResult true result (iteration + 1) elapsed history)))
        | (st2, Raise e) =>
            run_loop (S fuel) eng query start context history iteration st
            = (st2, Raise e)
        end)
  /\ (max_iterations eng <= iteration ->
      run_loop fuel eng query start context history iteration st
      = (st, Ok (Some (TaskResult false max_iterations_message iteration
                                  (clock (world st) - start)%Q history)))).
Proof.
  split; [|split].
  - intros st' r Hrun Hsucc. unfold run in Hrun.
    unfold bind at 1 in Hrun; unfold now at 1 in Hrun; unfold gets at 1 in Hrun.
    unfold bind at 1 in Hrun; unfold io at 1 in Hrun.
    destruct (rag_query (world st) _ _ _) as [w1 docs].
    unfold bind at 1 in Hrun; unfold io at 1 in Hrun. cbn [world set_world] in Hrun.
    destruct (rag_query w1 _ _ _) as [w2 learnings].
    eapply run_loop_success_reflected; eassumption.
  - intros st1 kv akv pkv Hlt Hthink Haction Htype Hparams Hon result elapsed.
    rewrite (run_loop_complete_branch eng query start context history iteration fuel
               st st1 kv akv pkv Hlt Hthink Haction Htype Hparams).
    rewrite complete_cases. fold result. fold elapsed. rewrite Hon.
    destruct (reflect_on_task _ _ _ _ st1) as [st2 [l|e]]; reflexivity.
  - apply run_loop_exhausted.
Qed.

End Loop.

(** *** Concrete runs *)



Lemma parse_failure_ends_run_without_a_step_witness :
  exists st2 r,
    @think_and_act unit (Demo.env None (Ok tt)) Demo.eng3 "task" "context" [] Demo.st0
      = (Demo.st0, Ok parse_error_decision)
    /\ @run_loop unit (Demo.env None (Ok tt)) 1 Demo.eng3 "task" 0%Q "context" [] 0
         Demo.st0 = (st2, Ok (Some r))
    /\ r = TaskResult true (JStr "Error in reasoning") 1 0%Q []
    /\ dispatched st2 = [].
Proof.
  eexists; eexists.
  pose proof (@parse_failure_ends_run_without_a_step unit (Demo.env None (Ok tt))
                Demo.eng3 "task" 0%Q "context" [] 0 0%nat Demo.st0 _ tt "response" [] _
                ltac:(simpl; lia) eq_refl eq_refl ltac:(vm_compute; reflexivity))
    as (Hthink & _ & _ & Hrun & Hr & Hdisp).
  split; [exact Hthink|]. split; [exact Hrun|]. split; [exact Hr|exact Hdisp].
Defined.

(** C3 as stated fails: the provider's first answer is not JSON, and [run]
    returns at once with an empty history; the synthetic action and its
    confidence are recorded in no step. (An answer that is JSON but no
    object, such as a list, is not replaced at all: the [AttributeError] of
    [decision.get] leaves [run].) *)
Lemma parse_failure_records_no_terminal_step :
  (exists st' r,
      @run unit (Demo.env None (Ok tt)) Demo.eng3 "task" Demo.st0 = (st', Ok (Some r))
      /\ r_success r = true
      /\ r_history r = []
      /\ ~ (exists s, s ∈ r_history r /\ terminal_step s))
  /\ (exists st',
        @run unit (Demo.env (Some (JArr [])) (Ok tt)) Demo.eng3 "task" Demo.st0
        = (st', Raise (AttributeError (JArr []) "get"))).
Proof.
  split.
  - eexists; eexists. split; [vm_compute; reflexivity|].
    split; [reflexivity|]. split; [reflexivity|].
    intros (s & Hs & _). simpl in Hs. apply elem_of_nil in Hs. exact Hs.
  - eexists. vm_compute. reflexivity.
Qed.


(** C6 as stated fails: the same task in the same world with reflection
    enabled returns a result when the learning log can be written, and raises
    out of [run] when it cannot. *)
Lemma reflection_failure_fails_the_run :
  (exists st' r,
      @run unit (Demo.env Demo.completes (Ok tt)) Demo.eng3 "task" Demo.st0
      = (st', Ok (Some r)))
  /\ (exists st',
        @run unit (Demo.env Demo.completes Demo.disk_full) Demo.eng3 "task" Demo.st0
        = (st', Raise (Exn "OSError" "No space left on device")))
  /\ @reflection_enabled unit (Demo.env Demo.completes Demo.disk_full) tt = true.
Proof.
  split; [|split].
  - eexists; eexists. vm_compute. reflexivity.
  - eexists. vm_compute. reflexivity.
  - reflexivity.
Qed.

End EngineFacts.

(** ** Confidence scores *)

Module ConfidenceFacts.
Import Json Monad MemorySpec MemoryFacts.

Section Reflection.
Import Orchestrator.
Context {World : Type} `{Env World}.

(** The share of successful steps lies in the unit interval. *)
Lemma success_ratio_bounds (history : list step) :
  (0 <= success_ratio history /\ success_ratio history <= 1)%Q.
Proof.
  unfold success_ratio.
  pose proof (List.filter_length_le s_success history) as Hle.
  destruct (0 <? Z.of_nat (length history)) eqn:Hpos; [|split; discriminate].
  apply Z.ltb_lt in Hpos.
  assert (Hq : (0 < inject_Z (Z.of_nat (length history)))%Q)
    by (rewrite <- (Zlt_Qlt 0); exact Hpos).
  split.
  - apply Qle_shift_div_l; [exact Hq|]. rewrite Qmult_0_l.
    rewrite <- (Zle_Qle 0). lia.
  - apply Qle_shift_div_r; [exact Hq|]. rewrite Qmult_1_l.
    rewrite <- Zle_Qle. lia.
Qed.

(** The learning [reflect_on_task] stores carries that share as confidence. *)
Lemma reflect_on_task_confidence query history result execution_time
    (st st' : state World) (l : learning) :
  reflect_on_task query history result execution_time st = (st', Ok l) ->
  confidence_score l = success_ratio history
  /\ successful_strategy l = map s_action (List.filter s_success history).
Proof.
  unfold reflect_on_task, bind, lift, now, gets, ret.
  destruct (_extract_prerequisites history) as [prereqs|e]; [|discriminate].
  destruct (store_learning _ st) as [st1 [u|e]]; [|discriminate].
  intros [= _ <-]. split; reflexivity.
Qed.

End Reflection.

(** C8, amended. An experience stored by [store_experience] of
    learning_system.py is scored by the formula: 0.8 for a success and 0.2 for
    a failure, less the smaller of a tenth per step of the strategy and 0.2,
    brought into the unit interval. A learning stored by [reflect_on_task] of
    orchestrator.py is scored by the share of successful steps in the history
    (0 for an empty history). Both scores lie between 0 and 1. *)
Theorem stored_confidence_is_scored_and_bounded
    {World : Type} (E : Orchestrator.Env World) :
  (forall strategy_hash md5_hex json_dumps cfg st task_type query strategy success
          execution_time context failure_reason now_id now_ts,
      exists e,
        Memory.experiences (fst (fst (Memory.store_experience strategy_hash md5_hex
            json_dumps cfg st task_type query strategy success execution_time context
            failure_reason now_id now_ts))) = Memory.experiences st ++ [e]
        /\ Memory.e_confidence_score e = spec_confidence (length strategy) success
        /\ (0 <= Memory.e_confidence_score e /\ Memory.e_confidence_score e <= 1)%Q)
  /\ (forall query history result execution_time st st' l,
        Orchestrator.reflect_on_task query history result execution_time st = (st', Ok l) ->
        Orchestrator.confidence_score l = Orchestrator.success_ratio history
        /\ (0 <= Orchestrator.confidence_score l
            /\ Orchestrator.confidence_score l <= 1)%Q).
Proof.
  split.
  - intros strategy_hash md5_hex json_dumps cfg st task_type query strategy success
           execution_time context failure_reason now_id now_ts.
    destruct (store_experience_appends strategy_hash md5_hex json_dumps cfg st task_type
                query strategy success execution_time context failure_reason now_id now_ts)
      as (e & Hlog & _ & _ & Hscore).
    exists e. split; [exact Hlog|]. rewrite Hscore.
    split; [apply calculate_confidence_formula|apply calculate_confidence_bounds].
  - intros query history result execution_time st st' l Hreflect.
    destruct (reflect_on_task_confidence _ _ _ _ _ _ _ Hreflect) as [Hscore _].
    rewrite Hscore. split; [reflexivity|apply success_ratio_bounds].
Qed.

(** C8 as stated fails: reflecting on a history of one successful step stores
    a learning of confidence 1, where the formula gives 0.7 for a success with
    a strategy of one step, and 0.1 for a failure. *)
Lemma reflection_confidence_is_not_the_formula :
  exists st' l,
    @Orchestrator.reflect_on_task unit (Demo.env Demo.completes (Ok tt)) "list the files"
      [Demo.ok_step] (JStr "done") 1%Q Demo.st0 = (st', Ok l)
    /\ length (Orchestrator.successful_strategy l) = 1%nat
    /\ (Orchestrator.confidence_score l == 1)%Q
    /\ (spec_confidence 1 true == 7 # 10)%Q
    /\ (spec_confidence 1 false == 1 # 10)%Q
    /\ ~ (Orchestrator.confidence_score l
          == spec_confidence (length (Orchestrator.successful_strategy l)) true)%Q
    /\ ~ (Orchestrator.confidence_score l
          == spec_confidence (length (Orchestrator.successful_strategy l)) false)%Q.
Proof.
  eexists; eexists. split; [vm_compute; reflexivity|].
  repeat split; try reflexivity; intros Heq; vm_compute in Heq; discriminate.
Qed.

End ConfidenceFacts.

(* ===================================================================== *)
(** * Further properties of the code *)
(* ===================================================================== *)

Module AuditFacts.
Import Json Monad Orchestrator SandboxSpec.

Lemma take_length_le (n : nat) (s : string) : (String.length (Py.take n s) <= n)%nat.
Proof.
  revert s; induction n as [|n IH]; intros [|c s]; simpl; try lia.
  specialize (IH s). lia.
Qed.

Lemma slice_to_len (s : string) (n : Z) : 0 <= n -> Py.len (Py.slice_to s n) <= n.
Proof.
  intros Hn. unfold Py.slice_to, Py.slice, Py.len.
  match goal with |- context [Py.take ?k ?t] => pose proof (take_length_le k t) as Hle end.
  unfold Py.clip in *. 
  destruct (0 <? 0) eqn:H0; [discriminate|].
  destruct (n <? 0) eqn:Hn0; [apply Z.ltb_lt in Hn0; lia|].
  unfold Py.len in *. lia.
Qed.

Section WithEnv.
Context {World : Type} `{Env World}.

Lemma audit_extended_same_exec (st st' : state World) :
  exec st' = exec st -> audit_extended st st'.
Proof.
  intros Heq. unfold audit_extended. rewrite Heq. repeat split.
  - exists []. symmetry; apply app_nil_r.
  - exists []. split; [symmetry; apply app_nil_r|constructor].
Qed.

Lemma audit_extended_refl (st : state World) : audit_extended st st.
Proof. apply audit_extended_same_exec. reflexivity. Qed.

Lemma audit_extended_trans (st1 st2 st3 : state World) :
  audit_extended st1 st2 -> audit_extended st2 st3 -> audit_extended st1 st3.
Proof.
  intros (Hw1 & Hs1 & [c1 Hc1] & n1 & Hl1 & Hf1) (Hw2 & Hs2 & [c2 Hc2] & n2 & Hl2 & Hf2).
  split; [congruence|]. split; [congruence|]. split.
  - exists (c1 ++ c2). rewrite Hc2, Hc1, app_assoc. reflexivity.
  - exists (n1 ++ n2). split; [rewrite Hl2, Hl1, app_assoc; reflexivity|].
    apply Forall_app; split; assumption.
Qed.

Lemma moves_ret {A} (a : A) : moves (@audit_extended World) (ret a).
Proof. intros st; apply audit_extended_refl. Qed.

Lemma moves_raise {A} (e : exn) : moves (@audit_extended World) (@raise _ A e).
Proof. intros st; apply audit_extended_refl. Qed.

Lemma moves_lift {A} (r : res A) : moves (@audit_extended World) (lift r).
Proof. intros st; apply audit_extended_refl. Qed.

Lemma moves_gets {A} (g : state World -> A) : moves (@audit_extended World) (gets g).
Proof. intros st; apply audit_extended_refl. Qed.

Lemma moves_bind {A B} (m : M (state World) A) (k : A -> M (state World) B) :
  moves (@audit_extended World) m -> (forall a, moves (@audit_extended World) (k a)) ->
  moves (@audit_extended World) (bind m k).
Proof.
  intros Hm Hk st. unfold bind. specialize (Hm st).
  destruct (m st) as [st' [a|e]]; simpl in *; [|exact Hm].
  eapply audit_extended_trans; [exact Hm|apply Hk].
Qed.

Lemma moves_try {A} (m : M (state World) A) (h : exn -> M (state World) A) :
  moves (@audit_extended World) m -> (forall e, moves (@audit_extended World) (h e)) ->
  moves (@audit_extended World) (try_ m h).
Proof.
  intros Hm Hh st. unfold try_. specialize (Hm st).
  destruct (m st) as [st' [a|e]]; simpl in *; [exact Hm|].
  eapply audit_extended_trans; [exact Hm|apply Hh].
Qed.

Lemma moves_finally {A} (m : M (state World) A) (c : M (state World) unit) :
  moves (@audit_extended World) m -> moves (@audit_extended World) c ->
  moves (@audit_extended World) (finally_ m c).
Proof.
  intros Hm Hc st. unfold finally_. specialize (Hm st).
  destruct (m st) as [st' r]; simpl in *. specialize (Hc st').
  destruct (c st') as [st'' [u|e]]; simpl in *;
    eapply audit_extended_trans; eassumption.
Qed.

Lemma moves_io {A} (g : World -> World * A) : moves (@audit_extended World) (io g).
Proof.
  intros st. unfold io. destruct (g (world st)); simpl.
  apply audit_extended_same_exec. reflexivity.
Qed.

Lemma moves_io_res {A} (g : World -> World * res A) : moves (@audit_extended World) (io_res g).
Proof.
  intros st. unfold io_res. destruct (g (world st)); simpl.
  apply audit_extended_same_exec. reflexivity.
Qed.

Lemma moves_audit a p r s : moves (@audit_extended World) (audit a p r s).
Proof.
  intros st. unfold audit, bind, now, gets, modify. simpl.
  repeat split.
  - exists []. symmetry; apply app_nil_r.
  - eexists. split; [reflexivity|]. constructor; [|constructor]. simpl.
    apply slice_to_len. lia.
Qed.

Lemma moves_record_proc_call c : moves (@audit_extended World) (record_proc_call c).
Proof.
  intros st. unfold record_proc_call, modify. simpl. repeat split.
  - eexists; reflexivity.
  - exists []. split; [symmetry; apply app_nil_r|constructor].
Qed.

End WithEnv.

Ltac moves_step :=
  match goal with
  | |- moves _ (bind _ _) => apply moves_bind; [|intros ?]
  | |- moves _ (try_ _ _) => apply moves_try; [|intros ?]
  | |- moves _ (finally_ _ _) => apply moves_finally
  | |- moves _ (ret _) => apply moves_ret
  | |- moves _ (raise _) => apply moves_raise
  | |- moves _ (lift _) => apply moves_lift
  | |- moves _ (gets _) => apply moves_gets
  | |- moves _ (audit _ _ _ _) => apply moves_audit
  | |- moves _ (record_proc_call _) => apply moves_record_proc_call
  | |- moves _ (io _) => apply moves_io
  | |- moves _ (io_res _) => apply moves_io_res
  | |- moves _ (if ?b then _ else _) => destruct b
  | |- moves _ (match ?x with _ => _ end) => destruct x
  end.

Section WithEnv2.
Context {World : Type} `{Env World}.

Lemma moves_execute_bash c : moves (@audit_extended World) (execute_bash c).
Proof. unfold execute_bash. repeat moves_step. Qed.

Lemma moves_execute_python c : moves (@audit_extended World) (execute_python c).
Proof. unfold execute_python. repeat moves_step. Qed.

Lemma moves_read_file p : moves (@audit_extended World) (read_file p).
Proof.
  unfold read_file, validate_path.
  repeat (first [moves_step | (intros st; apply audit_extended_refl)]).
Qed.

Lemma moves_write_file p c : moves (@audit_extended World) (write_file p c).
Proof. unfold write_file, validate_path. repeat moves_step. Qed.

Lemma moves_execute_action a : moves (@audit_extended World) (execute_action a).
Proof.
  unfold execute_action.
  repeat (first [apply moves_execute_bash | apply moves_execute_python
                | apply moves_read_file | apply moves_write_file | moves_step]).
Qed.

End WithEnv2.
End AuditFacts.

Module AuditRecordFacts.
Import Json Monad Orchestrator SandboxSpec EngineSpec EngineFacts AuditFacts.

Ltac crush_executor :=
  repeat match goal with
         | |- context [match ?x with _ => _ end] =>
             lazymatch x with
             | context [match _ with _ => _ end] => fail
             | _ => destruct x eqn:?
             end
         | |- context [if ?x then _ else _] =>
             lazymatch x with
             | context [if _ then _ else _] => fail
             | context [match _ with _ => _ end] => fail
             | _ => destruct x eqn:?
             end
         end;
  cbn [fst exec audit_log set_exec set_world];
  first [ exists []; split; [symmetry; apply app_nil_r | simpl; lia]
        | eexists [_]; split; [reflexivity | simpl; lia] ].

Section WithEnv.
Context {World : Type} `{Env World}.

Lemma execute_bash_at_most_one c (st : state World) :
  at_most_one_record st (fst (execute_bash c st)).
Proof.
  unfold at_most_one_record.
  cbv beta iota zeta delta [execute_bash try_ bind gets lift ret record_proc_call modify io_res audit now lower_].
  crush_executor.
Qed.

Lemma execute_python_at_most_one c (st : state World) :
  at_most_one_record st (fst (execute_python c st)).
Proof.
  unfold at_most_one_record.
  cbv beta iota zeta delta [execute_python finally_ try_ bind gets lift ret raise record_proc_call modify io_res audit now].
  crush_executor.
Qed.

Lemma read_file_at_most_one p (st : state World) :
  at_most_one_record st (fst (read_file p st)).
Proof.
  unfold at_most_one_record.
  cbv beta iota zeta delta [read_file validate_path try_ bind gets lift ret modify io_res audit now].
  crush_executor.
Qed.

Lemma write_file_at_most_one p c (st : state World) :
  at_most_one_record st (fst (write_file p c st)).
Proof.
  unfold at_most_one_record.
  cbv beta iota zeta delta [write_file validate_path try_ bind gets lift ret modify io_res audit now len_].
  crush_executor.
Qed.

Lemma at_most_one_refl (st st' : state World) :
  exec st' = exec st -> at_most_one_record st st'.
Proof. intros Heq. exists []. rewrite Heq. split; [symmetry; apply app_nil_r|simpl; lia]. Qed.

Lemma try_ret_state {A} (m : M (state World) A) (f : exn -> A) (st : state World) :
  fst (try_ m (fun e => ret (f e)) st) = fst (m st).
Proof. unfold try_. destruct (m st) as [st' [a|e]]; reflexivity. Qed.

(** An action leaves at most one audit record. *)
Lemma execute_action_at_most_one a (st : state World) :
  at_most_one_record st (fst (execute_action a st)).
Proof.
  unfold execute_action. rewrite try_ret_state.
  repeat match goal with |- context [if is_str ?x ?k then _ else _] =>
    destruct (is_str x k) end;
    unfold bind, lift;
    repeat match goal with |- context [match get_ ?p ?k ?d with _ => _ end] =>
      destruct (get_ p k d) end;
    first [ apply execute_bash_at_most_one | apply execute_python_at_most_one
          | apply read_file_at_most_one | apply write_file_at_most_one
          | (unfold io, ret; destruct (rag_query _ _ _ _)); apply at_most_one_refl; reflexivity
          | apply at_most_one_refl; reflexivity ].
Qed.

End WithEnv.
End AuditRecordFacts.

Module AuditLogFacts.
Import Json Monad Orchestrator SandboxSpec EngineSpec EngineFacts AuditFacts AuditRecordFacts.

Section WithEnv.
Context {World : Type} `{Env World}.

Lemma moves_think_and_act eng query context history :
  moves (@audit_extended World) (think_and_act eng query context history).
Proof.
  intros st. apply audit_extended_same_exec.
  pose proof (think_and_act_keeps_sandbox eng query context history st) as Hk.
  unfold sandbox in Hk. congruence.
Qed.

Lemma moves_complete query history result start iteration :
  moves (@audit_extended World) (complete_ query history result start iteration).
Proof.
  intros st. apply audit_extended_same_exec.
  pose proof (complete_keeps_sandbox query history result start iteration st) as Hk.
  unfold sandbox in Hk. congruence.
Qed.

Lemma moves_run_loop eng query start fuel : forall context history iteration,
  moves (@audit_extended World) (run_loop fuel eng query start context history iteration).
Proof.
  induction fuel as [|fuel IH]; intros context history iteration; cbn [run_loop];
    destruct (iteration <? max_iterations eng).
  - apply moves_ret.
  - unfold now. repeat moves_step.
  - unfold now.
    repeat (first [apply moves_think_and_act | apply moves_complete
                  | apply moves_execute_action | apply IH
                  | (apply moves_bind; [|intros ?])
                  | apply moves_lift | apply moves_gets | apply moves_ret
                  | match goal with
                    | |- moves _ (if ?b then _ else _) => destruct b
                    | |- moves _ (let '(_, _) := ?x in _) => destruct x
                    | |- moves _ (modify _) =>
                        intros st; apply audit_extended_same_exec; reflexivity
                    end]).
  - unfold now. repeat moves_step.
Qed.

(** X1. The audit log is append-only. Whatever action is dispatched by
    execute_action, and over a whole run, the executor keeps its workspace path and
    its safe-mode flag, the list of started processes only grows, and the audit log
    only grows at its end, by records whose result text has at most 500 characters;
    one execute_action adds at most one audit record. This holds whether the call
    returns or raises. *)
Theorem audit_log_is_append_only (eng : engine) (query : string) (a : action)
    (st : state World) :
  audit_extended st (fst (execute_action a st))
  /\ at_most_one_record st (fst (execute_action a st))
  /\ audit_extended st (fst (run eng query st)).
Proof.
  split; [apply moves_execute_action|]. split; [apply execute_action_at_most_one|].
  unfold run, now.
  assert (Hm : moves (@audit_extended World)
    (start_time <- gets (fun st => clock (world st)) ;;
     context_docs <- io (fun w => rag_query w (JStr query) (JStr "docs") (JInt 3)) ;;
     context_learnings <- io (fun w => rag_query w (JStr query) (JStr "learnings") (JInt 2)) ;;
     run_loop (Z.to_nat (max_iterations eng)) eng query start_time
       (initial_context context_docs context_learnings) [] 0)%monad).
  { repeat (first [apply moves_run_loop | moves_step]). }
  apply Hm.
Qed.

End WithEnv.
End AuditLogFacts.

Module RunFacts.
Import Json Monad Orchestrator SandboxSpec EngineSpec EngineFacts AuditFacts AuditRecordFacts.

Section WithEnv.
Context {World : Type} `{Env World}.

Lemma run_loop_accounts eng query start fuel :
  forall context history iteration (st st' : state World) r,
  run_loop fuel eng query start context history iteration st = (st', Ok (Some r)) ->
  exists steps,
    r_history r = history ++ steps
    /\ dispatched st' = dispatched st ++ map s_action steps
    /\ (length (audit_log (exec st')) <= length (audit_log (exec st)) + length steps)%nat
    /\ (if r_success r
        then r_iterations r = iteration + Z.of_nat (length steps) + 1
             /\ r_iterations r <= max_iterations eng
        else r_iterations r = iteration + Z.of_nat (length steps)
             /\ max_iterations eng <= r_iterations r
             /\ r_result r = max_iterations_message
             /\ (iteration <= max_iterations eng -> r_iterations r = max_iterations eng)).
Proof.
  induction fuel as [|fuel IH]; intros context history iteration st st' r Hrun.
  - destruct (Z.lt_ge_cases iteration (max_iterations eng)) as [Hlt|Hge].
    + cbn [run_loop] in Hrun. apply Z.ltb_lt in Hlt. rewrite Hlt in Hrun. discriminate.
    + rewrite run_loop_exhausted in Hrun by exact Hge. injection Hrun as <- <-.
      exists []. simpl. rewrite !app_nil_r. repeat split; lia.
  - destruct (Z.lt_ge_cases iteration (max_iterations eng)) as [Hlt|Hge].
    2:{ rewrite run_loop_exhausted in Hrun by exact Hge. injection Hrun as <- <-.
        exists []. simpl. rewrite !app_nil_r. repeat split; lia. }
    rewrite run_loop_unfold in Hrun by exact Hlt.
    unfold bind at 1 in Hrun.
    pose proof (think_and_act_keeps_sandbox eng query context history st) as Hk1.
    destruct (think_and_act _ _ _ _ st) as [st1 [decision|e]]; [|discriminate].
    unfold sandbox in Hk1; simpl in Hk1. injection Hk1 as Hexec1 Hdisp1.
    unfold bind at 1 in Hrun. unfold lift at 1 in Hrun.
    destruct (get_ decision "thought" _) as [thought|e]; [|discriminate].
    unfold bind at 1 in Hrun. unfold lift at 1 in Hrun.
    destruct (get_ decision "action" _) as [ad|e]; [|discriminate].
    unfold bind at 1 in Hrun. unfold lift at 1 in Hrun.
    destruct (get_ decision "confidence" _) as [cf|e]; [|discriminate].
    unfold bind at 1 in Hrun. unfold lift at 1 in Hrun.
    destruct (get_ ad "action_type" _) as [ty|e]; [|discriminate].
    unfold bind at 1 in Hrun. unfold lift at 1 in Hrun.
    destruct (get_ ad "parameters" _) as [pa|e]; [|discriminate].
    unfold bind at 1 in Hrun; unfold now at 1 in Hrun; unfold gets at 1 in Hrun.
    cbn [action_type parameters] in Hrun.
    destruct (is_str ty "complete").
    + unfold bind at 1 in Hrun. unfold lift at 1 in Hrun.
      destruct (get_ pa "result" _) as [result|e]; [|discriminate].
      unfold bind at 1 in Hrun.
      pose proof (complete_keeps_sandbox query history result start iteration st1) as Hk2.
      destruct (complete_ _ _ _ _ _ st1) as [st2 [r'|e]] eqn:Hcomplete; [|discriminate].
      unfold sandbox in Hk2; simpl in Hk2. injection Hk2 as Hexec2 Hdisp2.
      unfold ret in Hrun. injection Hrun as <- <-.
      apply complete_returns in Hcomplete. subst r'.
      exists []. simpl. rewrite !app_nil_r.
      repeat split; [congruence|rewrite Hexec2, Hexec1; lia|lia|lia].
    + unfold bind at 1 in Hrun; unfold modify at 1 in Hrun.
      unfold bind at 1 in Hrun.
      match type of Hrun with context [execute_action ?a ?s] =>
        pose proof (execute_action_at_most_one a s) as (new & Hlog & Hnew);
        pose proof (execute_action_keeps_dispatched a s) as Hkd;
        destruct (execute_action a s) as [st3 [[success observation]|e]] end;
        [|discriminate].
      simpl in Hlog, Hkd.
      apply IH in Hrun as (steps & Hhist & Hdisp & Haudit & Hcount).
      eexists (_ :: steps). rewrite <- app_assoc in Hhist. split; [exact Hhist|].
      split; [|split].
      * rewrite Hdisp, Hkd, Hdisp1. rewrite <- app_assoc. reflexivity.
      * rewrite Hlog, Hexec1 in Haudit. rewrite length_app in Haudit. simpl. lia.
      * destruct (r_success r); simpl length;
          [destruct Hcount as [Hc1 Hc2]; split; lia|].
        destruct Hcount as (Hc1 & Hc2 & Hc3 & Hc4). repeat split; try lia. exact Hc3.
Qed.

(** X2. When run returns a result, its history lists exactly the actions dispatched
    during the run, in order; the audit log grew by at most one record per history
    step; on success the iteration count is the number of steps plus one and at most
    max_iterations; on failure the result is the fixed message 'Max iterations
    reached without completing task', the iteration count equals the number of steps
    and is at least max_iterations (equal to it when max_iterations is not
    negative). *)
Theorem run_accounts_for_every_dispatch (eng : engine) (query : string)
    (st st' : state World) (r : task_result) :
  run eng query st = (st', Ok (Some r)) ->
  dispatched st' = dispatched st ++ map s_action (r_history r)
  /\ (length (audit_log (exec st'))
      <= length (audit_log (exec st)) + length (r_history r))%nat
  /\ (if r_success r
      then r_iterations r = Z.of_nat (length (r_history r)) + 1
           /\ r_iterations r <= max_iterations eng
      else r_iterations r = Z.of_nat (length (r_history r))
           /\ max_iterations eng <= r_iterations r
           /\ r_result r = max_iterations_message
           /\ (0 <= max_iterations eng -> r_iterations r = max_iterations eng)).
Proof.
  unfold run. intros Hrun.
  unfold bind at 1 in Hrun; unfold now at 1 in Hrun; unfold gets at 1 in Hrun.
  unfold bind at 1 in Hrun; unfold io at 1 in Hrun.
  destruct (rag_query (world st) _ _ _) as [w1 docs].
  unfold bind at 1 in Hrun; unfold io at 1 in Hrun. cbn [world set_world] in Hrun.
  destruct (rag_query w1 _ _ _) as [w2 learnings].
  apply run_loop_accounts in Hrun as (steps & Hhist & Hdisp & Haudit & Hcount).
  simpl in Hhist, Hdisp, Haudit. subst steps.
  split; [exact Hdisp|]. split; [exact Haudit|].
  destruct (r_success r); [destruct Hcount; split; lia|].
  destruct Hcount as (Hc1 & Hc2 & Hc3 & Hc4). repeat split; try lia. exact Hc3.
Qed.

End WithEnv.

Lemma run_accounts_for_every_dispatch_witness :
  exists st' r,
    @run unit (Demo.env Demo.frobnicates (Ok tt)) Demo.eng3 "task" Demo.st0
      = (st', Ok (Some r))
    /\ dispatched st' = dispatched Demo.st0 ++ map s_action (r_history r)
    /\ r_iterations r = 3.
Proof.
  eexists; eexists. split; [vm_compute; reflexivity|].
  match goal with |- dispatched ?s = _ ++ map s_action (r_history ?r) /\ _ =>
    pose proof (@run_accounts_for_every_dispatch unit (Demo.env Demo.frobnicates (Ok tt))
                  Demo.eng3 "task" Demo.st0 s r ltac:(vm_compute; reflexivity))
      as (Hd & _ & Hc) end.
  split; [exact Hd|]. simpl in Hc. destruct Hc as (_ & _ & _ & Hc).
  apply Hc. lia.
Defined.

End RunFacts.

Module EngineMoreFacts.
Import Json Monad Orchestrator SandboxSpec ClassifySpec EngineSpec EngineFacts.

Lemma lower_idempotent (s : string) : Py.lower (Py.lower s) = Py.lower s.
Proof.
  induction s as [|c s IH]; simpl; [reflexivity|]. rewrite IH. f_equal.
  unfold Py.lower_ascii.
  destruct ((65 <=? nat_of_ascii c)%nat && (nat_of_ascii c <=? 90)%nat) eqn:Hupper.
  - apply andb_true_iff in Hupper as [Hlo Hhi].
    apply Nat.leb_le in Hlo, Hhi.
    rewrite nat_ascii_embedding by lia.
    replace ((65 <=? nat_of_ascii c + 32)%nat && (nat_of_ascii c + 32 <=? 90)%nat)
      with false; [reflexivity|].
    symmetry. apply andb_false_iff. right. apply Nat.leb_gt. lia.
  - rewrite Hupper. reflexivity.
Qed.

Lemma any_in_intro (ks : list string) (k pre post s : string) :
  In k ks -> s = pre +:+ k +:+ post -> Py.any_in ks s = true.
Proof.
  intros Hin Hs. unfold Py.any_in. apply existsb_exists. exists k. split; [exact Hin|].
  apply PyFacts.contains_spec. exists pre, post. exact Hs.
Qed.

Lemma any_in_mentions (keywords : list string) (query : string) :
  Py.any_in keywords (Py.lower query) = true <-> mentions keywords query.
Proof.
  unfold Py.any_in, mentions. rewrite existsb_exists. split.
  - intros (k & Hin & Hk). apply PyFacts.contains_spec in Hk as (pre & post & Heq).
    exists k, pre, post. split; assumption.
  - intros (k & pre & post & Hin & Heq). exists k. split; [exact Hin|].
    apply PyFacts.contains_spec. exists pre, post. exact Heq.
Qed.

Lemma classify_by_first (query : string) :
  forall before name keywords after,
    Forall (fun c => ~ mentions (snd c) query) before ->
    mentions keywords query ->
    classify_by (before ++ (name, keywords) :: after) query = name.
Proof.
  induction before as [|[n ks] before IH]; intros name keywords after Hnone Hsome.
  - simpl. apply any_in_mentions in Hsome. rewrite Hsome. reflexivity.
  - apply Forall_cons in Hnone as [Hn Hnone]. simpl in Hn |- *.
    destruct (Py.any_in ks (Py.lower query)) eqn:Hks.
    + apply any_in_mentions in Hks. contradiction.
    + apply IH; assumption.
Qed.

Lemma classify_by_none (query : string) :
  forall categories,
    Forall (fun c => ~ mentions (snd c) query) categories ->
    classify_by categories query = "general_task".
Proof.
  induction categories as [|[n ks] categories IH]; intros Hnone; [reflexivity|].
  apply Forall_cons in Hnone as [Hn Hnone]. simpl in Hn |- *.
  destruct (Py.any_in ks (Py.lower query)) eqn:Hks.
  - apply any_in_mentions in Hks. contradiction.
  - apply IH. exact Hnone.
Qed.

(** X3. _classify_task tests its five categories in a fixed order
    (file_operation, information_retrieval, code_generation, system_setup,
    analysis, each with its keywords) and answers the first one with a keyword
    occurring in the lower-cased query: a category is the answer as soon as one of
    its keywords occurs and no keyword of a category before it does; when no
    keyword of any category occurs the answer is general_task. The answer is
    always one of these six names and does not depend on letter case. So 'write some code' is a file_operation ('write' comes
    before 'code'), where tests/test_orchestrator.py line 374 expects
    code_generation. *)
Theorem classify_task_first_match_wins (query : string) :
  (forall before name keywords after,
      task_categories = before ++ (name, keywords) :: after ->
      Forall (fun c => ~ mentions (snd c) query) before ->
      mentions keywords query ->
      _classify_task query = name)
  /\ (Forall (fun c => ~ mentions (snd c) query) task_categories ->
      _classify_task query = "general_task")
  /\ In (_classify_task query) ("general_task" :: map fst task_categories)
  /\ _classify_task (Py.lower query) = _classify_task query
  /\ _classify_task "write some code" = "file_operation".
Proof.
  assert (Hby : forall q, _classify_task q = classify_by task_categories q)
    by reflexivity.
  split; [|split; [|split; [|split]]].
  - intros before name keywords after Hcats Hnone Hsome.
    rewrite Hby, Hcats. apply classify_by_first; assumption.
  - intros Hnone. rewrite Hby. apply classify_by_none. exact Hnone.
  - unfold _classify_task.
    repeat match goal with |- context [if ?b then _ else _] => destruct b end;
      simpl; tauto.
  - unfold _classify_task. rewrite lower_idempotent. reflexivity.
  - reflexivity.
Qed.

Section WithEnv.
Context {World : Type} `{Env World}.

(** X4. execute_action never raises: for every action and state it returns a pair
    (success, observation). For an action type that is none of bash_execute,
    python_execute, file_read, file_write, rag_query, install_dependency, complete,
    it returns (False, 'Unknown action type: <type>') and leaves the state (world,
    executor, audit log) unchanged. *)
Theorem execute_action_never_raises_and_rejects_unknown (a : action) (st : state World) :
  (exists st' success observation,
      execute_action a st = (st', Ok (success, observation)))
  /\ (forallb (fun k => negb (is_str (action_type a) k)) known_action_types = true ->
      execute_action a st
      = (st, Ok (false, "Unknown action type: " +:+ py_str (action_type a)))).
Proof.
  split; [apply execute_action_returns|].
  unfold known_action_types. cbn [forallb]. intros Hunknown.
  repeat (apply andb_true_iff in Hunknown as [?%negb_true_iff Hunknown]).
  unfold execute_action, try_.
  repeat match goal with Hk : is_str _ _ = false |- _ => rewrite Hk; clear Hk end.
  reflexivity.
Qed.

(** X5. A provider failure ends the run as a success. When the call to the
    completion provider raises an exception that is not a JSONDecodeError,
    think_and_act answers with a 'complete' action whose result is 'Error'; the loop
    then stops at that iteration and, if reflection raises nothing, returns
    success=True with result 'Error', iterations = iteration + 1 and the history
    unchanged; no action is dispatched and the executor is untouched. *)
Theorem provider_failure_ends_run_as_success
    (eng : engine) (query : string) (start : Q) (context : string) (history : list step)
    (iteration : Z) (fuel : nat) (st st2 : state World) (w' : World) (e : exn)
    (r : task_result) :
  iteration < max_iterations eng ->
  llm_create (world st) (request_of eng query context history (world st)) = (w', Raise e) ->
  String.eqb (exn_class e) "JSONDecodeError" = false ->
  complete_ query history (JStr "Error") start iteration (set_world w' st) = (st2, Ok r) ->
  think_and_act eng query context history st = (set_world w' st, Ok (llm_error_decision e))
  /\ run_loop (S fuel) eng query start context history iteration st = (st2, Ok (Some r))
  /\ r = TaskResult true (JStr "Error") (iteration + 1) (clock w' - start)%Q history
  /\ dispatched st2 = dispatched st
  /\ exec st2 = exec st.
Proof.
  intros Hlt Hllm Hclass Hcomplete.
  assert (Hthink : think_and_act eng query context history st
                   = (set_world w' st, Ok (llm_error_decision e))).
  { unfold think_and_act, io_res. rewrite Hllm, Hclass. reflexivity. }
  pose proof (complete_returns _ _ _ _ _ _ _ _ Hcomplete) as Hr.
  pose proof (complete_keeps_sandbox query history (JStr "Error") start
                iteration (set_world w' st)) as Hkeep.
  rewrite Hcomplete in Hkeep. unfold sandbox in Hkeep. simpl in Hkeep.
  split; [exact Hthink|]. split; [|split; [exact Hr|split; congruence]].
  rewrite run_loop_unfold by exact Hlt.
  unfold bind at 1. rewrite Hthink.
  unfold bind, lift, get_, now, gets. simpl. rewrite Hcomplete. reflexivity.
Qed.

Lemma last5_last5 (history : list step) : last5 (last5 history) = last5 history.
Proof.
  unfold last5. rewrite length_drop.
  replace (length history - (length history - 5) - 5)%nat with 0%nat by lia.
  reflexivity.
Qed.

(** X6. The request sent to the provider depends on the history only through its
    last five steps: the request built from a history equals the request built from
    history[-5:], which has at most five steps and is a suffix of the history. *)
Theorem prompt_shows_only_last_five_steps (eng : engine) (query context : string)
    (history : list step) (w : World) :
  request_of eng query context history w = request_of eng query context (last5 history) w
  /\ (length (last5 history) <= 5)%nat
  /\ exists older, history = older ++ last5 history.
Proof.
  split; [|split].
  - unfold request_of, user_message. rewrite last5_last5. reflexivity.
  - unfold last5. rewrite length_drop. lia.
  - exists (take (length history - 5) history). unfold last5.
    symmetry. apply take_drop.
Qed.

Lemma filter_partition_length {A} (f : A -> bool) (l : list A) :
  (length (List.filter f l) + length (List.filter (fun x => negb (f x)) l))%nat = length l.
Proof.
  induction l as [|x l IH]; simpl; [reflexivity|].
  destruct (f x); simpl; lia.
Qed.

(** X7. When reflect_on_task returns a learning, its task type is
    _classify_task(query); its successful strategy and its failure modes split the
    history (their lengths add up to the length of the history); exactly one success
    pattern, made of that strategy, the confidence and the timestamp, is appended to
    the patterns of that task type, and the success patterns of every other task
    type are unchanged. *)
Theorem reflection_appends_one_success_pattern
    (query : string) (history : list step) (result : json) (execution_time : Q)
    (st st' : state World) (l : learning) :
  reflect_on_task query history result execution_time st = (st', Ok l) ->
  task_type l = _classify_task query
  /\ (length (successful_strategy l) + length (failure_modes l))%nat = length history
  /\ success_patterns (pats st') !! task_type l
     = Some (default [] (success_patterns (pats st) !! task_type l)
             ++ [SuccessPattern (successful_strategy l) (confidence_score l)
                                (l_timestamp l)])
  /\ (forall t, t <> task_type l ->
        success_patterns (pats st') !! t = success_patterns (pats st) !! t).
Proof.
  unfold reflect_on_task.
  cbv beta iota zeta delta [bind lift now gets ret store_learning _update_patterns io io_res
                            modify].
  destruct (_extract_prerequisites history) as [prereqs|e]; [|discriminate].
  destruct (fs_append_learning _ _) as [w1 [u1|e1]]; [|discriminate].
  cbn [world set_world set_pats pats exec dispatched].
  destruct (rag_add_learning _ _) as [w2 b2].
  cbn [world set_world set_pats pats exec dispatched].
  destruct (fs_save_patterns _ _) as [w3 [u3|e3]]; [|discriminate].
  intros [= <- <-]. cbn [task_type successful_strategy failure_modes confidence_score
                         l_timestamp pats set_world set_pats success_patterns].
  split; [reflexivity|]. split.
  - rewrite !length_map. apply filter_partition_length.
  - split.
    + rewrite lookup_insert_eq. f_equal. f_equal.
      destruct (success_patterns (pats st) !! _classify_task query) eqn:Hl.
      * rewrite Hl. reflexivity.
      * rewrite lookup_insert_eq. reflexivity.
    + intros t Hneq. rewrite lookup_insert_ne by congruence.
      destruct (success_patterns (pats st) !! _classify_task query); [reflexivity|].
      rewrite lookup_insert_ne by congruence. reflexivity.
Qed.

(** X8. In safe mode, every command whose lower-cased text contains an entry of the
    denylist ('rm -rf /', 'dd if=', 'mkfs', ':(){:|:&};:', 'fork bomb') anywhere is
    rejected with (False, 'Command blocked by safe mode') and the state untouched
    (no process, no audit record), by execute_bash and through execute_action with a
    bash_execute action. *)
Theorem safe_mode_blocks_denylisted_commands
    (c d pre post : string) (t : Q) (st : state World) :
  safe_mode (exec st) = true ->
  In d dangerous ->
  Py.lower c = pre +:+ d +:+ post ->
  execute_bash (JStr c) st = (st, Ok (false, "Command blocked by safe mode"))
  /\ execute_action (Action (JStr "bash_execute") (JObj [("command", JStr c)]) t) st
     = (st, Ok (false, "Command blocked by safe mode")).
Proof.
  intros Hsafe Hin Hlow.
  assert (Hblocked : execute_bash (JStr c) st
                     = (st, Ok (false, "Command blocked by safe mode"))).
  { apply SandboxFacts.execute_bash_blocked; [exact Hsafe|].
    apply (any_in_intro _ d pre post _ Hin Hlow). }
  split; [exact Hblocked|].
  cbv beta iota zeta delta [execute_action try_ is_str action_type parameters String.eqb
                            Ascii.eqb Bool.eqb bind lift get_ assoc default].
  unfold id. rewrite Hblocked. reflexivity.
Qed.

End WithEnv.

Lemma provider_failure_ends_run_as_success_witness :
  exists st2 r,
    @run_loop unit DemoMore.provider_down 1 Demo.eng3 "task" 0%Q "context" [] 0 Demo.st0
      = (st2, Ok (Some r))
    /\ r = TaskResult true (JStr "Error") 1 0%Q [].
Proof.
  eexists; eexists.
  pose proof (@provider_failure_ends_run_as_success unit DemoMore.provider_down
                Demo.eng3 "task" 0%Q "context" [] 0 0%nat Demo.st0 _ tt _ _
                ltac:(simpl; lia) eq_refl eq_refl ltac:(vm_compute; reflexivity))
    as (_ & Hrun & Hr & _).
  split; [exact Hrun|exact Hr].
Defined.

Lemma reflection_appends_one_success_pattern_witness :
  exists st' l,
    @reflect_on_task unit (Demo.env Demo.completes (Ok tt)) "read the notes"
      [Demo.ok_step; DemoMore.failed_step] (JStr "done") 1%Q Demo.st0 = (st', Ok l)
    /\ task_type l = "file_operation"
    /\ (length (successful_strategy l) + length (failure_modes l))%nat = 2%nat
    /\ exists p, success_patterns (pats st') !! "file_operation" = Some [p].
Proof.
  eexists; eexists. split; [vm_compute; reflexivity|].
  match goal with |- task_type ?l = _ /\ _ =>
    pose proof (@reflection_appends_one_success_pattern unit
                  (Demo.env Demo.completes (Ok tt)) "read the notes"
                  [Demo.ok_step; DemoMore.failed_step] (JStr "done") 1%Q Demo.st0 _ l
                  ltac:(vm_compute; reflexivity)) as (Ht & Hn & Hp & _) end.
  split; [exact Ht|]. split; [exact Hn|]. eexists. exact Hp.
Defined.

Lemma safe_mode_blocks_denylisted_commands_witness :
  @execute_bash unit (Demo.env None (Ok tt)) (JStr "sudo RM -RF / --no-preserve-root")
    DemoMore.safe_st0
  = (DemoMore.safe_st0, Ok (false, "Command blocked by safe mode")).
Proof.
  refine (proj1 (@safe_mode_blocks_denylisted_commands unit (Demo.env None (Ok tt))
                   "sudo RM -RF / --no-preserve-root" "rm -rf /" "sudo "
                   " --no-preserve-root" 0%Q DemoMore.safe_st0 _ _ _)).
  - reflexivity.
  - simpl. tauto.
  - reflexivity.
Defined.

End EngineMoreFacts.

Module FenceFacts.
Import Json Monad Orchestrator.

Lemma startswith_json_fence (s : string) :
  Py.startswith "```json" s = true -> Py.startswith "```" s = true.
Proof.
  destruct s as [|a [|b [|c s]]]; cbn [Py.startswith];
    repeat match goal with |- context [Ascii.eqb ?x ?y] => destruct (Ascii.eqb x y) end;
    intros; try discriminate; reflexivity.
Qed.

Lemma json_fence_has_fence (s : string) :
  Py.contains "```" s = false -> Py.contains "```json" s = false.
Proof.
  induction s as [|c s IH]; [reflexivity|].
  intros Hno. cbn [Py.contains] in Hno |- *.
  destruct (Py.startswith "```" (String c s)) eqn:Hs; [discriminate|].
  destruct (Py.startswith "```json" (String c s)) eqn:Hj.
  - apply startswith_json_fence in Hj. congruence.
  - apply IH. exact Hno.
Qed.

Lemma append_cons (c : ascii) (s t : string) : String c s +:+ t = String c (s +:+ t).
Proof. reflexivity. Qed.

Lemma append_nil (t : string) : "" +:+ t = t.
Proof. reflexivity. Qed.

Lemma startswith_fence_before_nl (s t : string) :
  Py.startswith "```" (s +:+ Py.nl +:+ t) = Py.startswith "```" s.
Proof.
  unfold Py.nl.
  destruct s as [|a [|b [|c s]]]; rewrite ?append_cons, ?append_nil, ?append_cons;
    cbn [Py.startswith];
    repeat match goal with
           | |- context [Ascii.eqb ?x ?y] =>
               first [ is_var y; destruct (Ascii.eqb x y)
                     | change (Ascii.eqb x y) with false ]
           end;
    reflexivity.
Qed.

Lemma no_fence_before_nl (s t : string) :
  Py.contains "```" s = false ->
  Py.startswith "```" (s +:+ Py.nl +:+ t) = false.
Proof.
  intros Hno. rewrite startswith_fence_before_nl.
  destruct s; cbn [Py.contains] in Hno; [reflexivity|].
  destruct (Py.startswith "```" (String a s)); [discriminate|reflexivity].
Qed.

Lemma contains_tail (sub : string) (c : ascii) (s : string) :
  Py.contains sub (String c s) = false -> Py.contains sub s = false.
Proof.
  cbn [Py.contains]. destruct (Py.startswith sub (String c s)); [discriminate|tauto].
Qed.

(** The closing "```" is found right after a text that has none. *)
Lemma split_once_closing_fence (x : string) :
  Py.contains "```" x = false ->
  Py.split_once "```" (x +:+ Py.nl +:+ "```") = Some (x +:+ Py.nl, "").
Proof.
  induction x as [|c x IH]; intros Hno; [reflexivity|].
  pose proof (no_fence_before_nl (String c x) "```" Hno) as Hs.
  change (String c x +:+ Py.nl +:+ "```") with (String c (x +:+ Py.nl +:+ "```")) in *.
  cbn [Py.split_once]. rewrite Hs, (IH (contains_tail _ _ _ Hno)). reflexivity.
Qed.

Lemma split_once_json_fence_absent (x : string) :
  Py.contains "```" x = false ->
  Py.split_once "```json" (x +:+ Py.nl +:+ "```") = None.
Proof.
  induction x as [|c x IH]; intros Hno; [reflexivity|].
  pose proof (no_fence_before_nl (String c x) "```" Hno) as Hs.
  change (String c x +:+ Py.nl +:+ "```") with (String c (x +:+ Py.nl +:+ "```")) in *.
  cbn [Py.split_once].
  destruct (Py.startswith "```json" (String c (x +:+ Py.nl +:+ "```"))) eqn:Hj.
  - apply startswith_json_fence in Hj. congruence.
  - rewrite (IH (contains_tail _ _ _ Hno)). reflexivity.
Qed.

(** The opening "```" is found after a preamble without a backquote. *)
Lemma split_once_opening_fence (pre rest : string) :
  Py.contains "`" pre = false ->
  Py.split_once "```json" (pre +:+ "```json" +:+ rest) = Some (pre, rest).
Proof.
  induction pre as [|c pre IH]; intros Hno; [reflexivity|].
  change (String c pre +:+ "```json" +:+ rest)
    with (String c (pre +:+ "```json" +:+ rest)).
  cbn [Py.split_once].
  assert (Hc : Py.startswith "```json" (String c (pre +:+ "```json" +:+ rest)) = false).
  { cbn [Py.contains Py.startswith] in Hno. cbn [Py.startswith].
    destruct (Ascii.eqb "`" c); [discriminate|reflexivity]. }
  rewrite Hc, (IH (contains_tail _ _ _ Hno)). reflexivity.
Qed.

Lemma lstrip_length (s : string) : (String.length (Py.lstrip s) <= String.length s)%nat.
Proof.
  induction s as [|c s IH]; simpl; [lia|]. destruct (Py.isspace c); simpl; lia.
Qed.

Lemma rstrip_before_nl (s : string) : Py.rstrip (s +:+ Py.nl) = Py.rstrip s.
Proof.
  induction s as [|c s IH]; [reflexivity|].
  change (String c s +:+ Py.nl) with (String c (s +:+ Py.nl)).
  cbn [Py.rstrip]. rewrite IH. reflexivity.
Qed.

Lemma strip_between_newlines (body : string) :
  Py.lstrip body = body -> Py.rstrip body = body ->
  Py.strip (Py.nl +:+ body +:+ Py.nl) = body.
Proof.
  intros Hl Hr. unfold Py.strip.
  change (Py.lstrip (Py.nl +:+ body +:+ Py.nl)) with (Py.lstrip (body +:+ Py.nl)).
  destruct body as [|c body]; [reflexivity|].
  assert (Hc : Py.isspace c = false).
  { destruct (Py.isspace c) eqn:Hsp; [|reflexivity].
    cbn [Py.lstrip] in Hl. rewrite Hsp in Hl.
    pose proof (lstrip_length body) as Hlen. rewrite Hl in Hlen. simpl in Hlen. lia. }
  change (String c body +:+ Py.nl) with (String c (body +:+ Py.nl)).
  cbn [Py.lstrip]. rewrite Hc.
  change (String c (body +:+ Py.nl)) with (String c body +:+ Py.nl).
  rewrite rstrip_before_nl. exact Hr.
Qed.

(** X9. The fence removal of think_and_act recovers a fenced JSON body: for a body
    without ``` and without leading or trailing whitespace, and a preamble without a
    backquote, the reply preamble + '```json\n' + body + '\n```' is reduced to body;
    a body alone (no fence) is passed on unchanged. *)
Theorem unfence_extracts_fenced_json (pre body : string) :
  Py.contains "`" pre = false ->
  Py.contains "```" body = false ->
  Py.lstrip body = body ->
  Py.rstrip body = body ->
  unfence (pre +:+ "```json" +:+ Py.nl +:+ body +:+ Py.nl +:+ "```") = body
  /\ unfence body = body.
Proof.
  intros Hpre Hbody Hl Hr. split.
  - unfold unfence.
    assert (Hin : Py.contains "```json"
                    (pre +:+ "```json" +:+ Py.nl +:+ body +:+ Py.nl +:+ "```") = true).
    { apply PyFacts.contains_spec. eexists pre, _. reflexivity. }
    rewrite Hin. unfold Py.split1.
    rewrite (split_once_opening_fence pre _ Hpre).
    assert (Hx : Py.contains "```" (Py.nl +:+ body) = false).
    { change (Py.contains "```" (String (ascii_of_nat 10) body) = false).
      cbn [Py.contains]. 
      replace (Py.startswith "```" (String (ascii_of_nat 10) body)) with false
        by reflexivity.
      exact Hbody. }
    change (Py.nl +:+ body +:+ Py.nl +:+ "```")
      with ((Py.nl +:+ body) +:+ Py.nl +:+ "```").
    unfold Py.split0 at 2. rewrite (split_once_json_fence_absent _ Hx).
    unfold Py.split0. rewrite (split_once_closing_fence _ Hx).
    change ((Py.nl +:+ body) +:+ Py.nl) with (Py.nl +:+ body +:+ Py.nl).
    apply strip_between_newlines; assumption.
  - unfold unfence. rewrite (json_fence_has_fence _ Hbody), Hbody. reflexivity.
Qed.

Lemma unfence_extracts_fenced_json_witness :
  unfence ("Here is the next step." +:+ Py.nl +:+ "```json" +:+ Py.nl
           +:+ "{}" +:+ Py.nl +:+ "```") = "{}".
Proof.
  exact (proj1 (unfence_extracts_fenced_json ("Here is the next step." +:+ Py.nl) "{}"
                  eq_refl eq_refl eq_refl eq_refl)).
Defined.

End FenceFacts.

Module ExecutorMoreFacts.
Import Json Monad Orchestrator SandboxSpec EngineSpec EngineFacts.

Section WithEnv.
Context {World : Type} `{Env World}.

(** X10. execute_python applies no safe-mode check. When the code can be encoded
    (code.encode() returns, as for every str without a lone surrogate): whenever
    the temporary file can be written, a python3 process is started on it,
    whatever the code and the mode; the call ends with the clean-up of the
    temporary file temp_<first 8 hex digits of sha256(code)>.py, adds exactly one
    audit record, and raises only an exception that the clean-up raised. When
    code.encode() raises, the exception leaves execute_python before its try
    block: nothing is written, run, cleaned up or audited and the state is
    unchanged; execute_action catches it and answers (False, <message>). *)
Theorem python_runs_unchecked_and_is_cleaned_up (c : string) (t : Q) (st : state World) :
  let st' := fst (execute_python (JStr c) st) in
  match sha256_hex c with
  | Raise e =>
      execute_python (JStr c) st = (st, Raise e)
      /\ execute_action (Action (JStr "python_execute") (JObj [("code", JStr c)]) t) st
         = (st, Ok (false, exn_msg e))
  | Ok digest =>
      let file := path_join (workspace_path (exec st))
                            ("temp_" +:+ Py.slice_to digest 8 +:+ ".py") in
      (exists w, world st' = fst (fs_cleanup w file))
      /\ (forall w1, fs_write_temp (world st) file c = (w1, Ok tt) ->
            proc_calls (exec st')
            = proc_calls (exec st) ++ [JArr [JStr "python3"; JStr file]])
      /\ length (audit_log (exec st')) = S (length (audit_log (exec st)))
      /\ (forall e, snd (execute_python (JStr c) st) = Raise e ->
            exists w, snd (fs_cleanup w file) = Raise e)
  end.
Proof.
  intros st'. subst st'.
  destruct (sha256_hex c) as [digest|e0] eqn:Hhash.
  2:{ assert (Hraise : execute_python (JStr c) st = (st, Raise e0)).
      { unfold execute_python, bind, lift. rewrite Hhash. reflexivity. }
      split; [exact Hraise|].
      cbv beta iota zeta delta [execute_action try_ is_str action_type parameters String.eqb
                                Ascii.eqb Bool.eqb bind lift get_ assoc default].
      unfold id. rewrite Hraise. reflexivity. }
  intros file.
  cbv beta iota zeta delta [execute_python finally_ try_ bind gets lift ret raise
                            record_proc_call modify io_res audit now].
  rewrite Hhash. fold file.
  destruct (fs_write_temp (world st) file c) as [w1 [[]|e1]] eqn:Hwrite;
    cbn [world exec set_world set_exec workspace_path safe_mode audit_log proc_calls
         pats dispatched fst snd].
  - destruct (proc_python w1 file) as [w2 [[[rc out] err]|e2]] eqn:Hrun;
      cbn [world exec set_world set_exec workspace_path safe_mode audit_log proc_calls
           pats dispatched fst snd];
      destruct (fs_cleanup w2 file) as [w3 [[]|e3]] eqn:Hclean;
      cbn [world exec set_world set_exec workspace_path safe_mode audit_log proc_calls
           pats dispatched fst snd];
      (split; [exists w2; rewrite Hclean; reflexivity|]);
      (split; [intros w1' _; reflexivity|]);
      (split; [rewrite length_app; simpl; lia|]);
      intros e He; try discriminate;
      exists w2; rewrite Hclean; cbn [snd]; injection He as <-; reflexivity.
  - destruct (fs_cleanup w1 file) as [w3 [[]|e3]] eqn:Hclean;
      cbn [world exec set_world set_exec workspace_path safe_mode audit_log proc_calls
           pats dispatched fst snd];
      (split; [exists w1; rewrite Hclean; reflexivity|]);
      (split; [intros w1' [=]|]);
      (split; [rewrite length_app; simpl; lia|]);
      intros e He; try discriminate;
      exists w1; rewrite Hclean; cbn [snd]; injection He as <-; reflexivity.
Qed.

Lemma write_file_refused (filepath content : json) (st : state World) :
  fs_validate_path (world st) (workspace_path (exec st)) filepath = false ->
  write_file filepath content st = (st, Ok (false, "Path outside workspace")).
Proof.
  intros Hinvalid. unfold write_file, validate_path, bind, gets. rewrite Hinvalid.
  reflexivity.
Qed.

(** X11. A path that validate_path rejects is never written or read: write_file, and
    execute_action with a file_write or a file_read action, return (False, 'Path
    outside workspace') and leave the whole state unchanged (world, audit log,
    process list). *)
Theorem file_actions_outside_workspace_change_nothing
    (filepath content : json) (t : Q) (st : state World) :
  fs_validate_path (world st) (workspace_path (exec st)) filepath = false ->
  write_file filepath content st = (st, Ok (false, "Path outside workspace"))
  /\ execute_action
       (Action (JStr "file_write")
               (JObj [("filepath", filepath); ("content", content)]) t) st
     = (st, Ok (false, "Path outside workspace"))
  /\ execute_action (Action (JStr "file_read") (JObj [("filepath", filepath)]) t) st
     = (st, Ok (false, "Path outside workspace")).
Proof.
  intros Hinvalid.
  pose proof (write_file_refused filepath content st Hinvalid) as Hwrite.
  pose proof (SandboxFacts.read_file_refused filepath st Hinvalid) as Hread.
  split; [exact Hwrite|]. split.
  - cbv beta iota zeta delta [execute_action try_ is_str action_type parameters String.eqb
                              Ascii.eqb Bool.eqb bind lift get_ assoc default].
    unfold id. rewrite Hwrite. reflexivity.
  - cbv beta iota zeta delta [execute_action try_ is_str action_type parameters String.eqb
                              Ascii.eqb Bool.eqb bind lift get_ assoc default].
    unfold id. rewrite Hread. reflexivity.
Qed.

Lemma count_failures_lookup (failures : list string) :
  forall (fp : gmap string Z) (f : string),
    count_failures fp failures !! f
    = if (0 <? Z.of_nat (length (List.filter (String.eqb f) failures)))
      then Some (default 0 (fp !! f)
                 + Z.of_nat (length (List.filter (String.eqb f) failures)))
      else fp !! f.
Proof.
  unfold count_failures.
  induction failures as [|x failures IH]; intros fp f; [reflexivity|].
  cbn [fold_left List.filter]. rewrite IH.
  set (fp1 := match fp !! x with None => <[x := 0]> fp | Some _ => fp end).
  assert (Hx : default 0 (fp1 !! x) = default 0 (fp !! x)).
  { subst fp1. destruct (fp !! x) eqn:Hl; [rewrite Hl; reflexivity|].
    rewrite lookup_insert_eq. reflexivity. }
  destruct (String.eqb f x) eqn:Hfx.
  - apply String.eqb_eq in Hfx. subst x.
    rewrite lookup_insert_eq. cbn [length default].
    destruct (0 <? Z.of_nat (length (List.filter (String.eqb f) failures))) eqn:Hpos.
    + rewrite Hx.
      replace (0 <? Z.of_nat (S (length (List.filter (String.eqb f) failures))))
        with true by (symmetry; apply Z.ltb_lt; lia).
      unfold id. f_equal. lia.
    + apply Z.ltb_ge in Hpos.
      replace (0 <? Z.of_nat (S (length (List.filter (String.eqb f) failures))))
        with true by (symmetry; apply Z.ltb_lt; lia).
      rewrite Hx. f_equal. lia.
  - apply String.eqb_neq in Hfx.
    assert (Hf : <[x := default 0 (fp1 !! x) + 1]> fp1 !! f = fp !! f).
    { rewrite lookup_insert_ne by congruence. subst fp1.
      destruct (fp !! x); [reflexivity|]. rewrite lookup_insert_ne by congruence.
      reflexivity. }
    rewrite Hf. reflexivity.
Qed.

(** X12. When reflect_on_task returns, the failure counter of every observation text
    went up by the number of failed steps of the history with that observation, and
    the counters of texts that no failed step produced are unchanged. *)
Theorem reflection_counts_failed_observations
    (query : string) (history : list step) (result : json) (execution_time : Q)
    (st st' : state World) (l : learning) (f : string) :
  reflect_on_task query history result execution_time st = (st', Ok l) ->
  let n := Z.of_nat (length (List.filter
                               (fun h => negb (s_success h) && String.eqb f (observation h))
                               history)) in
  failure_patterns (pats st') !! f
  = if 0 <? n then Some (default 0 (failure_patterns (pats st) !! f) + n)
    else failure_patterns (pats st) !! f.
Proof.
  unfold reflect_on_task.
  cbv beta iota zeta delta [bind lift now gets ret store_learning _update_patterns io io_res
                            modify].
  destruct (_extract_prerequisites history) as [prereqs|e]; [|discriminate].
  destruct (fs_append_learning _ _) as [w1 [u1|e1]]; [|discriminate].
  cbn [world set_world set_pats pats exec dispatched].
  destruct (rag_add_learning _ _) as [w2 b2].
  cbn [world set_world set_pats pats exec dispatched].
  destruct (fs_save_patterns _ _) as [w3 [u3|e3]]; [|discriminate].
  intros [= <- <-]. cbn [failure_modes pats set_world set_pats failure_patterns].
  rewrite count_failures_lookup.
  assert (Hsame : forall hs,
    length (List.filter (String.eqb f)
              (map observation (List.filter (fun h => negb (s_success h)) hs)))
    = length (List.filter (fun h => negb (s_success h) && String.eqb f (observation h)) hs)).
  { induction hs as [|h hs IH]; [reflexivity|]. cbn [List.filter].
    destruct (s_success h); cbn [negb andb map List.filter]; [exact IH|].
    destruct (String.eqb f (observation h)); cbn [length]; congruence. }
  rewrite Hsame. reflexivity.
Qed.

End WithEnv.

(** Code that cannot be encoded: nothing is run or audited, and
    [execute_action] reports the failure. *)
Example python_code_that_cannot_be_encoded :
  @execute_python unit DemoMore.provider_down (JStr "print(1)") Demo.st0
  = (Demo.st0, Raise (Exn "UnicodeEncodeError" "surrogates not allowed"))
  /\ @execute_action unit DemoMore.provider_down
       (Action (JStr "python_execute") (JObj [("code", JStr "print(1)")]) 0) Demo.st0
     = (Demo.st0, Ok (false, "surrogates not allowed")).
Proof. split; vm_compute; reflexivity. Qed.

Lemma file_actions_outside_workspace_change_nothing_witness :
  @write_file unit DemoMore.provider_down (JStr "/etc/passwd") (JStr "x") Demo.st0
  = (Demo.st0, Ok (false, "Path outside workspace")).
Proof.
  exact (proj1 (@file_actions_outside_workspace_change_nothing unit DemoMore.provider_down
                  (JStr "/etc/passwd") (JStr "x") 0%Q Demo.st0 eq_refl)).
Defined.

Lemma reflection_counts_failed_observations_witness :
  exists st' l,
    @reflect_on_task unit (Demo.env Demo.completes (Ok tt)) "read the notes"
      [Demo.ok_step; DemoMore.failed_step; DemoMore.failed_step] (JStr "done") 1%Q Demo.st0
    = (st', Ok l)
    /\ failure_patterns (pats st') !! "File not found" = Some 2.
Proof.
  eexists; eexists. split; [vm_compute; reflexivity|].
  exact (@reflection_counts_failed_observations unit (Demo.env Demo.completes (Ok tt))
           "read the notes" [Demo.ok_step; DemoMore.failed_step; DemoMore.failed_step]
           (JStr "done") 1%Q Demo.st0 _ _ "File not found" ltac:(vm_compute; reflexivity)).
Defined.

End ExecutorMoreFacts.

Module ActionExecFacts.
Import Json Monad ActionExec.

Section WithEnv.
Context {World : Type} `{Env World}.
Variable cfg : config.

(** X13. When ActionExecutor._bash_execute returns: it started at most one
    subprocess, with exactly the command of the parameters; success=True implies
    return code 0, one subprocess started and code execution enabled; with code
    execution disabled nothing is started; in safe mode a command whose lower-cased
    text contains 'rm -rf', 'dd if=', 'mkfs' or '> /dev/' starts nothing; and the
    result carries action_type 'bash_execute' exactly when a subprocess was started. *)
Theorem bash_success_means_exit_code_zero
    (params : dict) (st st' : state World) (o : observation) :
  _bash_execute cfg params st = (st', Ok o) ->
  let command := default (JStr "") (assoc "command" params) in
  (spawned st' = spawned st \/ spawned st' = spawned st ++ [command])
  /\ (success o = true ->
      return_code o = Some 0 /\ spawned st' = spawned st ++ [command]
      /\ code_execution_enabled cfg = true)
  /\ (code_execution_enabled cfg = false -> st' = st /\ success o = false)
  /\ (forall c d pre post,
        safe_mode cfg = true -> command = JStr c -> In d dangerous ->
        Py.lower c = pre +:+ d +:+ post ->
        st' = st /\ success o = false)
  /\ (action_type o = Some "bash_execute" <-> spawned st' = spawned st ++ [command]).
Proof.
  intros Hrun command. revert Hrun. unfold _bash_execute. fold command.
  destruct (code_execution_enabled cfg) eqn:Hen; cbn [negb].
  2:{ unfold ret. intros [= <- <-]. cbn [success action_type].
      split; [left; reflexivity|]. split; [discriminate|]. split; [auto|].
      split; [auto|]. split; [discriminate|].
      intros Heq. apply (f_equal (@length json)) in Heq. rewrite length_app in Heq.
      simpl in Heq. lia. }
  unfold bind at 1.
  destruct (safe_mode cfg) eqn:Hsafe.
  - unfold bind at 1, lift, lower_.
    destruct command as [| | | |c| |] eqn:Hc; try discriminate.
    unfold ret at 1.
    destruct (Py.any_in dangerous (Py.lower c)) eqn:Hd.
    + unfold ret. intros [= <- <-]. cbn [success action_type].
      split; [left; reflexivity|]. split; [discriminate|]. split; [discriminate|].
      split; [auto|]. split; [discriminate|].
      intros Heq. apply (f_equal (@length json)) in Heq. rewrite length_app in Heq.
      simpl in Heq. lia.
    + unfold bind, run_shell.
      destruct (subprocess_run (world st) (JStr c) (timeout cfg)) as [w [rc out err| |e]];
        unfold ret; intros [= <- <-]; cbn [success action_type return_code spawned];
        (split; [right; reflexivity|]);
        (split; [intros Hs; try discriminate;
                 apply Z.eqb_eq in Hs; subst rc; auto|]);
        (split; [discriminate|]);
        (split; [intros c' d pre post _ [= <-] Hin Hlow;
                 rewrite (EngineMoreFacts.any_in_intro _ d pre post _ Hin Hlow) in Hd;
                 discriminate|]);
        split; auto.
  - unfold ret at 1. unfold bind, run_shell.
    destruct (subprocess_run (world st) command (timeout cfg)) as [w [rc out err| |e]];
      unfold ret; intros [= <- <-]; cbn [success action_type return_code spawned];
      (split; [right; reflexivity|]);
      (split; [intros Hs; try discriminate;
               apply Z.eqb_eq in Hs; subst rc; auto|]);
      (split; [discriminate|]);
      (split; [intros c' d pre post [=]|]);
      split; auto.
Qed.

End WithEnv.

Lemma bash_success_means_exit_code_zero_witness :
  exists st' o,
    @_bash_execute unit DemoMore.shell_ok (Config true true 30) [("command", JStr "ls")]
      (State tt []) = (st', Ok o)
    /\ success o = true /\ return_code o = Some 0 /\ spawned st' = [JStr "ls"].
Proof.
  eexists; eexists. split; [vm_compute; reflexivity|]. split; [reflexivity|].
  destruct (@bash_success_means_exit_code_zero unit DemoMore.shell_ok (Config true true 30)
              [("command", JStr "ls")] (State tt []) _ _ eq_refl)
    as (_ & Hsuccess & _).
  destruct (Hsuccess eq_refl) as (Hcode & Hspawned & _).
  split; [exact Hcode|exact Hspawned].
Defined.

End ActionExecFacts.

Module MemoryMoreFacts.
Import Json Monad Memory MemorySpec PlaybookSpec StoreSpec MemoryFacts.

(** *** The confidence score *)

Lemma complexity_factor_bounds (n : nat) :
  (0 <= Qmin (inject_Z (Z.of_nat n) / 10) (2 # 10)
   /\ Qmin (inject_Z (Z.of_nat n) / 10) (2 # 10) <= 2 # 10)%Q.
Proof.
  split; [|apply Q.le_min_r].
  apply Q.min_glb; [|discriminate].
  unfold Qle, Qdiv, Qmult, Qinv, inject_Z; simpl. lia.
Qed.

Lemma complexity_factor_mono (n m : nat) :
  (n <= m)%nat ->
  (Qmin (inject_Z (Z.of_nat n) / 10) (2 # 10)
   <= Qmin (inject_Z (Z.of_nat m) / 10) (2 # 10))%Q.
Proof.
  intros Hle. apply Q.min_le_compat_r.
  unfold Qle, Qdiv, Qmult, Qinv, inject_Z; simpl. lia.
Qed.

(** X14. _calculate_confidence separates outcomes: a success scores between 0.6
    and 0.8, a failure between 0 and 0.2, so every failure scores below every
    success; the score never grows with the length of the strategy; from two steps
    on it no longer depends on the length, and a failure then scores 0. (Only
    comparisons, and equalities between results of the same computation, are
    stated: they hold of the float results as of the rationals.) *)
Theorem confidence_separates_outcomes (s1 s2 : list action) (success : bool) :
  (6 # 10 <= _calculate_confidence s1 true
   /\ _calculate_confidence s1 true <= 8 # 10)%Q
  /\ (0 <= _calculate_confidence s1 false
      /\ _calculate_confidence s1 false <= 2 # 10)%Q
  /\ (_calculate_confidence s1 false < _calculate_confidence s2 true)%Q
  /\ ((length s1 <= length s2)%nat ->
      (_calculate_confidence s2 success <= _calculate_confidence s1 success)%Q)
  /\ ((2 <= length s1)%nat -> (2 <= length s2)%nat ->
      (_calculate_confidence s1 success == _calculate_confidence s2 success)%Q)
  /\ ((2 <= length s1)%nat -> (_calculate_confidence s1 false == 0)%Q).
Proof.
  assert (Hsucc : forall s, (6 # 10 <= _calculate_confidence s true
                             /\ _calculate_confidence s true <= 8 # 10)%Q).
  { intros s. unfold _calculate_confidence.
    destruct (complexity_factor_bounds (length s)) as [Hlo Hhi].
    set (c := Qmin (inject_Z (Z.of_nat (length s)) / 10) (2 # 10)) in *.
    assert (H6 : (6 # 10 <= (8 # 10) - c)%Q).
    { apply Qle_trans with ((8 # 10) - (2 # 10))%Q; [unfold Qle; simpl; lia|].
      apply Qplus_le_r, Qopp_le_compat. exact Hhi. }
    assert (H8 : ((8 # 10) - c <= 8 # 10)%Q).
    { rewrite <- (Qplus_0_r (8 # 10)) at 2.
      apply Qplus_le_r. apply (Qopp_le_compat 0 c) in Hlo. exact Hlo. }
    rewrite Q.min_r by (apply Qle_trans with (8 # 10)%Q; [exact H8|discriminate]).
    rewrite Q.max_r by (apply Qle_trans with (6 # 10)%Q; [discriminate|exact H6]).
    split; assumption. }
  assert (Hfail : forall s, (0 <= _calculate_confidence s false
                             /\ _calculate_confidence s false <= 2 # 10)%Q).
  { intros s. unfold _calculate_confidence.
    destruct (complexity_factor_bounds (length s)) as [Hlo Hhi].
    set (c := Qmin (inject_Z (Z.of_nat (length s)) / 10) (2 # 10)) in *.
    split; [apply Q.le_max_l|].
    apply Q.max_lub; [discriminate|].
    apply Qle_trans with ((2 # 10) - c)%Q; [apply Q.le_min_r|].
    rewrite <- (Qplus_0_r (2 # 10)) at 2.
    apply Qplus_le_r. apply (Qopp_le_compat 0 c) in Hlo. exact Hlo. }
  assert (Hlong : forall s b, (2 <= length s)%nat ->
            (_calculate_confidence s b == if b then 6 # 10 else 0)%Q).
  { intros s b Hlen. apply (spec_confidence_long (length s) b Hlen). }
  split; [apply Hsucc|]. split; [apply Hfail|]. split; [|split; [|split]].
  - apply Qle_lt_trans with (2 # 10)%Q; [apply Hfail|].
    apply Qlt_le_trans with (6 # 10)%Q; [reflexivity|apply Hsucc].
  - intros Hlen. unfold _calculate_confidence.
    apply Q.max_le_compat_l, Q.min_le_compat_l, Qplus_le_r, Qopp_le_compat.
    apply complexity_factor_mono. exact Hlen.
  - intros H1 H2. rewrite (Hlong s1 success H1), (Hlong s2 success H2). reflexivity.
  - intros H1. apply (Hlong s1 false H1).
Qed.

(** *** The playbook *)

Lemma sorted_split (l1 l2 : list entry) :
  StronglySorted desc (l1 ++ l2) ->
  forall k d, k ∈ l1 -> d ∈ l2 -> (s_confidence d <= s_confidence k)%Q.
Proof.
  induction l1 as [|x l1 IH]; intros Hs k d Hk Hd.
  - apply elem_of_nil in Hk; contradiction.
  - simpl in Hs. apply StronglySorted_inv in Hs as [Hs Hall].
    apply elem_of_cons in Hk as [->|Hk].
    + rewrite Forall_forall in Hall. apply Hall. apply elem_of_app. right; exact Hd.
    + apply IH; assumption.
Qed.

Section Playbook.
Variable strategy_hash : list action -> string.
Variable cfg : config.

Lemma update_playbook_other pb e t :
  t <> e_task_type e ->
  entries_of (_update_playbook strategy_hash cfg pb e) t = entries_of pb t.
Proof.
  intros Hneq. unfold _update_playbook, entries_of.
  destruct (Qle_bool _ _); [|reflexivity].
  destruct (pb !! e_task_type e) as [l|] eqn:Hl.
  - rewrite Hl. simpl. destruct (List.filter _ l); [|reflexivity].
    rewrite lookup_insert_ne by congruence. reflexivity.
  - rewrite lookup_insert_eq. simpl.
    rewrite lookup_insert_ne by congruence.
    rewrite lookup_insert_ne by congruence. reflexivity.
Qed.

Lemma update_playbook_same pb e :
  entries_of (_update_playbook strategy_hash cfg pb e) (e_task_type e)
  = if Qle_bool (confidence_threshold cfg) (e_confidence_score e)
    then if bool_decide (strategy_hash (e_strategy e)
                         ∈ map s_hash (entries_of pb (e_task_type e)))
         then entries_of pb (e_task_type e)
         else take 5 (sorted_desc (entries_of pb (e_task_type e) ++ [entry_of strategy_hash e]))
    else entries_of pb (e_task_type e).
Proof.
  unfold _update_playbook, entries_of.
  destruct (Qle_bool _ _); [|reflexivity].
  set (h := strategy_hash (e_strategy e)).
  assert (Hfilter : forall l,
    match List.filter (fun s => bool_decide (s_hash s = h)) l with
    | [] => h ∉ map s_hash l
    | _ :: _ => h ∈ map s_hash l
    end).
  { induction l as [|x l IH]; simpl.
    - apply not_elem_of_nil.
    - case_bool_decide as Hx.
      + rewrite <- Hx. apply elem_of_cons. left; reflexivity.
      + destruct (List.filter _ l).
        * apply not_elem_of_cons. split; [congruence|exact IH].
        * apply elem_of_cons. right; exact IH. }
  destruct (pb !! e_task_type e) as [l|] eqn:Hl.
  - rewrite Hl. simpl. specialize (Hfilter l).
    destruct (List.filter _ l).
    + rewrite bool_decide_eq_false_2 by exact Hfilter.
      rewrite lookup_insert_eq. reflexivity.
    + rewrite bool_decide_eq_true_2 by exact Hfilter. rewrite Hl. reflexivity.
  - rewrite lookup_insert_eq. simpl.
    rewrite lookup_insert_eq. reflexivity.
Qed.

(** X15. _update_playbook touches only the entry list of the experience's task type.
    It leaves that list unchanged when the confidence is below the threshold or when
    the strategy hash is already listed (a known strategy is never replaced or
    re-scored). Otherwise the new list plus the evicted entries is a permutation of
    the old list plus the new entry, it has min(5, old length + 1) entries, and
    every evicted entry has a confidence no higher than any entry kept. *)
Theorem playbook_admits_novel_confident_strategies
    (pb : gmap string (list entry)) (e : experience) :
  let old := entries_of pb (e_task_type e) in
  let new := entries_of (_update_playbook strategy_hash cfg pb e) (e_task_type e) in
  (forall t, t <> e_task_type e ->
     entries_of (_update_playbook strategy_hash cfg pb e) t = entries_of pb t)
  /\ ((e_confidence_score e < confidence_threshold cfg)%Q -> new = old)
  /\ (strategy_hash (e_strategy e) ∈ map s_hash old -> new = old)
  /\ ((confidence_threshold cfg <= e_confidence_score e)%Q ->
      strategy_hash (e_strategy e) ∉ map s_hash old ->
      exists evicted,
        Permutation (new ++ evicted) (old ++ [entry_of strategy_hash e])
        /\ length new = Nat.min 5 (length old + 1)
        /\ (forall k d, k ∈ new -> d ∈ evicted ->
              (s_confidence d <= s_confidence k)%Q)).
Proof.
  intros old new. subst old new. rewrite update_playbook_same.
  split; [intros t Hneq; apply update_playbook_other; exact Hneq|].
  split; [|split].
  - intros Hlt. destruct (Qle_bool _ _) eqn:Hle; [|reflexivity].
    apply Qle_bool_iff in Hle. exfalso. eapply Qlt_not_le; eassumption.
  - intros Hin. destruct (Qle_bool _ _); [|reflexivity].
    rewrite bool_decide_eq_true_2 by exact Hin. reflexivity.
  - intros Hle Hnotin. apply Qle_bool_iff in Hle. rewrite Hle.
    rewrite bool_decide_eq_false_2 by exact Hnotin.
    set (l := entries_of pb (e_task_type e) ++ [entry_of strategy_hash e]).
    exists (drop 5 (sorted_desc l)). split; [|split].
    + rewrite take_drop. apply sorted_desc_perm.
    + rewrite length_take.
      rewrite (Permutation_length (sorted_desc_perm l)). subst l.
      rewrite length_app. simpl. reflexivity.
    + apply sorted_split. rewrite take_drop. apply sorted_desc_sorted.
Qed.

(** The playbook holds only entries at or above the threshold. *)
Lemma update_playbook_confident pb e :
  confident cfg pb -> confident cfg (_update_playbook strategy_hash cfg pb e).
Proof.
  intros Hok t l s Hl Hs.
  destruct (decide (t = e_task_type e)) as [->|Hneq].
  - pose proof (update_playbook_same pb e) as Hsame.
    unfold entries_of at 1 in Hsame. rewrite Hl in Hsame. simpl in Hsame.
    assert (Hold : forall x, x ∈ entries_of pb (e_task_type e) ->
                     (confidence_threshold cfg <= s_confidence x)%Q).
    { unfold entries_of. intros x Hx.
      destruct (pb !! e_task_type e) as [l0|] eqn:Hl0; simpl in Hx.
      - eapply Hok; eassumption.
      - apply elem_of_nil in Hx; contradiction. }
    destruct (Qle_bool _ _) eqn:Hle; [|subst l; apply Hold; exact Hs].
    case_bool_decide; [subst l; apply Hold; exact Hs|].
    subst l. apply subseteq_take in Hs.
    rewrite (sorted_desc_perm _) in Hs.
    apply elem_of_app in Hs as [Hs|Hs]; [apply Hold; exact Hs|].
    apply list_elem_of_singleton in Hs. subst s. simpl.
    apply Qle_bool_iff. exact Hle.
  - pose proof (update_playbook_other pb e t Hneq) as Hother.
    unfold entries_of in Hother. rewrite Hl in Hother. simpl in Hother.
    destruct (pb !! t) as [l0|] eqn:Hl0; simpl in Hother.
    + subst l0. eapply Hok; eassumption.
    + subst l. apply elem_of_nil in Hs; contradiction.
Qed.

End Playbook.

(** X16. On a playbook whose lists are sorted by confidence (as _update_playbook
    keeps them), get_best_strategy returns an entry of the task type's list whose
    confidence is maximal in that list, and None exactly when the task type has no
    entry. *)
Theorem best_strategy_is_most_confident (st : state) (task_type : string) :
  playbook_ok (strategies (book st)) ->
  match get_best_strategy st task_type with
  | Some s =>
      exists l, strategies (book st) !! task_type = Some l /\ s ∈ l
                /\ forall s', s' ∈ l -> (s_confidence s' <= s_confidence s)%Q
  | None =>
      strategies (book st) !! task_type = None
      \/ strategies (book st) !! task_type = Some []
  end.
Proof.
  intros Hok. unfold get_best_strategy.
  destruct (strategies (book st) !! task_type) as [[|s l]|] eqn:Hl;
    [right; reflexivity| |left; reflexivity].
  exists (s :: l). split; [reflexivity|]. split; [apply elem_of_cons; left; reflexivity|].
  intros s' Hs'. destruct (Hok _ _ Hl) as (_ & Hsorted & _).
  apply StronglySorted_inv in Hsorted as [_ Hall].
  apply elem_of_cons in Hs' as [->|Hs']; [apply Qle_refl|].
  rewrite Forall_forall in Hall. apply Hall. exact Hs'.
Qed.

Section Store.
Variable strategy_hash : list action -> string.
Variable md5_hex : string -> string.
Variable json_dumps : list action -> string.
Variable cfg : config.

(** X17. store_experience with success=False never changes the playbook nor adds a
    text to the retrieval store; with auto-learn off it changes neither playbook,
    retrieval store nor patterns; and if every playbook entry is at or above the
    confidence threshold before a store, so it is after. *)
Theorem failures_never_reach_the_playbook
    (st : state) (task_type query : string) (strategy : list action) (success : bool)
    (execution_time : Q) (context failure_reason : option string)
    (now_id now_ts : string) :
  let st' := fst (fst (store_experience strategy_hash md5_hex json_dumps cfg st task_type query strategy success execution_time context
                         failure_reason now_id now_ts)) in
  (success = false -> book st' = book st /\ rag_added st' = rag_added st)
  /\ (auto_learn cfg = false ->
      book st' = book st /\ rag_added st' = rag_added st /\ pats st' = pats st)
  /\ (confident cfg (strategies (book st)) -> confident cfg (strategies (book st'))).
Proof.
  intros st'. split; [|split].
  - intros ->. subst st'. unfold store_experience.
    destruct (auto_learn cfg); [|split; reflexivity].
    unfold _update_patterns. destruct (_ =? 0); split; reflexivity.
  - intros Hoff. subst st'. unfold store_experience. rewrite Hoff.
    repeat split; reflexivity.
  - intros Hok. subst st'.
    destruct (store_experience_playbook strategy_hash md5_hex json_dumps cfg st task_type
                query strategy success execution_time context failure_reason now_id now_ts)
      as [Heq|[e Heq]]; rewrite Heq; [exact Hok|].
    apply update_playbook_confident. exact Hok.
Qed.

Lemma track_failure_spec (fp : gmap string Z) (e : experience) :
  match e_failure_reason e with
  | Some reason =>
      if e_success e || negb (Py.truthy reason) then track_failure fp e = fp
      else
        let key := e_task_type e +:+ ":" +:+ reason in
        track_failure fp e !! key = Some (default 0 (fp !! key) + 1)
        /\ forall k, k <> key -> track_failure fp e !! k = fp !! k
  | None => track_failure fp e = fp
  end.
Proof.
  unfold track_failure. destruct (e_failure_reason e) as [reason|]; [|reflexivity].
  destruct (e_success e); simpl; [reflexivity|].
  destruct (Py.truthy reason); simpl; [|reflexivity].
  split.
  - rewrite lookup_insert_eq. f_equal. f_equal.
    destruct (fp !! _) eqn:Hl; [rewrite Hl; reflexivity|].
    rewrite lookup_insert_eq. reflexivity.
  - intros k Hk. rewrite lookup_insert_ne by congruence.
    destruct (fp !! _); [reflexivity|].
    rewrite lookup_insert_ne by congruence. reflexivity.
Qed.

Lemma filter_length_le {A} (f : A -> bool) (l : list A) :
  (length (List.filter f l) <= length l)%nat.
Proof. induction l as [|x l IH]; simpl; [lia|]. destruct (f x); simpl; lia. Qed.

Lemma not_novel_of_logged (st : state) (e : experience) :
  e ∈ experiences st -> _is_novel_sequence st (action_sequence (e_strategy e)) = false.
Proof.
  intros Hin. unfold _is_novel_sequence. apply negb_false_iff, existsb_exists.
  exists e. split; [apply list_elem_of_In; exact Hin|apply String.eqb_refl].
Qed.

(** X20. Once store_experience has stored a strategy, _is_novel_sequence is False
    for its action-type sequence, and reflect_on_task on a success with that history
    reports only 'Task completed successfully' (and 'Efficient solution with minimal
    steps' for fewer than five steps), with no improvements; on an empty log every
    sequence is novel. *)
Theorem stored_strategy_is_not_novel_again
    (str_action : action -> string)
    (st : state) (task_type query : string) (strategy : list action) (success : bool)
    (execution_time : Q) (context failure_reason : option string)
    (now_id now_ts outcome query' : string) :
  let st' := fst (fst (store_experience strategy_hash md5_hex json_dumps cfg st task_type query strategy success execution_time context
                         failure_reason now_id now_ts)) in
  let r := reflect_on_task str_action st' query' strategy outcome true in
  _is_novel_sequence st' (action_sequence strategy) = false
  /\ r_lessons r
     = "Task completed successfully"
       :: (if Z.of_nat (length strategy) <? 5
           then ["Efficient solution with minimal steps"] else [])
  /\ r_improvements r = []
  /\ (experiences st = [] ->
      _is_novel_sequence st (action_sequence strategy) = true).
Proof.
  intros st' r.
  destruct (store_experience_appends strategy_hash md5_hex json_dumps cfg st task_type
              query strategy success execution_time context failure_reason now_id now_ts)
    as (e & Hlog & Hstrategy & _).
  assert (Hnovel : _is_novel_sequence st' (action_sequence strategy) = false).
  { rewrite <- Hstrategy. apply not_novel_of_logged. subst st'. rewrite Hlog.
    apply elem_of_app. right. apply list_elem_of_singleton. reflexivity. }
  split; [exact Hnovel|]. split; [|split].
  - subst r. unfold reflect_on_task. rewrite Hnovel.
    destruct (_ <? 5); reflexivity.
  - reflexivity.
  - intros Hnil. unfold _is_novel_sequence. rewrite Hnil. reflexivity.
Qed.

End Store.

Section StoreWithFiles.
Context {World : Type} `{MemoryIO.Env World}.
Variable strategy_hash : list action -> string.
Variable md5_hex : string -> string.
Variable json_dumps : list action -> string.
Variable cfg : config.

(** X18. With auto-learn on and the pattern cache of the task type in step with the
    log: when the append to experiences.jsonl succeeds, store_experience of a
    failure with a non-empty failure_reason raises the counter under
    '<task_type>:<reason>' by exactly one (from 0 when absent) and leaves every
    other counter, and a success, a missing or an empty reason leaves the failure
    counters unchanged, whether or not a later write (patterns.json) raises; when
    the append raises, the exception leaves store_experience and no counter
    changes. *)
Theorem failure_counter_counts_reasoned_failures
    (st : MemoryIO.state World) (task_type query : string) (strategy : list action)
    (success : bool) (execution_time : Q) (context failure_reason : option string)
    (now_id now_ts : string) :
  auto_learn cfg = true ->
  cache_in_sync (MemoryIO.mem st) task_type ->
  let e := experience_of md5_hex task_type query strategy success execution_time context
                         failure_reason now_id now_ts in
  let out := MemoryIO.store_experience strategy_hash md5_hex json_dumps cfg task_type query
               strategy success execution_time context failure_reason now_id now_ts st in
  let fp := failure_patterns (pats (MemoryIO.mem st)) in
  let fp' := failure_patterns (pats (MemoryIO.mem (fst out))) in
  match MemoryIO.fs_append_experience (MemoryIO.world st) e with
  | (_, Raise err) => fp' = fp /\ snd out = Raise err
  | (_, Ok _) =>
      match failure_reason with
      | Some reason =>
          if success || negb (Py.truthy reason) then fp' = fp
          else
            let key := task_type +:+ ":" +:+ reason in
            fp' !! key = Some (default 0 (fp !! key) + 1)
            /\ forall k, k <> key -> fp' !! k = fp !! k
      | None => fp' = fp
      end
  end.
Proof.
  intros Hauto Hsync e out fp fp'.
  destruct (MemoryIO.fs_append_experience (MemoryIO.world st) e) as [w1 [u|err]] eqn:Happend.
  2:{ subst fp' out.
      rewrite (store_experience_append_fails strategy_hash md5_hex json_dumps cfg st
                 task_type query strategy success execution_time context failure_reason
                 now_id now_ts w1 err Happend).
      split; reflexivity. }
  destruct (store_experience_appended strategy_hash md5_hex json_dumps cfg st task_type
              query strategy success execution_time context failure_reason now_id now_ts
              w1 u Happend) as (_ & Hpats & _).
  fold e in Hpats. fold out in Hpats. rewrite Hauto in Hpats.
  assert (Hfp : fp' = track_failure fp e).
  { subst fp' fp. rewrite Hpats.
    destruct (MemoryIO.mem st) as [log ps bk rg]. cbn [experiences pats book rag_added] in *.
    destruct (update_patterns_after_append log ps bk rg e Hsync) as (st1 & p & Hupd & _).
    rewrite Hupd. cbn [fst].
    revert Hupd. unfold _update_patterns. cbn [experiences pats book rag_added].
    destruct (_ =? 0); intros [= <-]; reflexivity. }
  rewrite Hfp. exact (track_failure_spec fp e).
Qed.

(** X19. get_statistics: 0 <= successful_experiences <= total_experiences, the
    success rate is in [0, 1] and is 0 for an empty log (no division by zero). A
    store_experience whose append to experiences.jsonl succeeds raises
    total_experiences by one and successful_experiences by one exactly when
    success is True, whatever the configuration and whatever happens to the later
    writes; one whose append raises leaves the statistics as they were and
    raises that exception. *)
Theorem statistics_follow_the_log
    (st : MemoryIO.state World) (task_type query : string) (strategy : list action)
    (success : bool) (execution_time : Q) (context failure_reason : option string)
    (now_id now_ts : string) :
  let e := experience_of md5_hex task_type query strategy success execution_time context
                         failure_reason now_id now_ts in
  let out := MemoryIO.store_experience strategy_hash md5_hex json_dumps cfg task_type query
               strategy success execution_time context failure_reason now_id now_ts st in
  let s := get_statistics (MemoryIO.mem st) in
  let s' := get_statistics (MemoryIO.mem (fst out)) in
  0 <= successful_experiences s <= total_experiences s
  /\ (0 <= success_rate s /\ success_rate s <= 1)%Q
  /\ (experiences (MemoryIO.mem st) = [] -> success_rate s = 0%Q)
  /\ match MemoryIO.fs_append_experience (MemoryIO.world st) e with
     | (_, Raise err) => s' = s /\ snd out = Raise err
     | (_, Ok _) =>
         total_experiences s' = total_experiences s + 1
         /\ successful_experiences s'
            = successful_experiences s + (if success then 1 else 0)
     end.
Proof.
  intros e out s s'.
  pose proof (filter_length_le e_success (experiences (MemoryIO.mem st)))
    as Hle.
  split; [|split; [|split]].
  - subst s. unfold get_statistics. cbn [successful_experiences total_experiences]. lia.
  - subst s. unfold get_statistics. cbn [success_rate].
    destruct (0 <? _) eqn:Hpos; [|split; discriminate].
    apply Z.ltb_lt in Hpos.
    assert (Hq : (0 < inject_Z (Z.of_nat (length (experiences (MemoryIO.mem st)))))%Q)
      by (unfold Qlt; simpl; lia).
    split.
    + apply Qle_shift_div_l; [exact Hq|]. rewrite Qmult_0_l.
      unfold Qle; simpl; lia.
    + apply Qle_shift_div_r; [exact Hq|]. rewrite Qmult_1_l.
      unfold Qle; simpl; lia.
  - intros Hnil. subst s. unfold get_statistics. rewrite Hnil. reflexivity.
  - destruct (MemoryIO.fs_append_experience (MemoryIO.world st) e) as [w1 [u|err]]
      eqn:Happend.
    + destruct (store_experience_appended strategy_hash md5_hex json_dumps cfg st task_type
                  query strategy success execution_time context failure_reason now_id
                  now_ts w1 u Happend) as (Hlog & _ & _).
      fold e in Hlog. fold out in Hlog.
      subst s s'. unfold get_statistics.
      cbn [successful_experiences total_experiences]. rewrite Hlog.
      rewrite List.filter_app, !length_app. cbn [List.filter e_success e experience_of].
      destruct success; simpl; lia.
    + subst s' out.
      rewrite (store_experience_append_fails strategy_hash md5_hex json_dumps cfg st
                 task_type query strategy success execution_time context failure_reason
                 now_id now_ts w1 err Happend).
      split; reflexivity.
Qed.

End StoreWithFiles.

(** X21. register_capability registers a name once: afterwards the name is listed by
    get_capabilities; registering it again (with any description) changes nothing,
    so the first description stays; a call adds at most one entry at the end;
    distinct names stay distinct; experiences, patterns and strategies are
    untouched. *)
Theorem capabilities_are_registered_once
    (st : state) (capability description now description' now' : string) :
  let st' := register_capability st capability description now in
  capability ∈ map c_name (get_capabilities st')
  /\ register_capability st' capability description' now' = st'
  /\ (exists added, get_capabilities st' = get_capabilities st ++ added
                    /\ (length added <= 1)%nat)
  /\ (capability ∈ map c_name (get_capabilities st) -> st' = st)
  /\ (NoDup (map c_name (get_capabilities st)) ->
      NoDup (map c_name (get_capabilities st')))
  /\ experiences st' = experiences st /\ pats st' = pats st
  /\ strategies (book st') = strategies (book st).
Proof.
  intros st'.
  assert (Hin : capability ∈ map c_name (get_capabilities st')).
  { subst st'. unfold register_capability, get_capabilities.
    case_bool_decide as Hc; [exact Hc|]. cbn [book capabilities].
    rewrite map_app. apply elem_of_app. right. apply list_elem_of_singleton. reflexivity. }
  split; [exact Hin|]. split; [|split; [|split; [|split]]].
  - unfold register_capability at 1. unfold get_capabilities in Hin.
    rewrite bool_decide_eq_true_2 by exact Hin. reflexivity.
  - subst st'. unfold register_capability, get_capabilities.
    case_bool_decide.
    + exists []. rewrite app_nil_r. split; [reflexivity|simpl; lia].
    + eexists [_]. split; [reflexivity|simpl; lia].
  - intros Hc. subst st'. unfold register_capability.
    unfold get_capabilities in Hc. rewrite bool_decide_eq_true_2 by exact Hc. reflexivity.
  - intros Hnd. subst st'. unfold register_capability, get_capabilities in *.
    case_bool_decide as Hc; [exact Hnd|]. cbn [book capabilities].
    rewrite map_app. apply NoDup_app. split; [exact Hnd|]. split.
    + intros x Hx Hx'. apply list_elem_of_singleton in Hx'. simpl in Hx'. subst x.
      contradiction.
    + apply NoDup_singleton.
  - subst st'. unfold register_capability. case_bool_decide; repeat split; reflexivity.
Qed.

Lemma best_strategy_is_most_confident_witness :
  match get_best_strategy DemoMore.learned "t" with
  | Some s =>
      exists l, strategies (book DemoMore.learned) !! "t" = Some l /\ s ∈ l
                /\ forall s', s' ∈ l -> (s_confidence s' <= s_confidence s)%Q
  | None =>
      strategies (book DemoMore.learned) !! "t" = None
      \/ strategies (book DemoMore.learned) !! "t" = Some []
  end.
Proof.
  apply (best_strategy_is_most_confident DemoMore.learned "t").
  unfold DemoMore.learned.
  destruct (store_experience_playbook Demo.hash (fun s => s) Demo.hash Demo.cfg init "t" "q"
              [Action (Some "file_read") []] true 1 None None "now" "now")
    as [Heq|[e Heq]]; rewrite Heq.
  - intros t l. simpl. rewrite lookup_empty. discriminate.
  - apply update_playbook_preserves.
    intros t l. simpl. rewrite lookup_empty. discriminate.
Defined.

Lemma failure_counter_counts_reasoned_failures_witness :
  failure_patterns
    (pats (MemoryIO.mem (fst (@MemoryIO.store_experience unit DemoStore.readonly_patterns
             Demo.hash (fun s => s) Demo.hash Demo.cfg "t" "q" [] false 1 None
             (Some "timeout") "now" "now" (MemoryIO.WithWorld tt init)))))
    !! "t:timeout" = Some 1.
Proof.
  exact (proj1 (@failure_counter_counts_reasoned_failures unit DemoStore.readonly_patterns
                  Demo.hash (fun s => s) Demo.hash Demo.cfg (MemoryIO.WithWorld tt init)
                  "t" "q" [] false 1 None (Some "timeout") "now" "now"
                  eq_refl (init_in_sync "t"))).
Defined.

(** A full disk: the store raises and the statistics stay as they were. *)
Example store_on_a_full_disk_changes_nothing :
  let out := @MemoryIO.store_experience unit DemoStore.full_disk Demo.hash (fun s => s)
               Demo.hash Demo.cfg "t" "q" [] true 1 None None "now" "now"
               (MemoryIO.WithWorld tt DemoMore.learned) in
  snd out = Raise (Exn "OSError" "No space left on device")
  /\ get_statistics (MemoryIO.mem (fst out)) = get_statistics DemoMore.learned
  /\ total_experiences (get_statistics DemoMore.learned) = 1.
Proof. cbv zeta. repeat split; vm_compute; reflexivity. Qed.

End MemoryMoreFacts.

Module RagFacts.
Import Json Monad Rag RagSpec.

Lemma from_positions_weaken results i j rs :
  (i <= j)%nat -> from_positions results j rs -> from_positions results i rs.
Proof.
  destruct rs as [|r rs]; [trivial|].
  intros Hle (k & Hk & Hat & Hrest). exists k. split; [lia|]. split; assumption.
Qed.

Lemma nth_error_is_lookup {A} (l : list A) (k : nat) : nth_error l k = l !! k.
Proof. revert k. induction l as [|x l IH]; intros [|k]; simpl; try reflexivity. apply IH. Qed.

(** The loop from position [i], with rows [docs] left of the first row. *)
Lemma format_from_spec cfg results :
  forall docs i acc rs,
    (forall k d, docs !! k = Some d -> cell (documents results) (i + k) = Ok d) ->
    format_from cfg results i docs acc = Ok rs ->
    exists new,
      rs = acc ++ new
      /\ Forall (fun r => (similarity_threshold cfg <= similarity r)%Q) new
      /\ from_positions results i new
      /\ (length new <= length docs)%nat.
Proof.
  induction docs as [|doc rest IH]; intros i acc rs Hdocs; simpl.
  - intros [= <-]. exists []. rewrite app_nil_r.
    split; [reflexivity|]. split; [apply Forall_nil_2|]. split; [exact I|simpl; lia].
  - assert (Hrest : forall k d, rest !! k = Some d ->
                      cell (documents results) (S i + k) = Ok d).
    { intros k d Hk. replace (S i + k)%nat with (i + S k)%nat by lia.
      apply Hdocs. exact Hk. }
    destruct (cell (distances results) i) as [distance|e] eqn:Hd; [|discriminate].
    destruct (Qle_bool _ _) eqn:Hsim.
    + destruct (cell (metadatas results) i) as [meta|e] eqn:Hm; [|discriminate].
      destruct (cell (ids results) i) as [ident|e] eqn:Hi; [|discriminate].
      intros Hrun. destruct (IH (S i) _ rs Hrest Hrun) as (new & -> & Hall & Hpos & Hlen).
      exists (Result doc meta (1 - distance) ident :: new).
      split; [rewrite <- app_assoc; reflexivity|]. split; [|split].
      * constructor; [apply Qle_bool_iff; exact Hsim|exact Hall].
      * exists i. split; [lia|]. split; [|exact Hpos].
        exists distance. simpl. repeat split; try assumption.
        replace i with (i + 0)%nat by lia. apply Hdocs. reflexivity.
      * simpl. lia.
    + intros Hrun. destruct (IH (S i) _ rs Hrest Hrun) as (new & -> & Hall & Hpos & Hlen).
      exists new. split; [reflexivity|]. split; [exact Hall|]. split.
      * apply (from_positions_weaken _ i (S i)); [lia|exact Hpos].
      * simpl. lia.
Qed.

Lemma format_results_spec cfg results rs :
  format_results cfg results = Ok rs ->
  Forall (fun r => (similarity_threshold cfg <= similarity r)%Q) rs
  /\ from_positions results 0 rs
  /\ (length rs <= length (hd [] (documents results)))%nat.
Proof.
  unfold format_results.
  destruct (documents results) as [|[|d docs] rows] eqn:Hdocs;
    try (intros [= <-]; split; [apply Forall_nil_2|split; [exact I|simpl; lia]]).
  intros Hrun.
  destruct (format_from_spec cfg results (d :: docs) 0%nat [] rs) as (new & -> & Hrest).
  - intros k x Hk. unfold cell, index. rewrite Hdocs. cbn [nth_error Nat.add].
    rewrite nth_error_is_lookup, Hk. reflexivity.
  - exact Hrun.
  - exact Hrest.
Qed.

Section WithEnv.
Context {World Vector : Type} `{Env World Vector}.
Variable cfg : config.

(** X22. When search returns, the query went to the collection with n_results, or
    with config.rag.max_results when n_results is None or 0; every result has
    similarity >= config.rag.similarity_threshold; the results come from increasing
    positions of the first row of the query result, each with the document, 1 -
    distance, metadata and id of its position; and there are no more results than
    documents. *)
Theorem search_returns_only_similar_chunks
    (query : string) (n_results : option Z) (filter_metadata : option dict)
    (w w' : World) (rs : list result) :
  search cfg query n_results filter_metadata w = (w', Ok rs) ->
  exists (v : Vector) (w1 : World) (results : query_result),
    encode w query = (w1, Ok v)
    /\ collection_query w1 v
         (match n_results with
          | Some 0 | None => max_results cfg
          | Some n => n
          end) filter_metadata = (w', Ok results)
    /\ Forall (fun r => (similarity_threshold cfg <= similarity r)%Q) rs
    /\ from_positions results 0 rs
    /\ (length rs <= length (hd [] (documents results)))%nat.
Proof.
  unfold search, bind, lift.
  destruct (encode w query) as [w1 [v|e]] eqn:Henc; [|discriminate].
  set (n := match n_results with Some n => if n =? 0 then _ else n | None => _ end).
  assert (Hn : n = match n_results with
                   | Some 0 | None => max_results cfg
                   | Some n => n
                   end).
  { subst n. destruct n_results as [[| |]|]; reflexivity. }
  rewrite <- Hn.
  destruct (collection_query w1 v n filter_metadata) as [w2 [results|e]] eqn:Hq;
    [|discriminate].
  destruct (format_results cfg results) as [rs'|e] eqn:Hf; [|discriminate].
  intros [= <- <-]. exists v, w1, results.
  split; [reflexivity|]. split; [exact Hq|]. apply format_results_spec. exact Hf.
Qed.

Lemma collect_context_spec (max_chars : Z) :
  forall results parts total,
  exists k,
    (k <= length results)%nat
    /\ collect_context max_chars results parts total
       = parts ++ map context_part (take k results)
    /\ (k = 0%nat \/ total + total_chars (take k results) <= max_chars)
    /\ (forall r, results !! k = Some r ->
          max_chars < total + total_chars (take k results) + Py.len (text r)).
Proof.
  induction results as [|r rest IH]; intros parts total.
  - exists 0%nat. simpl. rewrite app_nil_r. repeat split; [lia|left; reflexivity|].
    intros r Hr. discriminate.
  - simpl. destruct (max_chars <? total + Py.len (text r)) eqn:Hfit.
    + exists 0%nat. simpl. rewrite app_nil_r. repeat split; [lia|left; reflexivity|].
      intros r' [= <-]. apply Z.ltb_lt in Hfit. lia.
    + apply Z.ltb_ge in Hfit.
      destruct (IH (parts ++ [context_part r]) (total + Py.len (text r)))
        as (k & Hk & Heq & Hfits & Hstop).
      exists (S k). simpl. split; [lia|]. split; [|split].
      * unfold context_part in Heq |- *. rewrite Heq, <- app_assoc. reflexivity.
      * right. destruct Hfits as [->|Hfits]; simpl; lia.
      * intros r' Hr'. specialize (Hstop r' Hr'). lia.
Qed.

(** X23. When retrieve_context returns, the context is the join of the formatted
    first k results of search, for a k such that the texts of these k results have
    at most 4 * max_tokens characters in total (or k = 0), and the next result, if
    any, would exceed that budget: the loop stops at the first result that does not
    fit, even if a later one would. *)
Theorem context_is_a_prefix_within_budget
    (query : string) (max_tokens : Z) (w w' : World) (context : string) :
  retrieve_context cfg query max_tokens w = (w', Ok context) ->
  exists (rs : list result) (k : nat),
    search cfg query None None w = (w', Ok rs)
    /\ (k <= length rs)%nat
    /\ context = Py.join (Py.nl +:+ Py.nl +:+ "---" +:+ Py.nl +:+ Py.nl)
                         (map context_part (take k rs))
    /\ (k = 0%nat \/ total_chars (take k rs) <= max_tokens * 4)
    /\ (forall r, rs !! k = Some r ->
          max_tokens * 4 < total_chars (take k rs) + Py.len (text r)).
Proof.
  unfold retrieve_context, bind at 1.
  destruct (search cfg query None None w) as [w1 [rs|e]] eqn:Hs; [|discriminate].
  unfold ret. intros [= <- <-].
  destruct (collect_context_spec (max_tokens * 4) rs [] 0) as (k & Hk & Heq & Hfits & Hstop).
  exists rs, k. split; [reflexivity|]. split; [exact Hk|].
  split; [rewrite Heq; reflexivity|]. split; [exact Hfits|exact Hstop].
Qed.

End WithEnv.

Lemma search_returns_only_similar_chunks_witness :
  exists rs,
    @search unit unit DemoMore.two_chunks DemoMore.cfg07 "query" None None tt = (tt, Ok rs)
    /\ Forall (fun r => (7 # 10 <= similarity r)%Q) rs
    /\ map text rs = ["near"].
Proof.
  eexists. split; [vm_compute; reflexivity|].
  split; [|reflexivity].
  destruct (@search_returns_only_similar_chunks unit unit DemoMore.two_chunks DemoMore.cfg07 "query" None None
              tt tt _ eq_refl) as (_ & _ & _ & _ & _ & Hall & _).
  exact Hall.
Defined.

Lemma context_is_a_prefix_within_budget_witness :
  exists context rs k,
    @retrieve_context unit unit DemoMore.two_chunks DemoMore.cfg07 "query" 1 tt = (tt, Ok context)
    /\ @search unit unit DemoMore.two_chunks DemoMore.cfg07 "query" None None tt = (tt, Ok rs)
    /\ (k = 0%nat \/ total_chars (take k rs) <= 4).
Proof.
  eexists.
  destruct (@context_is_a_prefix_within_budget unit unit DemoMore.two_chunks DemoMore.cfg07 "query" 1 tt tt _
              eq_refl) as (rs & k & Hs & _ & _ & Hfits & _).
  exists rs, k. split; [vm_compute; reflexivity|]. split; [exact Hs|exact Hfits].
Defined.

End RagFacts.

Module WindowFacts.
Import Chunking ChunkingSpec.

(** *** Slices *)

Lemma append_cons' (c : ascii) (s t : string) : String c s +:+ t = String c (s +:+ t).
Proof. reflexivity. Qed.

Lemma append_empty_r (s : string) : s +:+ "" = s.
Proof.
  induction s as [|c s IH]; [reflexivity|]. rewrite append_cons', IH. reflexivity.
Qed.

Lemma length_drop_str (n : nat) (s : string) :
  String.length (Py.drop n s) = (String.length s - n)%nat.
Proof. revert s; induction n as [|n IH]; intros [|c s]; simpl; auto. Qed.

Lemma length_take_str (n : nat) (s : string) :
  String.length (Py.take n s) = Nat.min n (String.length s).
Proof. revert s; induction n as [|n IH]; intros [|c s]; simpl; auto. Qed.

Lemma take_all (n : nat) (s : string) :
  (String.length s <= n)%nat -> Py.take n s = s.
Proof.
  revert s; induction n as [|n IH]; intros [|c s]; simpl; intros Hle;
    try reflexivity; [lia|].
  rewrite IH by lia. reflexivity.
Qed.

Lemma take_of_take (n m : nat) (s : string) :
  (n <= m)%nat -> Py.take n (Py.take m s) = Py.take n s.
Proof.
  revert m s; induction n as [|n IH]; intros [|m] [|c s] Hle; simpl;
    try reflexivity; [lia|].
  rewrite IH by lia. reflexivity.
Qed.

Lemma take_drop_str (n : nat) (s : string) : Py.take n s +:+ Py.drop n s = s.
Proof.
  revert s; induction n as [|n IH]; intros [|c s]; try reflexivity.
  cbn [Py.take Py.drop]. rewrite append_cons', IH. reflexivity.
Qed.

Lemma drop_of_drop (n m : nat) (s : string) :
  Py.drop m (Py.drop n s) = Py.drop (n + m) s.
Proof.
  revert s; induction n as [|n IH]; intros s; [reflexivity|].
  destruct s as [|c s]; simpl; [destruct m; reflexivity|apply IH].
Qed.

Lemma drop_all (n : nat) (s : string) :
  (String.length s <= n)%nat -> Py.drop n s = "".
Proof.
  revert s; induction n as [|n IH]; intros [|c s]; simpl; intros Hle;
    try reflexivity; [lia|].
  apply IH. lia.
Qed.

(** A window that opens inside the text. *)
Lemma slice_window (s : string) (a size : Z) :
  0 <= a < Py.len s -> 0 < size ->
  Py.slice s a (a + size) = Py.take (Z.to_nat size) (Py.drop (Z.to_nat a) s).
Proof.
  intros Ha Hsize. unfold Py.slice, Py.clip.
  assert (Ha0 : (a <? 0) = false) by (apply Z.ltb_ge; lia).
  assert (Hb0 : (a + size <? 0) = false) by (apply Z.ltb_ge; lia).
  rewrite Ha0, Hb0.
  replace (Z.max 0 (Z.min (Py.len s) a)) with a by lia.
  destruct (Z_le_gt_dec (a + size) (Py.len s)) as [Hin|Hout].
  - replace (Z.max 0 (Z.min (Py.len s) (a + size)) - a) with size by lia. reflexivity.
  - replace (Z.max 0 (Z.min (Py.len s) (a + size)) - a) with (Py.len s - a) by lia.
    rewrite !take_all; [reflexivity| |]; rewrite length_drop_str; unfold Py.len in *; lia.
Qed.

(** *** The loop of [chunk_text] in closed form *)

Lemma windows_guard (n step : Z) (j : nat) :
  0 <= n -> 0 < step ->
  (Z.of_nat j * step < n <-> (j < windows n step)%nat).
Proof.
  intros Hn Hstep. unfold windows.
  pose proof (Z.div_mod (n + step - 1) step ltac:(lia)) as Hdiv.
  pose proof (Z.mod_pos_bound (n + step - 1) step Hstep) as Hmod.
  assert (Hq : 0 <= (n + step - 1) / step) by (apply Z.div_pos; lia).
  split; intros Hlt.
  - apply Nat2Z.inj_lt. rewrite Z2Nat.id by exact Hq. nia.
  - apply Nat2Z.inj_lt in Hlt. rewrite Z2Nat.id in Hlt by exact Hq. nia.
Qed.

Lemma chunk_loop_closed_form (text : string) (size overlap : Z) :
  0 < size - overlap ->
  forall (fuel j : nat) (chunks : list string),
    (windows (Py.len text) (size - overlap) - j <= fuel)%nat ->
    chunk_loop fuel text size overlap (Z.of_nat j * (size - overlap)) chunks
    = Some (chunks ++ map (window text size (size - overlap))
                          (seq j (windows (Py.len text) (size - overlap) - j))).
Proof.
  intros Hstep. set (step := size - overlap) in *. set (n := windows (Py.len text) step).
  assert (Hlen : 0 <= Py.len text) by (unfold Py.len; lia).
  assert (Hdone : forall fuel j chunks, (n <= j)%nat ->
            chunk_loop fuel text size overlap (Z.of_nat j * step) chunks = Some chunks).
  { intros fuel j chunks Hj.
    assert (Hguard : (Z.of_nat j * step <? Py.len text) = false).
    { apply Z.ltb_ge. destruct (Z_lt_ge_dec (Z.of_nat j * step) (Py.len text)) as [Hlt|Hge];
        [|lia].
      apply (windows_guard _ _ j Hlen Hstep) in Hlt. fold n in Hlt. lia. }
    destruct fuel; simpl; rewrite Hguard; reflexivity. }
  induction fuel as [|fuel IH]; intros j chunks Hfuel.
  - replace (n - j)%nat with 0%nat by lia. simpl seq. simpl map. rewrite app_nil_r.
    apply Hdone. lia.
  - destruct (le_lt_dec n j) as [Hge|Hlt].
    + replace (n - j)%nat with 0%nat by lia. simpl seq. simpl map. rewrite app_nil_r.
      apply Hdone. exact Hge.
    + assert (Hguard : (Z.of_nat j * step <? Py.len text) = true).
      { apply Z.ltb_lt. apply (windows_guard _ _ j Hlen Hstep). exact Hlt. }
      cbn [chunk_loop]. rewrite Hguard. fold step.
      replace (Z.of_nat j * step + step) with (Z.of_nat (S j) * step) by lia.
      rewrite IH by lia.
      replace (n - j)%nat with (S (n - S j)) by lia.
      cbn [seq map]. rewrite <- app_assoc. reflexivity.
Qed.

Lemma chunk_text_closed_form (text : string) (size overlap : Z) (fuel : nat) :
  0 < size - overlap ->
  (windows (Py.len text) (size - overlap) <= fuel)%nat ->
  chunk_text fuel size overlap text
  = Some (map (window text size (size - overlap))
              (seq 0 (windows (Py.len text) (size - overlap)))).
Proof.
  intros Hstep Hfuel. unfold chunk_text.
  pose proof (chunk_loop_closed_form text size overlap Hstep fuel 0 []) as Hloop.
  rewrite Nat.sub_0_r in Hloop. simpl in Hloop. apply Hloop. exact Hfuel.
Qed.

Lemma windows_le_length (text : string) (step : Z) :
  0 < step -> (windows (Py.len text) step <= String.length text)%nat.
Proof.
  intros Hstep. unfold windows, Py.len.
  apply Nat2Z.inj_le. rewrite Z2Nat.id by (apply Z.div_pos; lia).
  destruct (String.length text) as [|n]; [rewrite Z.div_small by lia; lia|].
  apply Z.div_le_upper_bound; [lia|]. nia.
Qed.

(** What the windows from [j] on put together, each cut to the step. *)
Lemma windows_cover (text : string) (size step : Z) :
  0 < step <= size ->
  forall (m j : nat),
    (j + m = windows (Py.len text) step)%nat ->
    Py.join "" (map (fun c => Py.take (Z.to_nat step) c)
                    (map (window text size step) (seq j m)))
    = Py.drop (Z.to_nat (Z.of_nat j * step)) text.
Proof.
  intros Hstep. assert (Hlen : 0 <= Py.len text) by (unfold Py.len; lia).
  induction m as [|m IH]; intros j Hj.
  - simpl. symmetry. apply drop_all.
    destruct (Z_lt_ge_dec (Z.of_nat j * step) (Py.len text)) as [Hlt|Hge].
    + apply (windows_guard _ _ j Hlen) in Hlt; lia.
    + unfold Py.len in Hge. lia.
  - assert (Hin : Z.of_nat j * step < Py.len text)
      by (apply (windows_guard _ _ j Hlen); lia).
    cbn [seq map].
    assert (Hjoin : forall x r, Py.join "" (x :: r) = x +:+ Py.join "" r).
    { intros x [|y r]; [simpl; symmetry; apply append_empty_r|reflexivity]. }
    rewrite Hjoin, IH by lia.
    unfold window. rewrite slice_window by lia.
    rewrite take_of_take by lia.
    replace (Z.to_nat (Z.of_nat (S j) * step))
      with (Z.to_nat (Z.of_nat j * step) + Z.to_nat step)%nat by lia.
    rewrite <- drop_of_drop. apply take_drop_str.
Qed.

Lemma chunk_loop_out_of_fuel (text : string) (size overlap : Z) :
  0 < size - overlap ->
  forall (fuel j : nat) (chunks : list string),
    (fuel < windows (Py.len text) (size - overlap) - j)%nat ->
    chunk_loop fuel text size overlap (Z.of_nat j * (size - overlap)) chunks = None.
Proof.
  intros Hstep.
  assert (Hlen : 0 <= Py.len text) by (unfold Py.len; lia).
  induction fuel as [|fuel IH]; intros j chunks Hfuel;
    assert (Hguard : (Z.of_nat j * (size - overlap) <? Py.len text) = true)
      by (apply Z.ltb_lt; apply (windows_guard _ _ j Hlen Hstep); lia);
    cbn [chunk_loop]; rewrite Hguard; [reflexivity|].
  replace (Z.of_nat j * (size - overlap) + (size - overlap))
    with (Z.of_nat (S j) * (size - overlap)) by lia.
  apply IH. lia.
Qed.

(** X24. For 0 <= chunk_overlap < chunk_size, the loop of chunk_text ends after
    exactly ceil(len(text) / step) iterations, step = chunk_size - chunk_overlap,
    which is at most len(text), and returns that many chunks, the k-th being
    text[k*step : k*step + chunk_size]; every chunk is non-empty and has at most
    chunk_size characters; and no character is lost: the first step characters of
    each chunk, put together, give the text back. *)
Theorem chunks_are_windows_that_cover_the_text
    (text : string) (chunk_size chunk_overlap : Z) :
  0 <= chunk_overlap < chunk_size ->
  let step := chunk_size - chunk_overlap in
  let chunks := map (window text chunk_size step) (seq 0 (windows (Py.len text) step)) in
  (forall fuel : nat,
      chunk_text fuel chunk_size chunk_overlap text
      = if (windows (Py.len text) step <=? fuel)%nat then Some chunks else None)
  /\ (windows (Py.len text) step <= String.length text)%nat
  /\ Py.join "" (map (fun c => Py.take (Z.to_nat step) c) chunks) = text
  /\ Forall (fun c => 0 < Py.len c <= chunk_size) chunks.
Proof.
  intros Hsizes step chunks.
  assert (Hstep : 0 < step) by (subst step; lia).
  split; [|split; [|split]].
  - intros fuel. destruct (windows (Py.len text) step <=? fuel)%nat eqn:Hfuel.
    + apply Nat.leb_le in Hfuel. apply chunk_text_closed_form; assumption.
    + apply Nat.leb_gt in Hfuel. unfold chunk_text.
      apply (chunk_loop_out_of_fuel text chunk_size chunk_overlap Hstep fuel 0%nat []).
      fold step. lia.
  - apply windows_le_length. exact Hstep.
  - subst chunks.
    rewrite (windows_cover text chunk_size step ltac:(subst step; lia) _ 0%nat) by lia.
    reflexivity.
  - apply Forall_forall. intros c Hc.
    apply list_elem_of_In, in_map_iff in Hc as (k & <- & Hk). apply in_seq in Hk.
    assert (Hlen : 0 <= Py.len text) by (unfold Py.len; lia).
    assert (Hin : Z.of_nat k * step < Py.len text)
      by (apply (windows_guard _ _ k Hlen Hstep); lia).
    unfold window. rewrite slice_window by lia.
    unfold Py.len in *. rewrite length_take_str, length_drop_str. lia.
Qed.

Lemma chunks_are_windows_that_cover_the_text_witness :
  chunk_text 4 5 2 "abcdefghijkl" = Some ["abcde"; "defgh"; "ghijk"; "jkl"]
  /\ chunk_text 3 5 2 "abcdefghijkl" = None
  /\ Py.join "" (map (fun c => Py.take 3 c) ["abcde"; "defgh"; "ghijk"; "jkl"])
     = "abcdefghijkl".
Proof.
  destruct (chunks_are_windows_that_cover_the_text "abcdefghijkl" 5 2 ltac:(lia))
    as (Hrun & _ & Hcover & _).
  split; [exact (Hrun 4%nat)|]. split; [exact (Hrun 3%nat)|exact Hcover].
Defined.

Section RagChunk.
Context {M T : Type}.
Variable md5_hex : string -> string.
Variable now_iso : Z -> T.

Lemma range0_windows (n step : Z) :
  0 <= n -> 0 < step ->
  Py.range0 n step = Some (map (fun k => Z.of_nat k * step) (seq 0 (windows n step))).
Proof.
  intros Hn Hstep. unfold Py.range0, windows.
  assert (Hz : (step =? 0) = false) by (apply Z.eqb_neq; lia).
  assert (Hp : (0 <? step) = true) by (apply Z.ltb_lt; lia).
  rewrite Hz, Hp. destruct (0 <? n) eqn:Hpos; [reflexivity|].
  apply Z.ltb_ge in Hpos. replace n with 0 by lia.
  rewrite Z.div_small by lia. reflexivity.
Qed.

Lemma chunk_at_window text (metadata : M) size overlap (k : nat) :
  0 < size - overlap ->
  chunk_at md5_hex now_iso text metadata size overlap (Z.of_nat k * (size - overlap))
  = if not_blank (window text size (size - overlap) k)
    then [Chunk (md5_hex (window text size (size - overlap) k
                          +:+ pretty (Z.of_nat k * (size - overlap))))
                (window text size (size - overlap) k) metadata (Z.of_nat k)
                (now_iso (Z.of_nat k * (size - overlap)))]
    else [].
Proof.
  intros Hstep. unfold chunk_at, not_blank, window.
  rewrite Z.div_mul by lia. reflexivity.
Qed.

Lemma flat_map_chunk_at text (metadata : M) size overlap (ks : list nat) :
  0 < size - overlap ->
  let cs := flat_map (chunk_at md5_hex now_iso text metadata size overlap)
                     (map (fun k => Z.of_nat k * (size - overlap)) ks) in
  map chunk_text_ cs
  = List.filter not_blank (map (window text size (size - overlap)) ks)
  /\ map chunk_index cs
     = map Z.of_nat
         (List.filter (fun k => not_blank (window text size (size - overlap) k)) ks)
  /\ Forall (fun c => chunk_id c
                      = md5_hex (chunk_text_ c
                                 +:+ pretty (chunk_index c * (size - overlap)))) cs.
Proof.
  intros Hstep. induction ks as [|k ks IH]; [repeat split; constructor|].
  destruct IH as (Htext & Hindex & Hid).
  cbn [map flat_map List.filter]. rewrite chunk_at_window by exact Hstep.
  destruct (not_blank (window text size (size - overlap) k)).
  - cbn [app map chunk_text_ chunk_index chunk_id].
    split; [f_equal; exact Htext|]. split; [f_equal; exact Hindex|].
    constructor; [reflexivity|exact Hid].
  - cbn [app]. repeat split; assumption.
Qed.

(** X25. For chunk_overlap < chunk_size, the two chunkers cut the same windows: the
    texts of the chunks of rag_system's _chunk_text are the chunks of orchestrator's
    chunk_text with the blank ones (empty after strip) left out, in order; each
    chunk's chunk_index is the index of its window, and its id is the md5 of its
    text followed by its offset chunk_index * (chunk_size - chunk_overlap). *)
Theorem rag_chunks_are_the_nonblank_windows
    (text : string) (metadata : M) (chunk_size overlap : Z) (fuel : nat) :
  overlap < chunk_size ->
  (String.length text <= fuel)%nat ->
  exists cs chunks,
    _chunk_text md5_hex now_iso chunk_size overlap text metadata = Some cs
    /\ chunk_text fuel chunk_size overlap text = Some chunks
    /\ map chunk_text_ cs = List.filter not_blank chunks
    /\ map chunk_index cs
       = map Z.of_nat
           (List.filter (fun k => not_blank (window text chunk_size (chunk_size - overlap) k))
                        (seq 0 (length chunks)))
    /\ Forall (fun c => chunk_id c
                        = md5_hex (chunk_text_ c
                                   +:+ pretty (chunk_index c * (chunk_size - overlap)))) cs.
Proof.
  intros Hsizes Hfuel.
  assert (Hstep : 0 < chunk_size - overlap) by lia.
  assert (Hlen : 0 <= Py.len text) by (unfold Py.len; lia).
  unfold _chunk_text. rewrite (range0_windows _ _ Hlen Hstep).
  rewrite chunk_text_closed_form
    by (try exact Hstep; pose proof (windows_le_length text _ Hstep); lia).
  eexists; eexists. split; [reflexivity|]. split; [reflexivity|].
  rewrite length_map, length_seq.
  apply flat_map_chunk_at. exact Hstep.
Qed.

End RagChunk.

Lemma rag_chunks_are_the_nonblank_windows_witness :
  exists (cs : list (chunk unit unit)),
    _chunk_text (fun s => s) (fun _ => tt) 2 0 "ab  cd" tt = Some cs
    /\ map chunk_text_ cs = ["ab"; "cd"]
    /\ map chunk_index cs = [0; 2].
Proof.
  destruct (@rag_chunks_are_the_nonblank_windows unit unit (fun s => s) (fun _ => tt)
              "ab  cd" tt 2 0 6 ltac:(lia) ltac:(simpl; lia))
    as (cs & chunks & Hrag & Hrun & Htext & Hindex & _).
  exists cs. split; [exact Hrag|].
  assert (Hchunks : chunks = ["ab"; "  "; "cd"]) by (vm_compute in Hrun; congruence).
  subst chunks. split; [exact Htext|exact Hindex].
Defined.

End WindowFacts.
